(** * NanoClaw: pairing state machine and Matrix message admission

    A shallow embedding of the pairing module (owner / pending-pairing
    slots, one-time codes, lazy expiry), of the [room.message] callback of
    the Matrix monitor, of the pairing command-line script and of
    [loadMatrixConfig], followed by the properties proved about them.

    Conventions.
    - JavaScript strings are modelled by [string]; the two string methods
      the code relies on ([toUpperCase], [trim]) follow ECMAScript on ASCII
      text and leave characters above 127 alone.  What is proved of a
      code that is refused, or of the text that comes out of [trim], is
      therefore stated for ASCII text.
    - [T | null] and optional fields are [option T].
    - Everything the code reads from or writes to the outside (files, the
      clock, the random source) lives in an explicit [World], threaded by a
      state monad [IO].
    - Instants are milliseconds since the epoch; a time stamp is the text
      [toISOString] prints.  The clock is within the range of [Date]; the
      origin time of an event need not be, and the callback of the monitor
      throws where [toISOString] does.
    - An awaited call is made where the code awaits it; [None] is a
      rejected promise.
    - Built-ins of the JavaScript runtime ([Date], [JSON.parse], the
      compiling and matching of regular expressions) and constants of
      [config.js] are section variables. *)

From Stdlib Require Import ZArith NArith Ascii String List Bool Lia DecimalString DecimalZ.
From stdpp Require Import base option gmap strings list.

Local Open Scope string_scope.
Local Open Scope Z_scope.

(* ------------------------------------------------------------------ *)
(** ** JavaScript string helpers *)

Module Js.

(** [!s] for a string: the empty string is falsy. *)
Definition falsy (s : string) : bool :=
  match s with EmptyString => true | String _ _ => false end.

(** [!x] for [x : string | undefined]. *)
Definition not_ (x : option string) : bool :=
  match x with None => true | Some s => falsy s end.

(** [a || b] on an optional string and a string fallback. *)
Definition or_else (a : option string) (b : string) : string :=
  match a with
  | Some s => if falsy s then b else s
  | None => b
  end.

(** [a ?? b ?? c] on optional booleans. *)
Definition nullish {A : Type} (a : option A) (b : A) : A :=
  match a with Some v => v | None => b end.

Definition ascii_toUpperCase (c : ascii) : ascii :=
  let n := nat_of_ascii c in
  if ((97 <=? n)%nat && (n <=? 122)%nat)%bool then ascii_of_nat (n - 32) else c.

Fixpoint toUpperCase (s : string) : string :=
  match s with
  | EmptyString => EmptyString
  | String c s' => String (ascii_toUpperCase c) (toUpperCase s')
  end.

(** White space removed by [trim]: TAB, LF, VT, FF, CR and SPACE. *)
Definition isWhiteSpace (c : ascii) : bool :=
  let n := nat_of_ascii c in
  ((9 <=? n)%nat && (n <=? 13)%nat || (n =? 32)%nat)%bool.

Fixpoint trimStart (s : string) : string :=
  match s with
  | EmptyString => EmptyString
  | String c s' => if isWhiteSpace c then trimStart s' else s
  end.

Fixpoint trimEnd (s : string) : string :=
  match s with
  | EmptyString => EmptyString
  | String c s' =>
      match trimEnd s' with
      | EmptyString => if isWhiteSpace c then EmptyString else String c EmptyString
      | t => String c t
      end
  end.

Definition trim (s : string) : string := trimEnd (trimStart s).

End Js.

(* ------------------------------------------------------------------ *)
(** ** The world outside the program *)

(** [Owner] of pairing.ts. *)
Module Owner.
Record t := mk {
  ownerId : string;
  mainRoomId : string;
  pairedAt : string
}.
End Owner.

(** [PendingPairing] of pairing.ts (the requester field is spelled
    [oderId] in the source). *)
Module PendingPairing.
Record t := mk {
  code : string;
  oderId : string;
  roomId : string;
  roomName : string;
  createdAt : string
}.
End PendingPairing.

(** [RegisteredGroup], as written by the pairing script. *)
Module RegisteredGroup.
Record t := mk {
  name : string;
  folder : string;
  trigger : string;
  added_at : string
}.
End RegisteredGroup.

(** The data directory: one slot per JSON file, plus the directories
    created so far. *)
Record FileSystem := mkFs {
  owner_json : option Owner.t;
  pending_pairing_json : option PendingPairing.t;
  registered_groups_json : option (gmap string RegisteredGroup.t);
  directories : gset string
}.

(** [Date_now] is what [Date.now()] answers; [entropy] is the raw output of
    the system random source and [drawn] how much of it was consumed. *)
Record World := mkWorld {
  files : FileSystem;
  Date_now : Z;
  entropy : nat -> N;
  drawn : nat
}.

Definition set_files (f : FileSystem -> FileSystem) (w : World) : World :=
  mkWorld (f (files w)) (Date_now w) (entropy w) (drawn w).

(** Time passing between two operations: nothing but the clock moves. *)
Definition tick (dt : Z) (w : World) : World :=
  mkWorld (files w) (Date_now w + dt) (entropy w) (drawn w).

(** State monad over the world. *)
Definition IO (A : Type) : Type := World -> A * World.

Definition ret {A} (a : A) : IO A := fun w => (a, w).
Definition bind {A B} (m : IO A) (k : A -> IO B) : IO B :=
  fun w => let (a, w') := m w in k a w'.
Definition gets {A} (f : World -> A) : IO A := fun w => (f w, w).
Definition modify (f : World -> World) : IO unit := fun w => (tt, f w).

Declare Scope io_scope.
Delimit Scope io_scope with io.
Notation "'let*' x ':=' c 'in' k" := (bind c (fun x => k))
  (at level 10, x name, c at level 100, k at level 200) : io_scope.
Notation "c ';;' k" := (bind c (fun _ => k))
  (at level 100, k at level 200, right associativity) : io_scope.

(* ------------------------------------------------------------------ *)
(** ** utils.js and the parts of [fs] and [crypto] the code calls *)

Module Utils.

(** The typed paths of the JSON files of the data directory. *)
Inductive JsonPath : Type -> Type :=
| OWNER_PATH : JsonPath Owner.t
| PENDING_PATH : JsonPath PendingPairing.t
| GROUPS_PATH : JsonPath (gmap string RegisteredGroup.t).

Definition slot {T} (p : JsonPath T) : FileSystem -> option T :=
  match p in JsonPath T return FileSystem -> option T with
  | OWNER_PATH => owner_json
  | PENDING_PATH => pending_pairing_json
  | GROUPS_PATH => registered_groups_json
  end.

Definition set_slot {T} (p : JsonPath T) : option T -> FileSystem -> FileSystem :=
  match p in JsonPath T return option T -> FileSystem -> FileSystem with
  | OWNER_PATH => fun v f =>
      mkFs v (pending_pairing_json f) (registered_groups_json f) (directories f)
  | PENDING_PATH => fun v f =>
      mkFs (owner_json f) v (registered_groups_json f) (directories f)
  | GROUPS_PATH => fun v f =>
      mkFs (owner_json f) (pending_pairing_json f) v (directories f)
  end.

(** Modelled from the spec: [loadJson] of utils.js is not part of the
    sources at hand.  The spec describes the store as slots that are
    either empty or occupied by one record; reading an empty slot yields
    the default handed in by the caller. *)
Definition loadJson {T} (p : JsonPath T) (default : option T) : IO (option T) :=
  gets (fun w => match slot p (files w) with
                 | Some v => Some v
                 | None => default
                 end).

(** Modelled from the spec: [saveJson] of utils.js; it overwrites the
    slot with the record. *)
Definition saveJson {T} (p : JsonPath T) (v : T) : IO unit :=
  modify (set_files (set_slot p (Some v))).

(** [fs.unlinkSync]: removes the file, or throws when there is none. *)
Inductive FsError := ENOENT.

Definition unlinkSync {T} (p : JsonPath T) : IO (FsError + unit) :=
  fun w => match slot p (files w) with
           | Some _ => (inr tt, set_files (set_slot p None) w)
           | None => (inl ENOENT, w)
           end.

(** [try { c } catch { /* ignore */ }] *)
Definition try_ignore {E A} (c : IO (E + A)) : IO unit :=
  bind c (fun _ => ret tt).

(** [fs.mkdirSync(dir, { recursive: true })] *)
Definition mkdirSync_recursive (dir : string) : IO unit :=
  modify (set_files (fun f =>
    mkFs (owner_json f) (pending_pairing_json f) (registered_groups_json f)
         ({[ dir ]} ∪ directories f))).

(** [crypto.randomInt(min, max)] for [min < max]: an integer of
    [min, max), here derived from the next word of entropy. *)
Definition randomInt (min max : Z) : IO Z :=
  fun w => (min + Z.of_N (entropy w (drawn w)) mod (max - min),
            mkWorld (files w) (Date_now w) (entropy w) (S (drawn w))).

End Utils.

(* ------------------------------------------------------------------ *)
(** ** pairing.ts *)

Module Pairing.
Import Utils.
Local Open Scope io_scope.

Definition PAIRING_CODE_LENGTH : nat := 8.
Definition PAIRING_CODE_TTL_MS : Z := 10 * 60 * 1000.

(** [alphabet[i]]: the character at index [i] as a string, or
    [undefined], which [+=] renders as the text "undefined". *)
Definition charAt (alphabet : string) (i : Z) : string :=
  match (if i <? 0 then None else String.get (Z.to_nat i) alphabet) with
  | Some c => String c EmptyString
  | None => "undefined"
  end.

Definition alphabet : string := "ABCDEFGHJKLMNPQRSTUVWXYZ23456789".

(** The [for] loop of [generateCode], with [n] iterations left. *)
Fixpoint generateCode_loop (n : nat) (code : string) : IO string :=
  match n with
  | O => ret code
  | S n' =>
      let* i := randomInt 0 (Z.of_nat (String.length alphabet)) in
      generateCode_loop n' (code ++ charAt alphabet i)
  end.

Definition generateCode : IO string :=
  generateCode_loop PAIRING_CODE_LENGTH "".

Definition getOwner : IO (option Owner.t) :=
  loadJson OWNER_PATH None.

(** [owner?.ownerId === userId] *)
Definition isOwner (userId : string) : IO bool :=
  let* owner := getOwner in
  ret (match owner with
       | Some o => String.eqb (Owner.ownerId o) userId
       | None => false
       end).

Definition isPaired : IO bool :=
  let* owner := getOwner in
  ret (match owner with Some _ => true | None => false end).

Definition getMainRoomId : IO (option string) :=
  let* owner := getOwner in
  ret (match owner with Some o => Some (Owner.mainRoomId o) | None => None end).

Definition isMainRoom (roomId : string) : IO bool :=
  let* owner := getOwner in
  ret (match owner with
       | Some o => String.eqb (Owner.mainRoomId o) roomId
       | None => false
       end).

(** [Date.now() - createdAt > PAIRING_CODE_TTL_MS], where [createdAt] is
    [NaN] (here [None]) when the stored text is not a date: a comparison
    with [NaN] is false. *)
Definition expired (now : Z) (createdAt : option Z) : bool :=
  match createdAt with
  | Some c => now - c >? PAIRING_CODE_TTL_MS
  | None => false
  end.

Section WithDate.
(** [new Date(ms).toISOString()], for [ms] in the range of valid
    dates, and [new Date(text).getTime()] with [None] for [NaN]. *)
Variable Date_toISOString : Z -> string.
Variable Date_getTime : string -> option Z.

Definition createPairingRequest (userId roomId roomName : string) : IO string :=
  let* code := generateCode in
  let* now := gets Date_now in
  let pending := PendingPairing.mk code userId roomId roomName (Date_toISOString now) in
  saveJson PENDING_PATH pending ;;
  ret code.

Definition getPendingPairing : IO (option PendingPairing.t) :=
  let* pending := loadJson PENDING_PATH None in
  match pending with
  | None => ret None
  | Some pending =>
      let createdAt := Date_getTime (PendingPairing.createdAt pending) in
      let* now := gets Date_now in
      if expired now createdAt then
        try_ignore (unlinkSync PENDING_PATH) ;;
        ret None
      else ret (Some pending)
  end.

Definition approvePairing (code : string) : IO (option Owner.t) :=
  let* pending := getPendingPairing in
  match pending with
  | None => ret None
  | Some pending =>
      if negb (String.eqb (Js.toUpperCase (PendingPairing.code pending))
                          (Js.toUpperCase code))
      then ret None
      else
        let* now := gets Date_now in
        let owner :=
          Owner.mk (PendingPairing.oderId pending) (PendingPairing.roomId pending)
                   (Date_toISOString now) in
        saveJson OWNER_PATH owner ;;
        try_ignore (unlinkSync PENDING_PATH) ;;
        ret (Some owner)
  end.

End WithDate.
End Pairing.

(* ------------------------------------------------------------------ *)
(** ** matrix-types.ts *)

Module MatrixRoomConfig.
Record t := mk {
  enabled : option bool;
  requireMention : option bool;
  folder : option string;
  triggerPattern : option string
}.
End MatrixRoomConfig.

Module MatrixConfig.
Record t := mk {
  homeserver : string;
  userId : string;
  accessToken : string;
  encryption : option bool;
  rooms : option (gmap string MatrixRoomConfig.t);
  requireMention : option bool
}.
End MatrixConfig.

Module MatrixMessage.
Record t := mk {
  roomId : string;
  eventId : string;
  sender : string;
  senderName : string;
  content : string;
  timestamp : string;
  threadId : option string;
  replyToId : option string
}.
End MatrixMessage.

(* ------------------------------------------------------------------ *)
(** ** matrix-monitor.ts *)

(** The event handed to the [room.message] callback, with the fields the
    callback reads. *)
Module Event.
Record RelatesTo := mkRelatesTo {
  rel_type : option string;
  rel_event_id : option string
}.
Record Content := mkContent {
  msgtype : option string;
  body : option string;
  m_relates_to : option RelatesTo
}.
Record t := mk {
  sender : string;
  type : string;
  event_id : string;
  content : option Content;
  origin_server_ts : option Z
}.
End Event.

(** A regular expression, as the source text and the flags given to
    [new RegExp]. *)
Record RegExp := mkRegExp { source : string; flags : string }.

(** What the callback uses of the Matrix client.  [None] stands for a
    rejected promise. *)
Record Profile := mkProfile { displayname : option string }.
Record MatrixClient := mkClient {
  getJoinedRoomMembers : string -> option (list string);
  getUserProfile : string -> option Profile
}.

Module MatrixMonitor.
Local Open Scope io_scope.

Inductive LogLevel := Debug | Info | Error.

(** What one run of the callback does that can be seen from outside,
    in the order it does it. *)
Inductive Effect :=
| Logged (level : LogLevel) (msg : string)
| Called_getJoinedRoomMembers (roomId : string)
| Tested_mentionPattern (text : string)
| Tested_TRIGGER_PATTERN (text : string)
| Called_getUserProfile (userId : string)
| Called_onMessage (message : MatrixMessage.t)
                   (roomConfig : option MatrixRoomConfig.t) (isMain : bool)
| Threw_RangeError.   (* [toISOString] threw: the promise of the callback rejects *)

(** The time values a [Date] can hold: [new Date(t).toISOString()] throws
    a RangeError for any other [t]. *)
Definition Date_isValid (t : Z) : bool := Z.abs t <=? 8640000000000000.

(** [userId.split(':')[0]] *)
Fixpoint before_colon (s : string) : string :=
  match s with
  | EmptyString => EmptyString
  | String c s' => if Ascii.eqb c ":" then EmptyString else String c (before_colon s')
  end.

(** [s.replace('@', '')]: the first occurrence only. *)
Fixpoint remove_first_at (s : string) : string :=
  match s with
  | EmptyString => EmptyString
  | String c s' => if Ascii.eqb c "@" then s' else String c (remove_first_at s')
  end.

(** The class [[.*+?^${}()|[\]\\]]. *)
Definition isMetaChar (c : ascii) : bool :=
  existsb (Ascii.eqb c)
    ["."; "*"; "+"; "?"; "^"; "$"; "{"; "}"; "("; ")"; "|"; "["; "]"; "\"]%char.

(** [s.replace(/[.*+?^${}()|[\]\\]/g, '\\$&')] *)
Fixpoint escapeRegExp (s : string) : string :=
  match s with
  | EmptyString => EmptyString
  | String c s' =>
      if isMetaChar c then String "\" (String c (escapeRegExp s'))
      else String c (escapeRegExp s')
  end.

Section Callback.
Variable config : MatrixConfig.t.
Variable client : MatrixClient.
(** Constants of config.js. *)
Variable ASSISTANT_NAME : string.
Variable TRIGGER_PATTERN : RegExp.
(** [re.test(text)] of the runtime, and [new Date(ms).toISOString()] on
    the time values a [Date] can hold. *)
Variable RegExp_test : RegExp -> string -> bool.
Variable Date_toISOString : Z -> string.
(** The downstream handler, as the callback sees it: [Some err] when its
    promise rejects.  What the handler writes is its own business (see
    [ProcessMatrixMessage]) and is not followed through the callback. *)
Variable onMessage :
  MatrixMessage.t -> option MatrixRoomConfig.t -> bool -> option string.

(** What [buildMentionPattern] asks [new RegExp] to compile. *)
Definition buildMentionPattern : RegExp :=
  let userId := MatrixConfig.userId config in
  let localpart := remove_first_at (before_colon userId) in
  mkRegExp ("(@" ++ ASSISTANT_NAME ++ "|@" ++ localpart ++ "|"
            ++ escapeRegExp userId ++ ")") "i".

Definition mentionPattern : RegExp := buildMentionPattern.

(** [config.rooms?.[roomId] ?? null] *)
Definition roomConfig_of (roomId : string) : option MatrixRoomConfig.t :=
  match MatrixConfig.rooms config with
  | Some rooms => rooms !! roomId
  | None => None
  end.

(** [!content || content.msgtype !== 'm.text' || !content.body] *)
Definition not_text (content : option Event.Content) : bool :=
  match content with
  | None => true
  | Some c =>
      negb (match Event.msgtype c with
            | Some m => String.eqb m "m.text"
            | None => false
            end)
      || Js.not_ (Event.body c)
  end.

(** [roomConfig?.enabled === false] *)
Definition disabled (roomConfig : option MatrixRoomConfig.t) : bool :=
  match roomConfig with
  | Some rc => match MatrixRoomConfig.enabled rc with
               | Some false => true
               | _ => false
               end
  | None => false
  end.

(** [members.length <= 2], and [false] when the lookup threw. *)
Definition isDM_of (members : option (list string)) : bool :=
  match members with
  | Some ms => (length ms <=? 2)%nat
  | None => false
  end.

(** [isDM ? false
     : (roomConfig?.requireMention ?? config.requireMention ?? !isMain)] *)
Definition requireMention_of (isDM : bool)
    (roomConfig : option MatrixRoomConfig.t) (isMain : bool) : bool :=
  if isDM then false
  else Js.nullish (roomConfig ≫= MatrixRoomConfig.requireMention)
         (Js.nullish (MatrixConfig.requireMention config) (negb isMain)).

(** [relatesTo?.rel_type === 'm.thread' ? relatesTo.event_id : undefined] *)
Definition threadId_of (relatesTo : option Event.RelatesTo) : option string :=
  match relatesTo with
  | Some r =>
      match Event.rel_type r with
      | Some t => if String.eqb t "m.thread" then Event.rel_event_id r else None
      | None => None
      end
  | None => None
  end.

(** [(event.origin_server_ts as number) || Date.now()] *)
Definition origin_or (ts : option Z) (now : Z) : Z :=
  match ts with
  | Some t => if t =? 0 then now else t
  | None => now
  end.

(** The callback registered for [room.message]. *)
Definition room_message (roomId : string) (event : Event.t)
  : IO (list Effect) :=
  let received := Logged Debug "Received room.message event" in
  if String.eqb (Event.sender event) (MatrixConfig.userId config)
  then ret [received]
  else
  let content := Event.content event in
  if not_text content
  then ret [received; Logged Debug "Ignoring non-text message"]
  else
  let text := Js.trim (default "" (content ≫= Event.body)) in
  if Js.falsy text then ret [received]
  else
  let roomConfig := roomConfig_of roomId in
  if disabled roomConfig then ret [received]
  else
  let* paired := Pairing.isPaired in
  let* isMain := (if paired then Pairing.isMainRoom roomId else ret false) in
  let isDM := isDM_of (getJoinedRoomMembers client roomId) in
  let requireMention := requireMention_of isDM roomConfig isMain in
  let checked :=
    [received; Called_getJoinedRoomMembers roomId; Logged Debug "Message check"] in
  let mentioned := RegExp_test mentionPattern text in
  let triggered := RegExp_test TRIGGER_PATTERN text in
  let tests :=
    if requireMention
    then Tested_mentionPattern text
         :: (if mentioned then [] else [Tested_TRIGGER_PATTERN text])
    else [] in
  if requireMention && negb mentioned && negb triggered
  then ret (checked ++ tests
            ++ [Logged Debug "Message ignored - no trigger/mention"])%list
  else
  let sender := Event.sender event in
  let senderName :=
    match getUserProfile client sender with
    | Some profile => Js.or_else (displayname profile) sender
    | None => sender
    end in
  let relatesTo := content ≫= Event.m_relates_to in
  let threadId := threadId_of relatesTo in
  let* now := gets Date_now in
  let time := origin_or (Event.origin_server_ts event) now in
  if negb (Date_isValid time)
  then ret (checked ++ tests
            ++ [Called_getUserProfile sender; Threw_RangeError])%list
  else
  let message :=
    MatrixMessage.mk roomId (Event.event_id event) sender senderName text
      (Date_toISOString time) threadId None in
  let handled :=
    Called_onMessage message roomConfig isMain
    :: match onMessage message roomConfig isMain with
       | Some _ => [Logged Error "Error handling Matrix message"]
       | None => []
       end in
  ret (checked ++ tests
       ++ [Called_getUserProfile sender; Logged Info "Processing Matrix message"]
       ++ handled)%list.

(** Whether a run of the callback reached the handler. *)
Definition is_onMessage (e : Effect) : bool :=
  match e with Called_onMessage _ _ _ => true | _ => false end.

Definition dispatched (trace : list Effect) : bool := existsb is_onMessage trace.

(** Whether a run evaluated a pattern on the message text. *)
Definition is_test (e : Effect) : bool :=
  match e with
  | Tested_mentionPattern _ | Tested_TRIGGER_PATTERN _ => true
  | _ => false
  end.

(** Whether [new RegExp(source, flags)] returns: it throws a SyntaxError
    on a source that is no regular expression. *)
Variable RegExp_compiles : RegExp -> bool.

Inductive Started :=
| Monitoring (on_room_message : string -> Event.t -> IO (list Effect))
| Threw_SyntaxError.

(** [startMatrixMonitor], from where it has the client and the
    configuration: the mention pattern is compiled once, before the
    callback is registered.  (The listener for invites only logs and is
    left out.) *)
Definition startMatrixMonitor : Started :=
  if RegExp_compiles buildMentionPattern
  then Monitoring room_message
  else Threw_SyntaxError.

End Callback.
End MatrixMonitor.

(* ------------------------------------------------------------------ *)
(** ** pair.ts, the pairing command-line script *)

Module PairCli.
Import Utils.
Local Open Scope io_scope.

Inductive Console :=
| Stderr (line : string)     (* console.error *)
| Stdout (line : string).    (* console.log *)

(** How the process ended: what it printed and its exit status. *)
Record Exit := mkExit { printed : list Console; status : Z }.

Section Script.
Variable Date_toISOString : Z -> string.
Variable Date_getTime : string -> option Z.
(** Constants of config.js and [path.join] of the runtime. *)
Variable DATA_DIR : string.
Variable MAIN_GROUP_FOLDER : string.
Variable path_join : list string -> string.

Definition getPendingPairing := Pairing.getPendingPairing Date_getTime.
Definition approvePairing := Pairing.approvePairing Date_toISOString Date_getTime.

Definition usage : list Console :=
  [Stderr "Usage: npm run pair <CODE>"; Stderr ""].

Definition pending_info (pending : PendingPairing.t) : list Console :=
  [Stderr "Pending pairing request:";
   Stderr ("  Code: " ++ PendingPairing.code pending);
   Stderr ("  User: " ++ PendingPairing.oderId pending);
   Stderr ("  Room: " ++ PendingPairing.roomName pending);
   Stderr ("  Created: " ++ PendingPairing.createdAt pending)].

Definition owner_info (headline : string) (owner : Owner.t) : list Console :=
  [Stderr headline;
   Stderr ("  Owner: " ++ Owner.ownerId owner);
   Stderr ("  Main Room: " ++ Owner.mainRoomId owner);
   Stderr ("  Paired: " ++ Owner.pairedAt owner)].

Definition no_pending : Console :=
  Stderr "No pending pairing request. Send a message to the bot first.".

Definition success (owner : Owner.t) : list Console :=
  [Stdout "✅ Pairing successful!";
   Stdout "";
   Stdout ("  Owner: " ++ Owner.ownerId owner);
   Stdout ("  Main Room: " ++ Owner.mainRoomId owner);
   Stdout ("  Folder: groups/" ++ MAIN_GROUP_FOLDER ++ "/");
   Stdout "";
   Stdout "Restart NanoClaw to apply changes:";
   Stdout "  systemctl --user restart nanoclaw"].

(** The script, run with [process.argv[2]] equal to [argv2]. *)
Definition main (argv2 : option string) : IO Exit :=
  let code := argv2 in
  if Js.not_ code then
    let* pending := getPendingPairing in
    match pending with
    | Some pending => ret (mkExit (usage ++ pending_info pending) 1)
    | None =>
        let* owner := Pairing.getOwner in
        match owner with
        | Some owner =>
            ret (mkExit (usage ++ owner_info "NanoClaw is already paired:" owner) 1)
        | None => ret (mkExit (usage ++ [no_pending]) 1)
        end
    end
  else
  let code := default "" code in
  (* Already paired? *)
  let* existingOwner := Pairing.getOwner in
  match existingOwner with
  | Some existingOwner =>
      ret (mkExit (owner_info "NanoClaw is already paired!" existingOwner
                   ++ [Stderr "";
                       Stderr "To reset, delete data/owner.json and restart NanoClaw."])
                  1)
  | None =>
  (* Try to approve *)
  let* owner := approvePairing code in
  match owner with
  | None =>
      let* pending := getPendingPairing in
      ret (mkExit
             [Stderr "Invalid or expired pairing code.";
              match pending with
              | Some pending => Stderr ("Current valid code: " ++ PendingPairing.code pending)
              | None => no_pending
              end] 1)
  | Some owner =>
      (* Register the main group *)
      let* groups := loadJson GROUPS_PATH (Some ∅) in
      let groups := default ∅ groups in
      let* now := gets Date_now in
      let groups :=
        <[ Owner.mainRoomId owner :=
             RegisteredGroup.mk "main" MAIN_GROUP_FOLDER "@Andy" (Date_toISOString now) ]> groups in
      saveJson GROUPS_PATH groups ;;
      let mainGroupDir := path_join [DATA_DIR; ".."; "groups"; MAIN_GROUP_FOLDER] in
      mkdirSync_recursive (path_join [mainGroupDir; "logs"]) ;;
      ret (mkExit (success owner) 0)
  end
  end.

End Script.
End PairCli.

(* ------------------------------------------------------------------ *)
(** ** matrix-client.ts: [loadMatrixConfig] *)

Module MatrixClientConfig.

(** A parsed JSON document. *)
#[local] Unset Elimination Schemes.
Inductive Json :=
| JNull
| JBool (b : bool)
| JNumber (n : Z)
| JString (s : string)
| JArray (items : list Json)
| JObject (members : list (string * Json)).
#[local] Set Elimination Schemes.

(** What [loadMatrixConfig] reads: the text of [data/matrix_config.json]
    when the file exists, and [process.env]. *)
Record Host := mkHost {
  matrix_config_json : option string;
  env : gmap string string
}.

Inductive LoadError :=
| SyntaxError                       (* thrown by JSON.parse *)
| ConfigError (message : string).   (* thrown by loadMatrixConfig *)

(** The value returned: the parsed file as it is (the cast to
    [MatrixConfig] checks nothing), or the record built from the
    environment. *)
Inductive Loaded :=
| FromFile (parsed : Json)
| FromEnv (config : MatrixConfig.t).

Definition credentials_message : string :=
  "Matrix credentials not configured. Set MATRIX_HOMESERVER, MATRIX_USER_ID, and MATRIX_ACCESS_TOKEN "
  ++ "in .env or create data/matrix_config.json".

Section Load.
(** [JSON.parse]; [None] when it throws. *)
Variable JSON_parse : string -> option Json.

Definition loadMatrixConfig (h : Host) : LoadError + Loaded :=
  match matrix_config_json h with
  | Some text =>
      (* Try loading from config file first *)
      match JSON_parse text with
      | Some parsed => inr (FromFile parsed)
      | None => inl SyntaxError
      end
  | None =>
      (* Fall back to environment variables *)
      let homeserver := env h !! "MATRIX_HOMESERVER" in
      let userId := env h !! "MATRIX_USER_ID" in
      let accessToken := env h !! "MATRIX_ACCESS_TOKEN" in
      if Js.not_ homeserver || Js.not_ userId || Js.not_ accessToken
      then inl (ConfigError credentials_message)
      else
        inr (FromEnv
          (MatrixConfig.mk (default "" homeserver) (default "" userId)
             (default "" accessToken)
             (Some (bool_decide (env h !! "MATRIX_ENCRYPTION" = Some "true")))
             None
             (Some (negb (bool_decide
                (env h !! "MATRIX_REQUIRE_MENTION" = Some "false"))))))
  end.

End Load.
End MatrixClientConfig.

(* ================================================================== *)
(** * Vocabulary and examples *)

(** ** A runtime to run the model on *)

(** Time stamps rendered as epoch milliseconds in decimal: a rendering
    that, like ISO 8601 with milliseconds, reads back to the instant it
    was printed from. *)
Module DecimalClock.
Definition toISOString (ms : Z) : string :=
  DecimalString.NilZero.string_of_int (Z.to_int ms).
Definition getTime (text : string) : option Z :=
  option_map Z.of_int (DecimalString.NilZero.int_of_string text).
End DecimalClock.

(** ** Vocabulary of the pairing properties *)

(** The characters of [s], as a list. *)
Definition chars := list_ascii_of_string.

(** Text within ASCII.  On such text [Js.toUpperCase] and [Js.trim] are
    the [toUpperCase] and [trim] of ECMAScript, and a character is a
    UTF-16 code unit. *)
Definition ascii_text (s : string) : bool :=
  forallb (fun c => (nat_of_ascii c <? 128)%nat) (chars s).

(** The characters the alphabet leaves out. *)
Definition ambiguous : list ascii := ["0"; "O"; "1"; "I"]%char.

(** The world once the pending-pairing file is removed. *)
Definition without_pending (w : World) : World :=
  set_files (Utils.set_slot Utils.PENDING_PATH None) w.

(** The world once [owner] is written to the owner file. *)
Definition with_owner (owner : Owner.t) (w : World) : World :=
  set_files (Utils.set_slot Utils.OWNER_PATH (Some owner)) w.

(** ** Vocabulary of the admission properties *)

Module Admission.
Import MatrixMonitor.

(** The body of the event as the callback reads it. *)
Definition body_text (event : Event.t) : string :=
  default "" (Event.content event ≫= Event.body).

(** The time the callback stamps the message with. *)
Definition stamped (event : Event.t) (w : World) : Z :=
  origin_or (Event.origin_server_ts event) (Date_now w).

(** The message got past the three rejection checks, and [text] is its
    trimmed body. *)
Definition passes_prechecks (config : MatrixConfig.t) (roomId : string)
    (event : Event.t) (text : string) : Prop :=
  Event.sender event <> MatrixConfig.userId config
  /\ (exists c b,
        Event.content event = Some c
        /\ Event.msgtype c = Some "m.text"
        /\ Event.body c = Some b
        /\ text = Js.trim b
        /\ text <> "")
  /\ (roomConfig_of config roomId ≫= MatrixRoomConfig.enabled) <> Some false.

(** The system is paired and [roomId] is the owner's main room. *)
Definition isMain_in (w : World) (roomId : string) : bool :=
  match owner_json (files w) with
  | Some owner => bool_decide (Owner.mainRoomId owner = roomId)
  | None => false
  end.

(** The room counts as a direct message: its members could be fetched
    and there are at most two. *)
Definition isDM_in (client : MatrixClient) (roomId : string) : bool :=
  match getJoinedRoomMembers client roomId with
  | Some members => bool_decide (length members <= 2)%nat
  | None => false
  end.

(** The mention requirement in the words of the specification. *)
Definition requireMention_spec (isDM : bool) (perRoom global : option bool)
    (isMain : bool) : bool :=
  if isDM then false
  else match perRoom, global with
       | Some override, _ => override
       | None, Some default => default
       | None, None => negb isMain
       end.

Definition is_log (e : Effect) : bool :=
  match e with Logged _ _ => true | _ => false end.

End Admission.

(** ** Vocabulary of the configuration properties *)

(** An environment variable that is not set, or set to the empty text. *)
Definition unset_or_empty (v : option string) : Prop := v = None \/ v = Some "".

(** What the pairing script prints when it refuses to pair again. *)
Definition already_paired_report (owner : Owner.t) : list PairCli.Console :=
  [PairCli.Stderr "NanoClaw is already paired!";
   PairCli.Stderr ("  Owner: " ++ Owner.ownerId owner);
   PairCli.Stderr ("  Main Room: " ++ Owner.mainRoomId owner);
   PairCli.Stderr ("  Paired: " ++ Owner.pairedAt owner);
   PairCli.Stderr "";
   PairCli.Stderr "To reset, delete data/owner.json and restart NanoClaw."].

(** ** Worlds used to run the model *)

Definition empty_fs : FileSystem := mkFs None None None ∅.

(** A fresh installation at instant 1000. *)
Definition w_fresh : World :=
  mkWorld empty_fs 1000 (fun n => N.of_nat (7 * n + 3)) 0.

Definition alice_request : PendingPairing.t :=
  PendingPairing.mk "DLT29GPW" "@alice:example.org" "!ops:example.org" "Ops" "1000".

(** Alice's request is pending, 499 seconds old. *)
Definition w_pending : World :=
  mkWorld (mkFs None (Some alice_request) None ∅) 500000 (fun n => N.of_nat n) 8.

Definition bob : Owner.t := Owner.mk "@bob:example.org" "!den:example.org" "900".

(** Bob is the owner and Alice's request is pending. *)
Definition w_paired_pending : World :=
  mkWorld (mkFs (Some bob) (Some alice_request) None ∅) 500000 (fun n => N.of_nat n) 8.

(** A bot called Andy, three rooms and a few messages. *)
Module Example.

Definition rooms : gmap string MatrixRoomConfig.t :=
  {[ "!off:example.org" := MatrixRoomConfig.mk (Some false) None None None ]}.

(** No global mention setting. *)
Definition config : MatrixConfig.t :=
  MatrixConfig.mk "https://matrix.example.org" "@andy:example.org" "secret"
    None (Some rooms) None.

(** Mentions required everywhere. *)
Definition config_strict : MatrixConfig.t :=
  MatrixConfig.mk "https://matrix.example.org" "@andy:example.org" "secret"
    None (Some rooms) (Some true).

(** [!dm] has two members, the members of [!lost] cannot be fetched, any
    other room has three members; no profile can be fetched. *)
Definition client : MatrixClient :=
  mkClient
    (fun roomId =>
       if String.eqb roomId "!dm:example.org"
       then Some ["@alice:example.org"; "@andy:example.org"]
       else if String.eqb roomId "!lost:example.org" then None
       else Some ["@alice:example.org"; "@bob:example.org"; "@andy:example.org"])
    (fun _ => None).

Definition TRIGGER_PATTERN : RegExp := mkRegExp "^@Andy\b" "i".

(** A matcher that only knows one thing: whether the text starts with
    [@Andy]. *)
Definition RegExp_test (_ : RegExp) (text : string) : bool :=
  String.prefix "@Andy" text.

Definition onMessage (_ : MatrixMessage.t) (_ : option MatrixRoomConfig.t)
    (_ : bool) : option string := None.

Definition says (sender body : string) : Event.t :=
  Event.mk sender "m.room.message" "$event1"
    (Some (Event.mkContent (Some "m.text") (Some body) None))
    (Some 1700000000000).

(** Alice owns the bot; [!ops] is the main room. *)
Definition w_owned : World :=
  mkWorld (mkFs (Some (Owner.mk "@alice:example.org" "!ops:example.org" "900"))
             None None ∅)
          500000 (fun n => N.of_nat n) 8.

(** No configuration file; the access token is set but blank. *)
Definition host_blank_token : MatrixClientConfig.Host :=
  MatrixClientConfig.mkHost None
    (<[ "MATRIX_HOMESERVER" := "https://matrix.example.org" ]>
       (<[ "MATRIX_USER_ID" := "@andy:example.org" ]>
          (<[ "MATRIX_ACCESS_TOKEN" := "" ]> ∅))).

(** A configuration file that was cut short: its text is no JSON. *)
Definition host_broken_file : MatrixClientConfig.Host :=
  MatrixClientConfig.mkHost (Some "{") ∅.

(** A configuration file holding an empty object. *)
Definition host_empty_file : MatrixClientConfig.Host :=
  MatrixClientConfig.mkHost (Some "{}") ∅.

(** A parser that knows the empty object only, and throws on any other
    text. *)
Definition JSON_parse (text : string) : option MatrixClientConfig.Json :=
  if String.eqb text "{}" then Some (MatrixClientConfig.JObject []) else None.

(** The pairing script with its data under [data] and [main] as the main
    group folder. *)
Definition pair : option string -> IO PairCli.Exit :=
  PairCli.main DecimalClock.toISOString DecimalClock.getTime "data" "main"
    (String.concat "/").

End Example.

(* ================================================================== *)
(** * More of the program *)

(** ** matrix-client.ts: the client and its module state *)

Module MatrixClientModule.
Import MatrixClientConfig.

(** [!!j] for a JSON value. *)
Definition truthy (j : Json) : bool :=
  match j with
  | JNull => false
  | JBool b => b
  | JNumber n => negb (n =? 0)
  | JString s => negb (Js.falsy s)
  | JArray _ | JObject _ => true
  end.

(** The value of the own property [key] among the members of an
    object, [None] for [undefined]. *)
Fixpoint member (key : string) (members : list (string * Json)) : option Json :=
  match members with
  | [] => None
  | (k, v) :: rest => if String.eqb k key then Some v else member key rest
  end.

Inductive Thrown :=
| Load (e : LoadError)          (* thrown by loadMatrixConfig *)
| TypeError                     (* a property read off [null] *)
| Error (message : string)      (* thrown by this module *)
| SdkError.                     (* thrown or rejected by matrix-bot-sdk *)

(** [config.key] for one of the keys of [MatrixConfig], on what
    [loadMatrixConfig] returned.  A parsed file is read as it is: a
    property of [null] throws, a property of another non-object is
    [undefined]. *)
Definition property (config : Loaded) (key : string) : Thrown + option Json :=
  match config with
  | FromFile JNull => inl TypeError
  | FromFile (JObject members) => inr (member key members)
  | FromFile _ => inr None
  | FromEnv c =>
      inr (if String.eqb key "homeserver" then Some (JString (MatrixConfig.homeserver c))
           else if String.eqb key "userId" then Some (JString (MatrixConfig.userId c))
           else if String.eqb key "accessToken"
                then Some (JString (MatrixConfig.accessToken c))
           else if String.eqb key "encryption"
                then JBool <$> MatrixConfig.encryption c
           else if String.eqb key "requireMention"
                then JBool <$> MatrixConfig.requireMention c
           else None)
  end.

(** [!config] for the module variable. *)
Definition config_unset (config : option Loaded) : bool :=
  match config with
  | None => true
  | Some (FromFile j) => negb (truthy j)
  | Some (FromEnv _) => false
  end.

(** The arguments a [MatrixClient] was constructed with: a client is
    told from another by them. *)
Record Client := mkClientArgs {
  homeserverUrl : option Json;
  accessToken : option Json;
  storage : string;                 (* file of the SimpleFsStorageProvider *)
  cryptoStore : option string       (* directory of the crypto store *)
}.

Inductive Level := Debug | Info.

(** What the module does that can be seen from outside. *)
Inductive Effect :=
| Logged (level : Level) (msg : string)
| Setup_autojoin
| Added_preprocessor
| Sent (roomId : string) (content : Event.Content)
| Set_typing (roomId : string) (isTyping : bool) (timeout : Z)
| Stopped.

(** The two module variables, what the module reads from its host,
    the directories it made and the journal of its effects. *)
Record State := mkState {
  client : option Client;
  config : option Loaded;
  host : Host;
  directories : gset string;
  journal : list Effect
}.

Definition with_client (c : option Client) (s : State) : State :=
  mkState c (config s) (host s) (directories s) (journal s).
Definition with_config (c : option Loaded) (s : State) : State :=
  mkState (client s) c (host s) (directories s) (journal s).
Definition mkdir (dir : string) (s : State) : State :=
  mkState (client s) (config s) (host s) ({[ dir ]} ∪ directories s) (journal s).
Definition did (e : list Effect) (s : State) : State :=
  mkState (client s) (config s) (host s) (directories s) (journal s ++ e).

(** A computation that may throw. *)
Definition M (A : Type) : Type := State -> (Thrown + A) * State.

Section Module.
Variable JSON_parse : string -> option Json.
(** [STORE_DIR] of config.js and [path.join] of the runtime. *)
Variable STORE_DIR : string.
Variable path_join : list string -> string.
(** matrix-bot-sdk: whether [new MatrixClient(...)] returns, the
    event identifier [sendMessage] resolves to ([None] when it
    rejects), whether [setTyping] resolves. *)
Variable MatrixClient_new : Client -> bool.
Variable sdk_sendMessage : Client -> string -> Event.Content -> option string.
Variable sdk_setTyping : Client -> string -> bool -> Z -> bool.

Definition initMatrixClient : M Client :=
  fun s =>
    match client s with
    | Some c => (inr c, s)
    | None =>
        match loadMatrixConfig JSON_parse (host s) with
        | inl e => (inl (Load e), s)
        | inr loaded =>
            let s := with_config (Some loaded) s in
            let storageDir := path_join [STORE_DIR; "matrix"] in
            let s := mkdir storageDir s in
            let storage := path_join [storageDir; "bot.json"] in
            (* Setup E2EE crypto storage if encryption is enabled *)
            match property loaded "encryption" with
            | inl e => (inl e, s)
            | inr encryption =>
                let cryptoDir := path_join [storageDir; "crypto"] in
                let encrypted :=
                  match encryption with Some j => truthy j | None => false end in
                let s :=
                  if encrypted
                  then did [Logged Info "E2EE crypto storage initialized"]
                         (mkdir cryptoDir s)
                  else s in
                let cryptoStore := if encrypted then Some cryptoDir else None in
                (* Create client with optional crypto store *)
                let c :=
                  mkClientArgs
                    (match property loaded "homeserver" with
                     | inr v => v | inl _ => None end)
                    (match property loaded "accessToken" with
                     | inr v => v | inl _ => None end)
                    storage cryptoStore in
                if MatrixClient_new c then
                  (inr c,
                   did [Setup_autojoin; Added_preprocessor;
                        Logged Info "Matrix client initialized"]
                     (with_client (Some c) s))
                else (inl SdkError, s)
            end
        end
    end.

Definition getMatrixClient : M Client :=
  fun s =>
    match client s with
    | Some c => (inr c, s)
    | None =>
        (inl (Error "Matrix client not initialized. Call initMatrixClient() first."),
         s)
    end.

Definition getMatrixConfig : M Loaded :=
  fun s =>
    match config s with
    | Some loaded =>
        if config_unset (config s)
        then match loadMatrixConfig JSON_parse (host s) with
             | inl e => (inl (Load e), s)
             | inr loaded' => (inr loaded', with_config (Some loaded') s)
             end
        else (inr loaded, s)
    | None =>
        match loadMatrixConfig JSON_parse (host s) with
        | inl e => (inl (Load e), s)
        | inr loaded' => (inr loaded', with_config (Some loaded') s)
        end
    end.

(** The content [sendMatrixMessage] builds. *)
Definition content_of (text : string) (threadId : option string) : Event.Content :=
  Event.mkContent (Some "m.text") (Some text)
    (* Thread support *)
    (if Js.not_ threadId then None
     else Some (Event.mkRelatesTo (Some "m.thread") threadId)).

Definition sendMatrixMessage (roomId text : string) (threadId : option string)
  : M string :=
  fun s =>
    match getMatrixClient s with
    | (inl e, s) => (inl e, s)
    | (inr matrixClient, s) =>
        let content := content_of text threadId in
        let s := did [Sent roomId content] s in
        match sdk_sendMessage matrixClient roomId content with
        | None => (inl SdkError, s)
        | Some eventId => (inr eventId, did [Logged Info "Matrix message sent"] s)
        end
    end.

Definition setMatrixTyping (roomId : string) (isTyping : bool) : M unit :=
  fun s =>
    match getMatrixClient s with
    | (inl _, s) => (inr tt, did [Logged Debug "Failed to set typing indicator"] s)
    | (inr matrixClient, s) =>
        let timeout := if isTyping then 30000 else 0 in
        let s := did [Set_typing roomId isTyping timeout] s in
        if sdk_setTyping matrixClient roomId isTyping timeout
        then (inr tt, s)
        else (inr tt, did [Logged Debug "Failed to set typing indicator"] s)
    end.

Definition stopMatrixClient : M unit :=
  fun s =>
    match client s with
    | Some _ =>
        (inr tt, did [Stopped; Logged Info "Matrix client stopped"]
                   (with_client None s))
    | None => (inr tt, s)
    end.

End Module.
End MatrixClientModule.

(** ** channels.ts and the universal [sendMessage] of index.ts *)

Module Channels.

Inductive ChannelType := whatsapp | matrix.

(** [s.includes(c)] for a one-character needle. *)
Fixpoint includes (c : ascii) (s : string) : bool :=
  match s with
  | EmptyString => false
  | String d s' => Ascii.eqb d c || includes c s'
  end.

(** Determine channel type from JID/room ID *)
Definition detectChannelType (target : string) : ChannelType :=
  (* Matrix room IDs start with ! or # (aliases) *)
  if String.prefix "!" target || String.prefix "#" target then matrix
  (* WhatsApp JIDs end with @g.us or @s.whatsapp.net *)
  else if includes "@" target then whatsapp
  (* Default to WhatsApp for backward compatibility *)
  else whatsapp.

(** What the universal [sendMessage] does. *)
Inductive Outcome :=
| Sent_on (channel : ChannelType) (target text : string)
| Logged_error (msg : string) (target : string) (channelType : ChannelType).

(** [channels[channelType]]: a channel is there or not. *)
Record Available := mkAvailable { has_whatsapp : bool; has_matrix : bool }.

Definition channel_of (channels : Available) (t : ChannelType) : bool :=
  match t with
  | whatsapp => has_whatsapp channels
  | matrix => has_matrix channels
  end.

(** Universal send function *)
Definition sendMessage (channels : Available) (target text : string) : Outcome :=
  let channelType := detectChannelType target in
  if negb (channel_of channels channelType)
  then Logged_error "Channel not available" target channelType
  else Sent_on channelType target text.

End Channels.

(** ** index.ts: [processMatrixMessage] *)

Module ProcessMatrixMessage.

(** [/[a-zA-Z0-9]/] *)
Definition isAlphaNum (c : ascii) : bool :=
  let n := nat_of_ascii c in
  ((48 <=? n)%nat && (n <=? 57)%nat
   || (65 <=? n)%nat && (n <=? 90)%nat
   || (97 <=? n)%nat && (n <=? 122)%nat)%bool.

(** [s.replace(/[^a-zA-Z0-9]/g, '_')] *)
Fixpoint sanitize (s : string) : string :=
  match s with
  | EmptyString => EmptyString
  | String c s' => String (if isAlphaNum c then c else "_"%char) (sanitize s')
  end.

(** The double quote. *)
Definition dquote : string := String "034" EmptyString.

(** What the function asks of its collaborators, in order. *)
Inductive Call :=
| SetMatrixTyping (roomId : string) (isTyping : bool)
| RunAgent (group : RegisteredGroup.t) (prompt roomId : string)
| SendMatrixMessage (roomId text : string) (threadId : option string).

(** The module variables of index.ts the function works on, the files,
    and the calls made so far. *)
Record State := mkState {
  registeredGroups : gmap string RegisteredGroup.t;
  lastAgentTimestamp : gmap string string;
  world : World;
  calls : list Call
}.

Inductive Thrown :=
| AgentFailed       (* runAgent rejected *)
| SendFailed.       (* sendMatrixMessage rejected or threw *)

Section Handler.
Variable Date_toISOString : Z -> string.
(** Constants of config.js and [path.join] of the runtime. *)
Variable ASSISTANT_NAME MAIN_GROUP_FOLDER DATA_DIR : string.
Variable path_join : list string -> string.
(** [runAgent]: [None] when it rejects, else its response, which may
    be [null]. *)
Variable runAgent : RegisteredGroup.t -> string -> string -> option (option string).
(** Whether [sendMatrixMessage] resolves. *)
Variable send_resolves : string -> string -> option string -> bool.

(** [roomConfig?.folder ?? (isMain ? MAIN_GROUP_FOLDER : `matrix-${...}`)] *)
Definition folder_of (roomConfig : option MatrixRoomConfig.t) (isMain : bool)
    (roomId : string) : string :=
  Js.nullish (roomConfig ≫= MatrixRoomConfig.folder)
    (if isMain then MAIN_GROUP_FOLDER else "matrix-" ++ sanitize roomId).

Definition prompt_of (message : MatrixMessage.t) : string :=
  "<message sender=" ++ dquote ++ MatrixMessage.senderName message ++ dquote
  ++ " time=" ++ dquote ++ MatrixMessage.timestamp message ++ dquote ++ ">"
  ++ MatrixMessage.content message ++ "</message>".

Definition processMatrixMessage (message : MatrixMessage.t)
    (roomConfig : option MatrixRoomConfig.t) (isMain : bool)
  : State -> (Thrown + unit) * State :=
  fun s =>
    let roomId := MatrixMessage.roomId message in
    let folder := folder_of roomConfig isMain roomId in
    (* Build group object for container runner *)
    let group :=
      RegisteredGroup.mk folder folder
        (Js.nullish (roomConfig ≫= MatrixRoomConfig.triggerPattern)
           ("@" ++ ASSISTANT_NAME))
        (Date_toISOString (Date_now (world s))) in
    (* Ensure group is registered *)
    let s :=
      match registeredGroups s !! roomId with
      | Some _ => s
      | None =>
          let groups := <[ roomId := group ]> (registeredGroups s) in
          let groupDir := path_join [DATA_DIR; ".."; "groups"; folder] in
          let w :=
            snd (bind (Utils.saveJson Utils.GROUPS_PATH groups)
                   (fun _ => Utils.mkdirSync_recursive (path_join [groupDir; "logs"]))
                   (world s)) in
          mkState groups (lastAgentTimestamp s) w (calls s)
      end in
    (* Build prompt with context *)
    let prompt := prompt_of message in
    let s :=
      mkState (registeredGroups s) (lastAgentTimestamp s) (world s)
        (calls s ++ [SetMatrixTyping roomId true; RunAgent group prompt roomId]) in
    match runAgent group prompt roomId with
    | None => (inl AgentFailed, s)
    | Some response =>
        let s :=
          mkState (registeredGroups s) (lastAgentTimestamp s) (world s)
            (calls s ++ [SetMatrixTyping roomId false]) in
        if Js.not_ response then (inr tt, s)
        else
          let text := ASSISTANT_NAME ++ ": " ++ default "" response in
          let threadId := MatrixMessage.threadId message in
          let s :=
            mkState (registeredGroups s)
              (<[ roomId := MatrixMessage.timestamp message ]> (lastAgentTimestamp s))
              (world s)
              (calls s ++ [SendMatrixMessage roomId text threadId]) in
          if send_resolves roomId text threadId then (inr tt, s)
          else (inl SendFailed, s)
    end.

End Handler.
End ProcessMatrixMessage.

(* ================================================================== *)
(** * Further vocabulary *)

(** ** The code generator, in closed form *)

(** The symbol picked for one word of entropy. *)
Definition symbol_of (r : N) : string :=
  Pairing.charAt Pairing.alphabet (Z.of_N r mod 32).

(** The symbols picked for the [n] words of entropy from [start] on. *)
Fixpoint symbols (e : nat -> N) (start n : nat) : string :=
  match n with
  | O => ""
  | S n' => symbol_of (e start) ++ symbols e (S start) n'
  end.

(** The world after [n] more words of entropy were consumed. *)
Definition after_draws (n : nat) (w : World) : World :=
  mkWorld (files w) (Date_now w) (entropy w) (n + drawn w).

(** ** Vocabulary of the message properties *)

Definition first_char (s : string) : option ascii :=
  match s with
  | EmptyString => None
  | String c _ => Some c
  end.

Fixpoint last_char (s : string) : option ascii :=
  match s with
  | EmptyString => None
  | String c EmptyString => Some c
  | String _ s' => last_char s'
  end.

(** Nothing but white space. *)
Definition all_white (s : string) : Prop :=
  List.Forall (fun c => Js.isWhiteSpace c = true) (chars s).

(** A regular expression source read as plain text: a backslash stands
    for the character after it. *)
Fixpoint unescape (s : string) : string :=
  match s with
  | EmptyString => EmptyString
  | String c s' =>
      if Ascii.eqb c "\" then
        match s' with
        | EmptyString => EmptyString
        | String d s'' => String d (unescape s'')
        end
      else String c (unescape s')
  end.

(** Every meta-character of [s] comes right after a backslash that
    escapes it. *)
Fixpoint escaped (s : string) : bool :=
  match s with
  | EmptyString => true
  | String c s' =>
      if Ascii.eqb c "\" then
        match s' with
        | EmptyString => false
        | String _ s'' => escaped s''
        end
      else negb (MatrixMonitor.isMetaChar c) && escaped s'
  end.

(** ** Vocabulary of the pairing script *)

(** What the pairing script prints when it has paired. *)
Definition paired_report (MAIN_GROUP_FOLDER : string) (owner : Owner.t)
  : list PairCli.Console :=
  [PairCli.Stdout "✅ Pairing successful!";
   PairCli.Stdout "";
   PairCli.Stdout ("  Owner: " ++ Owner.ownerId owner);
   PairCli.Stdout ("  Main Room: " ++ Owner.mainRoomId owner);
   PairCli.Stdout ("  Folder: groups/" ++ MAIN_GROUP_FOLDER ++ "/");
   PairCli.Stdout "";
   PairCli.Stdout "Restart NanoClaw to apply changes:";
   PairCli.Stdout "  systemctl --user restart nanoclaw"].

(** The registered groups on file, none when there is no file. *)
Definition groups_on_file (w : World) : gmap string RegisteredGroup.t :=
  default ∅ (registered_groups_json (files w)).

(** The code redeems the pending request of [w], now. *)
Definition redeemable (getTime : string -> option Z) (code : string) (w : World)
  : Prop :=
  exists p,
    pending_pairing_json (files w) = Some p
    /\ Pairing.expired (Date_now w) (getTime (PendingPairing.createdAt p)) = false
    /\ Js.toUpperCase code = Js.toUpperCase (PendingPairing.code p).

(** ** Vocabulary of the client module properties *)

(** The state once the host (file and environment) has become [h]. *)
Definition with_host (h : MatrixClientConfig.Host) (s : MatrixClientModule.State)
  : MatrixClientModule.State :=
  MatrixClientModule.mkState (MatrixClientModule.client s) (MatrixClientModule.config s)
    h (MatrixClientModule.directories s) (MatrixClientModule.journal s).

Definition not_initialized : MatrixClientModule.Thrown :=
  MatrixClientModule.Error "Matrix client not initialized. Call initMatrixClient() first.".

(** ** Vocabulary of the handler properties *)

(** A character that may stand in a folder name made from a room
    identifier. *)
Definition folder_safe (c : ascii) : bool :=
  ProcessMatrixMessage.isAlphaNum c || Ascii.eqb c "_" || Ascii.eqb c "-".

(** ** More examples to run the model on *)

Module Demo.

(** Alice's request, 699 seconds old. *)
Definition w_expired : World := tick 200000 w_pending.

(** A pending request whose creation time is no time stamp. *)
Definition odd_request : PendingPairing.t :=
  PendingPairing.mk "DLT29GPW" "@alice:example.org" "!ops:example.org" "Ops" "yesterday".
Definition w_odd : World :=
  mkWorld (mkFs None (Some odd_request) None ∅) 500000 (fun n => N.of_nat n) 8.

(** No configuration file; the credentials are in the environment. *)
Definition host_env : MatrixClientConfig.Host :=
  MatrixClientConfig.mkHost None
    (<[ "MATRIX_HOMESERVER" := "https://matrix.example.org" ]>
       (<[ "MATRIX_USER_ID" := "@andy:example.org" ]>
          (<[ "MATRIX_ACCESS_TOKEN" := "secret" ]> ∅))).

(** What [loadMatrixConfig] makes of [host_env]. *)
Definition env_config : MatrixConfig.t :=
  MatrixConfig.mk "https://matrix.example.org" "@andy:example.org" "secret"
    (Some false) None (Some true).

(** The client module before anything was called, on [host_env]. *)
Definition s0 : MatrixClientModule.State :=
  MatrixClientModule.mkState None None host_env ∅ [].

(** The same, where the access token is blank. *)
Definition s_blank : MatrixClientModule.State :=
  MatrixClientModule.mkState None None Example.host_blank_token ∅ [].

(** An SDK that accepts everything. *)
Definition MatrixClient_new (_ : MatrixClientModule.Client) : bool := true.
Definition sdk_sendMessage (_ : MatrixClientModule.Client) (_ : string)
    (_ : Event.Content) : option string := Some "$sent1".
Definition sdk_setTyping (_ : MatrixClientModule.Client) (_ : string) (_ : bool)
    (_ : Z) : bool := true.

Definition initMatrixClient :=
  MatrixClientModule.initMatrixClient Example.JSON_parse "store" (String.concat "/")
    MatrixClient_new.

(** The client [initMatrixClient] builds on [host_env]. *)
Definition andy_client : MatrixClientModule.Client :=
  MatrixClientModule.mkClientArgs
    (Some (MatrixClientConfig.JString "https://matrix.example.org"))
    (Some (MatrixClientConfig.JString "secret"))
    "store/matrix/bot.json" None.

(** A reply of the bot into the thread of [$root], as another client
    would receive it. *)
Definition threaded_reply : Event.t :=
  Event.mk "@bob:example.org" "m.room.message" "$event2"
    (Some (MatrixClientModule.content_of "  Andy: done " (Some "$root")))
    (Some 1700000000000).

(** A message of Alice whose origin time is one millisecond past the
    last instant a [Date] can hold. *)
Definition far_future : Event.t :=
  Event.mk "@alice:example.org" "m.room.message" "$event3"
    (Some (Event.mkContent (Some "m.text") (Some "hello") None))
    (Some 8640000000000001).

(** A parser of regular expressions that accepts everything. *)
Definition RegExp_compiles (_ : RegExp) : bool := true.

(** What the handler is given for ["  hello "] said by Alice in the
    two-member room. *)
Definition hello_message : MatrixMessage.t :=
  MatrixMessage.mk "!dm:example.org" "$event1" "@alice:example.org"
    "@alice:example.org" "hello" "1700000000000" None None.

Definition room_message :=
  MatrixMonitor.room_message Example.config_strict Example.client "Andy"
    Example.TRIGGER_PATTERN Example.RegExp_test DecimalClock.toISOString
    Example.onMessage.

End Demo.

(* ================================================================== *)
(** * Properties *)

(** ** Strings *)

#[local] Arguments String.append !s1 s2 : simpl nomatch.

Lemma get_In (s : string) (n : nat) (c : ascii) :
  String.get n s = Some c -> List.In c (list_ascii_of_string s).
Proof.
  revert n; induction s as [|a s IH]; intros [|n]; simpl; try discriminate.
  - intros [= ->]; now left.
  - intros H; right; eauto.
Qed.

Lemma get_lt (s : string) (n : nat) :
  (n < String.length s)%nat -> exists c, String.get n s = Some c.
Proof.
  revert n; induction s as [|a s IH]; intros [|n]; simpl; try lia; eauto.
  intros H; apply IH; lia.
Qed.

Lemma list_ascii_app (s t : string) :
  list_ascii_of_string (s ++ t) = (list_ascii_of_string s ++ list_ascii_of_string t)%list.
Proof. induction s as [|a s IH]; simpl; [reflexivity | now rewrite IH]. Qed.

Lemma length_list_ascii (s : string) :
  length (list_ascii_of_string s) = String.length s.
Proof. induction s as [|a s IH]; simpl; [reflexivity | now rewrite IH]. Qed.

Lemma append_empty_r (s : string) : s ++ "" = s.
Proof. induction s as [|a s IH]; simpl; [reflexivity | now rewrite IH]. Qed.

Lemma append_snoc (s t : string) (c : ascii) :
  (s ++ String c "") ++ t = s ++ String c t.
Proof. induction s as [|a s IH]; simpl; [reflexivity | now rewrite IH]. Qed.

(** ** The code generator *)

Lemma randomInt_range (lo hi : Z) (w : World) :
  lo < hi -> lo <= fst (Utils.randomInt lo hi w) < hi.
Proof.
  intros H; unfold Utils.randomInt; simpl.
  pose proof (Z.mod_pos_bound (Z.of_N (entropy w (drawn w))) (hi - lo)); lia.
Qed.

Lemma charAt_in_range (i : Z) :
  0 <= i < Z.of_nat (String.length Pairing.alphabet) ->
  exists c, Pairing.charAt Pairing.alphabet i = String c EmptyString
            /\ List.In c (chars Pairing.alphabet).
Proof.
  intros [H0 H1]; unfold Pairing.charAt.
  destruct (Z.ltb_spec i 0) as [?|_]; [lia|].
  destruct (get_lt Pairing.alphabet (Z.to_nat i)) as [c Hc]; [lia|].
  rewrite Hc; eauto using get_In.
Qed.

Lemma generateCode_loop_shape (n : nat) (acc : string) (w : World) :
  exists suffix,
    fst (Pairing.generateCode_loop n acc w) = acc ++ suffix
    /\ String.length suffix = n
    /\ List.Forall (fun c => List.In c (chars Pairing.alphabet)) (chars suffix).
Proof.
  revert acc w; induction n as [|n IH]; intros acc w.
  - exists ""; simpl; rewrite append_empty_r; repeat split; constructor.
  - cbn [Pairing.generateCode_loop]; unfold bind.
    pose proof (randomInt_range 0 (Z.of_nat (String.length Pairing.alphabet)) w
                  ltac:(reflexivity)) as Hr.
    destruct (Utils.randomInt 0 _ w) as [i w1]; simpl in Hr.
    destruct (charAt_in_range i Hr) as (c & Hc & Hin); rewrite Hc.
    destruct (IH (acc ++ String c "") w1) as (suf & Heq & Hlen & Hall).
    exists (String c suf); rewrite Heq, append_snoc; repeat split.
    + simpl; congruence.
    + constructor; assumption.
Qed.

Lemma generateCode_shape (w : World) :
  String.length (fst (Pairing.generateCode w)) = Pairing.PAIRING_CODE_LENGTH
  /\ List.Forall (fun c => List.In c (chars Pairing.alphabet))
       (chars (fst (Pairing.generateCode w))).
Proof.
  destruct (generateCode_loop_shape Pairing.PAIRING_CODE_LENGTH "" w)
    as (suf & Heq & Hlen & Hall).
  unfold Pairing.generateCode; rewrite Heq; simpl; auto.
Qed.

Lemma createPairingRequest_code (toISO : Z -> string) (u r n : string) (w : World) :
  fst (Pairing.createPairingRequest toISO u r n w) = fst (Pairing.generateCode w).
Proof.
  unfold Pairing.createPairingRequest, bind.
  destruct (Pairing.generateCode w) as [c w1]; reflexivity.
Qed.

Lemma alphabet_NoDup : List.NoDup (chars Pairing.alphabet).
Proof.
  apply (NoDup_ListNoDup (chars Pairing.alphabet)).
  apply (bool_decide_unpack _); vm_compute; exact I.
Qed.

(** ** Reading time stamps back *)

Lemma DecimalClock_roundtrip (t : Z) :
  DecimalClock.getTime (DecimalClock.toISOString t) = Some t.
Proof.
  unfold DecimalClock.getTime, DecimalClock.toISOString.
  assert (H : forall d, option_map Z.of_int
                (DecimalString.NilZero.int_of_string
                   (DecimalString.NilZero.string_of_int d)) = Some (Z.of_int d)).
  { intros [u|u]; destruct u; try reflexivity;
      rewrite DecimalString.NilZero.isi; try discriminate; reflexivity. }
  rewrite H, DecimalZ.of_to; reflexivity.
Qed.

(** ** The pairing service *)

Section PairingFacts.
Variable toISO : Z -> string.
Variable getTime : string -> option Z.

Abbreviation getPendingPairing := (Pairing.getPendingPairing getTime).
Abbreviation approvePairing := (Pairing.approvePairing toISO getTime).
Abbreviation createPairingRequest := (Pairing.createPairingRequest toISO).

Lemma getPendingPairing_run (w : World) :
  getPendingPairing w =
  match pending_pairing_json (files w) with
  | None => (None, w)
  | Some p =>
      if Pairing.expired (Date_now w) (getTime (PendingPairing.createdAt p))
      then (None, without_pending w)
      else (Some p, w)
  end.
Proof.
  unfold Pairing.getPendingPairing, Utils.loadJson, bind, gets; simpl.
  destruct (pending_pairing_json (files w)) as [p|] eqn:Hp; [|reflexivity].
  destruct (Pairing.expired _ _); [|reflexivity].
  unfold Utils.try_ignore, Utils.unlinkSync, bind, ret; simpl.
  rewrite Hp; reflexivity.
Qed.

Lemma getPendingPairing_none (w : World) :
  pending_pairing_json (files w) = None -> getPendingPairing w = (None, w).
Proof. intros H; rewrite getPendingPairing_run, H; reflexivity. Qed.

Lemma expired_false (now c : Z) :
  now - c <= Pairing.PAIRING_CODE_TTL_MS -> Pairing.expired now (Some c) = false.
Proof. unfold Pairing.expired; intros H; rewrite Z.gtb_ltb; apply Z.ltb_ge; lia. Qed.

Lemma expired_true (now c : Z) :
  now - c > Pairing.PAIRING_CODE_TTL_MS -> Pairing.expired now (Some c) = true.
Proof.
  unfold Pairing.expired; intros H.
  rewrite Z.gtb_ltb; apply Z.ltb_lt; lia.
Qed.

Lemma approvePairing_run (code : string) (w : World) :
  approvePairing code w =
  match getPendingPairing w with
  | (None, w1) => (None, w1)
  | (Some p, w1) =>
      if String.eqb (Js.toUpperCase (PendingPairing.code p)) (Js.toUpperCase code)
      then
        let owner := Owner.mk (PendingPairing.oderId p) (PendingPairing.roomId p)
                              (toISO (Date_now w1)) in
        (Some owner, without_pending (with_owner owner w1))
      else (None, w1)
  end.
Proof.
  unfold Pairing.approvePairing at 1, bind at 1.
  destruct (getPendingPairing w) as [[p|] w1] eqn:Hget; [|reflexivity].
  destruct (String.eqb _ _); [|reflexivity]. simpl negb. cbv iota.
  assert (Hp : pending_pairing_json (files w1) = Some p).
  { rewrite getPendingPairing_run in Hget.
    destruct (pending_pairing_json (files w)) as [q|] eqn:Hq; [|discriminate].
    destruct (Pairing.expired _ _); [discriminate|].
    injection Hget as -> ->; exact Hq. }
  unfold bind, gets, Utils.saveJson, modify, Utils.try_ignore, Utils.unlinkSync,
    bind, ret; simpl.
  rewrite Hp; reflexivity.
Qed.

Lemma approvePairing_consumed (code : string) (w : World) :
  pending_pairing_json (files w) = None -> approvePairing code w = (None, w).
Proof.
  intros H; rewrite approvePairing_run, getPendingPairing_none by exact H.
  reflexivity.
Qed.

Lemma approvePairing_accepts (code : string) (w : World) (p : PendingPairing.t) (c : Z) :
  pending_pairing_json (files w) = Some p ->
  getTime (PendingPairing.createdAt p) = Some c ->
  Date_now w - c <= Pairing.PAIRING_CODE_TTL_MS ->
  Js.toUpperCase code = Js.toUpperCase (PendingPairing.code p) ->
  let owner := Owner.mk (PendingPairing.oderId p) (PendingPairing.roomId p)
                        (toISO (Date_now w)) in
  approvePairing code w = (Some owner, without_pending (with_owner owner w)).
Proof.
  intros Hp Hc Hle Hcode owner.
  rewrite approvePairing_run, getPendingPairing_run, Hp, Hc, expired_false by exact Hle.
  rewrite Hcode, String.eqb_refl; reflexivity.
Qed.

End PairingFacts.

Section PairingClaims.
Variable toISO : Z -> string.
Variable getTime : string -> option Z.

Abbreviation getPendingPairing := (Pairing.getPendingPairing getTime).
Abbreviation approvePairing := (Pairing.approvePairing toISO getTime).
Abbreviation createPairingRequest := (Pairing.createPairingRequest toISO).

(** C1. With an unexpired pending record and a code equal to the stored
    one up to letter case, [approvePairing] writes an owner made of the
    record's requester and room, removes the pending record and returns
    that owner; any later call with the same code returns nothing. *)
Theorem approvePairing_pairs_once (code : string) (w : World)
    (p : PendingPairing.t) (c : Z) :
  pending_pairing_json (files w) = Some p ->
  getTime (PendingPairing.createdAt p) = Some c ->
  Date_now w - c <= 10 * 60 * 1000 ->
  Js.toUpperCase code = Js.toUpperCase (PendingPairing.code p) ->
  exists owner w',
    approvePairing code w = (Some owner, w')
    /\ Owner.ownerId owner = PendingPairing.oderId p
    /\ Owner.mainRoomId owner = PendingPairing.roomId p
    /\ owner_json (files w') = Some owner
    /\ pending_pairing_json (files w') = None
    /\ forall dt, approvePairing code (tick dt w') = (None, tick dt w').
Proof.
  intros Hp Hc Hle Hcode.
  eexists _, _; split; [exact (approvePairing_accepts _ _ _ _ _ _ Hp Hc Hle Hcode)|].
  repeat apply conj; [reflexivity..|].
  intros dt; apply approvePairing_consumed; reflexivity.
Qed.


(** C3. [getPendingPairing] returns the stored record while
    [now - createdAt] is within the ten minutes, in particular right
    after [createPairingRequest]; once [now - createdAt] exceeds them it
    removes the record and returns nothing.  The passing of time alone
    leaves the record where it is: it goes when it is read. *)
Theorem getPendingPairing_lazy_expiry :
  (forall t, getTime (toISO t) = Some t) ->
  (forall w p c,
      pending_pairing_json (files w) = Some p ->
      getTime (PendingPairing.createdAt p) = Some c ->
      Date_now w - c <= 10 * 60 * 1000 ->
      getPendingPairing w = (Some p, w))
  /\ (forall w p c,
      pending_pairing_json (files w) = Some p ->
      getTime (PendingPairing.createdAt p) = Some c ->
      Date_now w - c > 10 * 60 * 1000 ->
      getPendingPairing w = (None, without_pending w)
      /\ pending_pairing_json (files (without_pending w)) = None)
  /\ (forall w userId roomId roomName,
      let code := fst (createPairingRequest userId roomId roomName w) in
      let w1 := snd (createPairingRequest userId roomId roomName w) in
      let record :=
        PendingPairing.mk code userId roomId roomName (toISO (Date_now w)) in
      getPendingPairing w1 = (Some record, w1)
      /\ (forall dt, dt <= 10 * 60 * 1000 ->
           getPendingPairing (tick dt w1) = (Some record, tick dt w1))
      /\ (forall dt, dt > 10 * 60 * 1000 ->
           fst (getPendingPairing (tick dt w1)) = None))
  /\ (forall w dt roomId,
      files (tick dt w) = files w
      /\ snd (Pairing.getOwner w) = w
      /\ snd (Pairing.isPaired w) = w
      /\ snd (Pairing.isMainRoom roomId w) = w).
Proof.
  intros Hround; repeat apply conj.
  - intros w p c Hp Hc Hle.
    rewrite getPendingPairing_run, Hp, Hc, expired_false by exact Hle; reflexivity.
  - intros w p c Hp Hc Hgt; split; [|reflexivity].
    rewrite getPendingPairing_run, Hp, Hc, expired_true by exact Hgt; reflexivity.
  - intros w userId roomId roomName.
    unfold Pairing.createPairingRequest, bind.
    destruct (Pairing.generateCode w) as [code w0] eqn:Hgen.
    assert (Hnow : Date_now w0 = Date_now w).
    { change w0 with (snd (code, w0)); rewrite <- Hgen; clear.
      unfold Pairing.generateCode; generalize Pairing.PAIRING_CODE_LENGTH, "".
      intros n; revert w; induction n as [|n IH]; intros w acc; [reflexivity|].
      cbn [Pairing.generateCode_loop]; unfold bind, Utils.randomInt.
      rewrite IH; reflexivity. }
    simpl; rewrite Hnow; repeat apply conj.
    + rewrite getPendingPairing_run; simpl.
      rewrite Hround, Hnow, expired_false
        by (unfold Pairing.PAIRING_CODE_TTL_MS; lia); reflexivity.
    + intros dt Hdt; rewrite getPendingPairing_run; simpl.
      rewrite Hround, Hnow, expired_false
        by (unfold Pairing.PAIRING_CODE_TTL_MS; lia); reflexivity.
    + intros dt Hdt; rewrite getPendingPairing_run; simpl.
      rewrite Hround, Hnow, expired_true
        by (unfold Pairing.PAIRING_CODE_TTL_MS; lia); reflexivity.
  - intros w dt roomId; repeat split.
Qed.

(** C6, as the code has it: every code returned by
    [createPairingRequest] has exactly 8 characters, each taken from an
    alphabet of 32 distinct symbols none of which is 0, O, 1 or I. *)
Theorem createPairingRequest_code_shape (userId roomId roomName : string) (w : World) :
  let code := fst (createPairingRequest userId roomId roomName w) in
  String.length code = 8%nat
  /\ List.Forall (fun ch => List.In ch (chars Pairing.alphabet)
                            /\ ~ List.In ch ambiguous) (chars code)
  /\ length (chars Pairing.alphabet) = 32%nat
  /\ List.NoDup (chars Pairing.alphabet).
Proof.
  cbv zeta; rewrite createPairingRequest_code.
  destruct (generateCode_shape w) as [Hlen Hall].
  repeat split; [exact Hlen| |exact alphabet_NoDup].
  eapply List.Forall_impl; [|exact Hall].
  intros ch Hin; split; [exact Hin|].
  intros Hamb; revert Hin.
  assert (Hnone : forallb (fun a => negb (existsb (Ascii.eqb a) (chars Pairing.alphabet)))
                    ambiguous = true) by reflexivity.
  rewrite forallb_forall in Hnone; specialize (Hnone ch Hamb).
  intros Hin; apply negb_true_iff in Hnone.
  assert (existsb (Ascii.eqb ch) (chars Pairing.alphabet) = true).
  { apply existsb_exists; exists ch; split; [exact Hin | apply Ascii.eqb_refl]. }
  congruence.
Qed.

End PairingClaims.

(** ** The admission filter *)

Section AdmissionFacts.
Import MatrixMonitor Admission.
Variable config : MatrixConfig.t.
Variable client : MatrixClient.
Variable ASSISTANT_NAME : string.
Variable TRIGGER_PATTERN : RegExp.
Variable RegExp_test : RegExp -> string -> bool.
Variable toISO : Z -> string.
Variable onMessage :
  MatrixMessage.t -> option MatrixRoomConfig.t -> bool -> option string.

Abbreviation run := (room_message config client ASSISTANT_NAME TRIGGER_PATTERN
                       RegExp_test toISO onMessage).
Abbreviation mentionPattern := (MatrixMonitor.mentionPattern config ASSISTANT_NAME).

Lemma isMain_run {A} (roomId : string) (k : bool -> IO A) (w : World) :
  bind Pairing.isPaired
    (fun paired =>
       bind (if paired then Pairing.isMainRoom roomId else ret false) k) w
  = k (isMain_in w roomId) w.
Proof.
  destruct w as [[[o|] p g d] now e n]; [|reflexivity].
  unfold bind, Pairing.isPaired, Pairing.isMainRoom, Pairing.getOwner,
    Utils.loadJson, bind, gets, ret, isMain_in; simpl.
  destruct (String.eqb_spec (Owner.mainRoomId o) roomId) as [E|E].
  - now rewrite bool_decide_eq_true_2.
  - now rewrite bool_decide_eq_false_2.
Qed.

Lemma isDM_of_in (roomId : string) :
  isDM_of (getJoinedRoomMembers client roomId) = isDM_in client roomId.
Proof.
  unfold isDM_of, isDM_in.
  destruct (getJoinedRoomMembers client roomId) as [ms|]; [|reflexivity].
  destruct (Nat.leb_spec (length ms) 2).
  - now rewrite bool_decide_eq_true_2.
  - rewrite bool_decide_eq_false_2; [reflexivity | lia].
Qed.

Lemma requireMention_of_spec (isDM : bool) (rc : option MatrixRoomConfig.t)
    (isMain : bool) :
  requireMention_of config isDM rc isMain
  = requireMention_spec isDM (rc ≫= MatrixRoomConfig.requireMention)
      (MatrixConfig.requireMention config) isMain.
Proof.
  unfold requireMention_of, requireMention_spec, Js.nullish.
  destruct isDM; [reflexivity|].
  destruct (rc ≫= MatrixRoomConfig.requireMention); [reflexivity|].
  destruct (MatrixConfig.requireMention config); reflexivity.
Qed.

Lemma dispatched_app (t1 t2 : list Effect) :
  dispatched (t1 ++ t2) = dispatched t1 || dispatched t2.
Proof. apply existsb_app. Qed.

Lemma disabled_enabled (rc : option MatrixRoomConfig.t) :
  disabled rc = bool_decide ((rc ≫= MatrixRoomConfig.enabled) = Some false).
Proof.
  destruct rc as [[[[|]|] ? ? ?]|]; reflexivity.
Qed.

(** The run of the callback on a message that is past the checks. *)
Lemma room_message_passed (roomId : string) (event : Event.t) (w : World)
    (c : Event.Content) (b : string) :
  Event.sender event <> MatrixConfig.userId config ->
  Event.content event = Some c ->
  Event.msgtype c = Some "m.text" ->
  Event.body c = Some b ->
  Js.trim b <> "" ->
  (roomConfig_of config roomId ≫= MatrixRoomConfig.enabled) <> Some false ->
  let text := Js.trim b in
  let roomConfig := roomConfig_of config roomId in
  let isMain := isMain_in w roomId in
  let requireMention :=
    requireMention_of config (isDM_in client roomId) roomConfig isMain in
  let mentioned := RegExp_test mentionPattern text in
  let triggered := RegExp_test TRIGGER_PATTERN text in
  let sender := Event.sender event in
  let time := origin_or (Event.origin_server_ts event) (Date_now w) in
  let message :=
    MatrixMessage.mk roomId (Event.event_id event) sender
      (match getUserProfile client sender with
       | Some profile => Js.or_else (displayname profile) sender
       | None => sender
       end)
      text (toISO time) (threadId_of (Event.m_relates_to c)) None in
  let checked :=
    [Logged Debug "Received room.message event";
     Called_getJoinedRoomMembers roomId; Logged Debug "Message check"] in
  let tests :=
    if requireMention
    then Tested_mentionPattern text
         :: (if mentioned then [] else [Tested_TRIGGER_PATTERN text])
    else [] in
  run roomId event w =
  (if requireMention && negb mentioned && negb triggered
   then (checked ++ tests
         ++ [Logged Debug "Message ignored - no trigger/mention"])%list
   else if Date_isValid time
   then (checked ++ tests
         ++ [Called_getUserProfile sender; Logged Info "Processing Matrix message"]
         ++ Called_onMessage message roomConfig isMain
            :: match onMessage message roomConfig isMain with
               | Some _ => [Logged Error "Error handling Matrix message"]
               | None => []
               end)%list
   else (checked ++ tests ++ [Called_getUserProfile sender; Threw_RangeError])%list,
   w).
Proof.
  intros Hsender Hc Hm Hb Htext Hen; cbv zeta. unfold room_message.
  destruct (String.eqb_spec (Event.sender event) (MatrixConfig.userId config))
    as [E|_]; [contradiction|].
  rewrite Hc; unfold not_text; rewrite Hm.
  change (Some c ≫= Event.body) with (Event.body c); rewrite Hb.
  change (Some c ≫= Event.m_relates_to) with (Event.m_relates_to c).
  assert (Hnot : Js.not_ (Some b) = false)
    by (destruct b; [now elim Htext | reflexivity]).
  rewrite Hnot; change (negb ("m.text" =? "m.text")%string || false) with false.
  change (default "" (Some b)) with b; cbv iota.
  assert (Hfalsy : Js.falsy (Js.trim b) = false)
    by (destruct (Js.trim b); [contradiction | reflexivity]).
  rewrite Hfalsy, disabled_enabled, bool_decide_eq_false_2 by exact Hen.
  rewrite isMain_run, isDM_of_in.
  destruct (_ && _ && _); [reflexivity|].
  unfold bind, gets, ret.
  destruct (Date_isValid _); reflexivity.
Qed.

(** What decides admission once the checks are passed, for a message
    whose time a [Date] can hold. *)
Lemma room_message_admission (roomId : string) (event : Event.t) (text : string)
    (w : World) :
  passes_prechecks config roomId event text ->
  Date_isValid (stamped event w) = true ->
  let roomConfig := roomConfig_of config roomId in
  let isMain := isMain_in w roomId in
  let isDM := isDM_in client roomId in
  let requireMention := requireMention_of config isDM roomConfig isMain in
  let trace := fst (run roomId event w) in
  dispatched trace
  = negb (requireMention && negb (RegExp_test mentionPattern text)
          && negb (RegExp_test TRIGGER_PATTERN text))
  /\ existsb is_test trace = requireMention
  /\ (dispatched trace = true ->
      exists message,
        List.In (Called_onMessage message roomConfig isMain) trace
        /\ MatrixMessage.roomId message = roomId
        /\ MatrixMessage.content message = text
        /\ MatrixMessage.sender message = Event.sender event).
Proof.
  intros (Hsender & (c & b & Hc & Hm & Hb & -> & Htext) & Hen) Hvalid.
  cbv zeta.
  rewrite (room_message_passed roomId event w c b Hsender Hc Hm Hb Htext Hen).
  cbv zeta; unfold stamped in Hvalid; rewrite Hvalid.
  set (text := Js.trim b).
  set (rm := requireMention_of config _ _ _).
  destruct (rm && negb (RegExp_test mentionPattern text)
            && negb (RegExp_test TRIGGER_PATTERN text)) eqn:Hdec; cbn [fst snd].
  - apply andb_prop in Hdec as [Hdec _]; apply andb_prop in Hdec as [-> Hm'].
    apply negb_true_iff in Hm'; rewrite Hm'.
    repeat apply conj; try reflexivity. discriminate.
  - repeat apply conj; try reflexivity.
    + rewrite !dispatched_app; cbn; rewrite !orb_true_r; reflexivity.
    + destruct rm, (RegExp_test mentionPattern text), (onMessage _ _ _);
        reflexivity.
    + intros _; eexists; split.
      * rewrite !in_app_iff; right; right; right; left; reflexivity.
      * repeat split.
Qed.

(** A message past the checks that is to be handed over, but whose time
    no [Date] can hold: the callback throws once it has the profile, and
    the handler is not called. *)
Lemma room_message_out_of_range (roomId : string) (event : Event.t) (text : string)
    (w : World) :
  passes_prechecks config roomId event text ->
  Date_isValid (stamped event w) = false ->
  let roomConfig := roomConfig_of config roomId in
  let requireMention :=
    requireMention_of config (isDM_in client roomId) roomConfig (isMain_in w roomId) in
  let trace := fst (run roomId event w) in
  dispatched trace = false
  /\ (requireMention && negb (RegExp_test mentionPattern text)
      && negb (RegExp_test TRIGGER_PATTERN text) = false ->
      List.In Threw_RangeError trace).
Proof.
  intros (Hsender & (c & b & Hc & Hm & Hb & -> & Htext) & Hen) Hvalid.
  cbv zeta.
  rewrite (room_message_passed roomId event w c b Hsender Hc Hm Hb Htext Hen).
  cbv zeta; unfold stamped in Hvalid; rewrite Hvalid.
  set (text := Js.trim b).
  set (rm := requireMention_of config _ _ _).
  destruct (rm && negb (RegExp_test mentionPattern text)
            && negb (RegExp_test TRIGGER_PATTERN text)) eqn:Hdec; cbn [fst snd].
  - split; [|discriminate].
    destruct rm, (RegExp_test mentionPattern text); reflexivity.
  - split.
    + destruct rm, (RegExp_test mentionPattern text); reflexivity.
    + intros _; rewrite !in_app_iff; right; right; right; left; reflexivity.
Qed.

(** The four silent ways out, in the order the callback tries them. *)
Lemma room_message_rejections (roomId : string) (event : Event.t) (w : World) :
  let received := Logged Debug "Received room.message event" in
  let ignoring := Logged Debug "Ignoring non-text message" in
  let text := Js.trim (default "" (Event.content event ≫= Event.body)) in
  run roomId event w =
  if bool_decide (Event.sender event = MatrixConfig.userId config)
  then ([received], w)
  else if not_text (Event.content event) then ([received; ignoring], w)
  else if Js.falsy text then ([received], w)
  else if disabled (roomConfig_of config roomId) then ([received], w)
  else run roomId event w.
Proof.
  cbv zeta; unfold room_message at 1.
  destruct (String.eqb_spec (Event.sender event) (MatrixConfig.userId config))
    as [E|E].
  - rewrite bool_decide_eq_true_2 by exact E; reflexivity.
  - rewrite bool_decide_eq_false_2 by exact E.
    destruct (not_text (Event.content event)) eqn:Hnt; [reflexivity|].
    destruct (Js.falsy _) eqn:Hf; [reflexivity|].
    destruct (disabled _) eqn:Hd; [reflexivity|].
    unfold room_message.
    destruct (String.eqb_spec (Event.sender event) (MatrixConfig.userId config));
      [contradiction|].
    rewrite Hnt, Hf, Hd; reflexivity.
Qed.

End AdmissionFacts.

Section AdmissionClaims.
Import MatrixMonitor Admission.
Variable config : MatrixConfig.t.
Variable client : MatrixClient.
Variable ASSISTANT_NAME : string.
Variable TRIGGER_PATTERN : RegExp.
Variable RegExp_test : RegExp -> string -> bool.
Variable toISO : Z -> string.
Variable onMessage :
  MatrixMessage.t -> option MatrixRoomConfig.t -> bool -> option string.

Abbreviation run := (room_message config client ASSISTANT_NAME TRIGGER_PATTERN
                       RegExp_test toISO onMessage).
Abbreviation mentionPattern := (MatrixMonitor.mentionPattern config ASSISTANT_NAME).

(** C7. A room whose configuration has [enabled] false never reaches the
    handler, whatever the message says: the callback only logs.  The
    checks come in order (own sender, then not a text or an empty body,
    then the disabled room) and the first that applies ends the run
    before the members are fetched, a pattern is tried or the handler
    is called. *)
Theorem disabled_room_never_dispatched (roomId : string) (event : Event.t)
    (w : World) :
  let trace := fst (run roomId event w) in
  let received := Logged Debug "Received room.message event" in
  let ignoring := Logged Debug "Ignoring non-text message" in
  let body := Event.content event ≫= Event.body in
  let own := Event.sender event = MatrixConfig.userId config in
  let text_message :=
    (Event.content event ≫= Event.msgtype) = Some "m.text"
    /\ body <> None /\ body <> Some "" in
  let is_disabled :=
    (roomConfig_of config roomId ≫= MatrixRoomConfig.enabled) = Some false in
  (is_disabled ->
     dispatched trace = false
     /\ existsb is_test trace = false
     /\ forallb is_log trace = true
     /\ snd (run roomId event w) = w)
  /\ (own -> trace = [received])
  /\ (~ own -> ~ text_message -> trace = [received; ignoring])
  /\ (~ own -> text_message -> Js.trim (default "" body) = "" -> trace = [received])
  /\ (~ own -> text_message -> Js.trim (default "" body) <> "" -> is_disabled ->
      trace = [received]).
Proof.
  cbv zeta.
  assert (Htext : not_text (Event.content event) = false <->
            (Event.content event ≫= Event.msgtype) = Some "m.text"
            /\ (Event.content event ≫= Event.body) <> None
            /\ (Event.content event ≫= Event.body) <> Some "").
  { unfold not_text; destruct (Event.content event) as [c|]; simpl.
    2:{ split; [discriminate | intros [[=] _]]. }
    destruct (Event.msgtype c) as [m|]; simpl.
    2:{ split; [discriminate | intros [[=] _]]. }
    destruct (String.eqb_spec m "m.text") as [->|Hne]; simpl.
    2:{ split; [discriminate | intros [[= E] _]; contradiction]. }
    destruct (Event.body c) as [[|a b]|]; simpl; split; try discriminate;
      try (intros (_ & H1 & H2); congruence).
    intros _; repeat split; discriminate. }
  assert (Hfalsy : forall s, Js.falsy s = true <-> s = "")
    by (intros [|? ?]; simpl; split; congruence).
  rewrite (room_message_rejections config client ASSISTANT_NAME TRIGGER_PATTERN
             RegExp_test toISO onMessage roomId event w); cbv zeta.
  repeat apply conj.
  - intros Hdis.
    assert (Hd : disabled (roomConfig_of config roomId) = true)
      by (rewrite disabled_enabled; apply bool_decide_eq_true_2; exact Hdis).
    rewrite Hd.
    clear Htext Hfalsy.
    repeat match goal with
           | |- context [if ?b then _ else _] => destruct b
           end; repeat split.
  - intros Hown; rewrite bool_decide_eq_true_2 by exact Hown; reflexivity.
  - intros Hown Hnt; rewrite bool_decide_eq_false_2 by exact Hown.
    destruct (not_text (Event.content event)); [reflexivity|].
    elim Hnt; apply Htext; reflexivity.
  - intros Hown Ht Hempty; rewrite bool_decide_eq_false_2 by exact Hown.
    apply Htext in Ht; rewrite Ht.
    apply Hfalsy in Hempty; rewrite Hempty; reflexivity.
  - intros Hown Ht Hne Hdis; rewrite bool_decide_eq_false_2 by exact Hown.
    apply Htext in Ht; rewrite Ht.
    destruct (Js.falsy _) eqn:E; [reflexivity|].
    rewrite disabled_enabled, bool_decide_eq_true_2 by exact Hdis; reflexivity.
Qed.

End AdmissionClaims.

(** ** Where the callback throws instead of handing over *)

(** C4. In the main room (Alice is the owner and [!ops] her room), with
    no setting for the room and no global setting, the mention
    requirement comes out as "none" and the message passes the mention
    check, as claimed; but "hello" with an origin time one millisecond
    past the last instant a [Date] can hold is not handed to the
    handler: [toISOString] throws before the call, outside the guard
    around it.  The same message with an origin time of today is handed
    over. *)
Theorem main_room_message_lost_to_RangeError :
  let callback :=
    MatrixMonitor.room_message Example.config Example.client "Andy"
      Example.TRIGGER_PATTERN Example.RegExp_test DecimalClock.toISOString
      Example.onMessage "!ops:example.org" in
  let run := callback Demo.far_future Example.w_owned in
  Admission.passes_prechecks Example.config "!ops:example.org" Demo.far_future "hello"
  /\ Admission.isMain_in Example.w_owned "!ops:example.org" = true
  /\ (MatrixMonitor.roomConfig_of Example.config "!ops:example.org"
      ≫= MatrixRoomConfig.requireMention) = None
  /\ MatrixConfig.requireMention Example.config = None
  /\ MatrixMonitor.requireMention_of Example.config
       (Admission.isDM_in Example.client "!ops:example.org")
       (MatrixMonitor.roomConfig_of Example.config "!ops:example.org") true = false
  /\ fst run
     = [MatrixMonitor.Logged MatrixMonitor.Debug "Received room.message event";
        MatrixMonitor.Called_getJoinedRoomMembers "!ops:example.org";
        MatrixMonitor.Logged MatrixMonitor.Debug "Message check";
        MatrixMonitor.Called_getUserProfile "@alice:example.org";
        MatrixMonitor.Threw_RangeError]
  /\ MatrixMonitor.dispatched (fst run) = false
  /\ MatrixMonitor.dispatched
       (fst (callback (Example.says "@alice:example.org" "hello") Example.w_owned))
     = true.
Proof.
  cbv zeta; split.
  { split; [vm_compute; discriminate|]; split.
    - exists (Event.mkContent (Some "m.text") (Some "hello") None), "hello".
      repeat split; vm_compute; discriminate.
    - vm_compute; discriminate. }
  repeat split; vm_compute; reflexivity.
Qed.

(** C5. In a room of two members, with mentions required everywhere,
    no pattern is tried on the message and it passes, as claimed; but
    "hello" with an origin time one millisecond past the last instant a
    [Date] can hold is not handed to the handler: [toISOString] throws
    before the call, outside the guard around it.  The same message with
    an origin time of today is handed over. *)
Theorem direct_message_lost_to_RangeError :
  let callback :=
    MatrixMonitor.room_message Example.config_strict Example.client "Andy"
      Example.TRIGGER_PATTERN Example.RegExp_test DecimalClock.toISOString
      Example.onMessage "!dm:example.org" in
  let run := callback Demo.far_future Example.w_owned in
  Admission.passes_prechecks Example.config_strict "!dm:example.org"
    Demo.far_future "hello"
  /\ MatrixConfig.requireMention Example.config_strict = Some true
  /\ getJoinedRoomMembers Example.client "!dm:example.org"
     = Some ["@alice:example.org"; "@andy:example.org"]
  /\ fst run
     = [MatrixMonitor.Logged MatrixMonitor.Debug "Received room.message event";
        MatrixMonitor.Called_getJoinedRoomMembers "!dm:example.org";
        MatrixMonitor.Logged MatrixMonitor.Debug "Message check";
        MatrixMonitor.Called_getUserProfile "@alice:example.org";
        MatrixMonitor.Threw_RangeError]
  /\ MatrixMonitor.dispatched (fst run) = false
  /\ MatrixMonitor.dispatched
       (fst (callback (Example.says "@alice:example.org" "hello") Example.w_owned))
     = true.
Proof.
  cbv zeta; split.
  { split; [vm_compute; discriminate|]; split.
    - exists (Event.mkContent (Some "m.text") (Some "hello") None), "hello".
      repeat split; vm_compute; discriminate.
    - vm_compute; discriminate. }
  repeat split; vm_compute; reflexivity.
Qed.

(** ** The pairing script *)

Section PairCliFacts.
Variable toISO : Z -> string.
Variable getTime : string -> option Z.
Variable DATA_DIR MAIN_GROUP_FOLDER : string.
Variable path_join : list string -> string.

Abbreviation main := (PairCli.main toISO getTime DATA_DIR MAIN_GROUP_FOLDER path_join).

Lemma main_already_paired (code : string) (w : World) (owner : Owner.t) :
  owner_json (files w) = Some owner ->
  code <> "" ->
  main (Some code) w = (PairCli.mkExit (already_paired_report owner) 1, w).
Proof.
  intros Ho Hcode; unfold PairCli.main.
  destruct code as [|a code]; [contradiction|].
  cbn [Js.not_ Js.falsy].
  unfold bind, Pairing.getOwner, Utils.loadJson, gets; simpl.
  rewrite Ho; reflexivity.
Qed.

Lemma main_exits_1_when_paired (argv2 : option string) (w : World) (owner : Owner.t) :
  owner_json (files w) = Some owner ->
  PairCli.status (fst (main argv2 w)) = 1
  /\ owner_json (files (snd (main argv2 w))) = Some owner.
Proof.
  intros Ho.
  assert (H : exists r w', main argv2 w = (r, w') /\ PairCli.status r = 1
                           /\ owner_json (files w') = Some owner).
  { destruct w as [[o p g d] now e n]; simpl in Ho; subst o.
    unfold PairCli.main.
    destruct (Js.not_ argv2); [|simpl; eauto].
    unfold bind at 1; unfold PairCli.getPendingPairing.
    rewrite getPendingPairing_run; simpl.
    destruct p as [p|]; [destruct (Pairing.expired _ _)|]; simpl; eauto. }
  destruct H as (r & w' & -> & H1 & H2); auto.
Qed.

(** C8. While an owner is on record the script exits with status 1 and
    leaves the owner alone, whatever its argument.  Run with a code, it
    prints who the owner is and leaves every file as it was, a pending
    request that the code would redeem included. *)
Theorem pair_cli_refuses_when_paired (code : string) (w : World) (owner : Owner.t) :
  owner_json (files w) = Some owner ->
  code <> "" ->
  let result := fst (main (Some code) w) in
  let w' := snd (main (Some code) w) in
  PairCli.printed result = already_paired_report owner
  /\ PairCli.status result = 1
  /\ w' = w
  /\ owner_json (files w') = Some owner
  /\ pending_pairing_json (files w') = pending_pairing_json (files w)
  /\ (forall argv2,
        PairCli.status (fst (main argv2 w)) = 1
        /\ owner_json (files (snd (main argv2 w))) = Some owner).
Proof.
  intros Ho Hcode; cbv zeta.
  rewrite (main_already_paired code w owner Ho Hcode); simpl.
  repeat apply conj; try reflexivity; try exact Ho;
    intros argv2; apply main_exits_1_when_paired; exact Ho.
Qed.

(** C9. [approvePairing] does not look at the owner file before writing
    it: with an owner on record and an unexpired pending record whose
    code matches, it replaces the owner by one made from the pending
    record.  The script, run in the same state with the same code,
    refuses and leaves the owner in place. *)
Theorem approvePairing_overwrites_owner (code : string) (w : World)
    (old : Owner.t) (p : PendingPairing.t) (c : Z) :
  owner_json (files w) = Some old ->
  pending_pairing_json (files w) = Some p ->
  getTime (PendingPairing.createdAt p) = Some c ->
  Date_now w - c <= 10 * 60 * 1000 ->
  Js.toUpperCase code = Js.toUpperCase (PendingPairing.code p) ->
  let owner := Owner.mk (PendingPairing.oderId p) (PendingPairing.roomId p)
                        (toISO (Date_now w)) in
  let w' := snd (Pairing.approvePairing toISO getTime code w) in
  fst (Pairing.approvePairing toISO getTime code w) = Some owner
  /\ owner_json (files w') = Some owner
  /\ pending_pairing_json (files w') = None
  /\ (code <> "" ->
      PairCli.status (fst (main (Some code) w)) = 1
      /\ owner_json (files (snd (main (Some code) w))) = Some old).
Proof.
  intros Ho Hp Hc Hle Hcode; cbv zeta.
  rewrite (approvePairing_accepts toISO getTime code w p c Hp Hc Hle Hcode).
  repeat apply conj; try reflexivity.
  intros Hne; rewrite (main_already_paired code w old Ho Hne); simpl.
  split; [reflexivity | exact Ho].
Qed.

End PairCliFacts.

(** ** Loading the Matrix configuration *)

Section LoadFacts.
Import MatrixClientConfig.
Variable JSON_parse : string -> option Json.

Lemma not_unset_or_empty (v : option string) :
  Js.not_ v = true <-> unset_or_empty v.
Proof.
  unfold unset_or_empty; destruct v as [[|a s]|]; simpl; split;
    try discriminate; auto; intros [H|H]; discriminate.
Qed.

(** C10, as the code has it.  When the file exists, the outcome is that
    of [JSON.parse] on its text, no field being looked at: the parsed
    contents when the text parses, the SyntaxError of [JSON.parse] when
    it does not.  The credentials error is raised exactly when the file
    is absent and one of the three variables is unset or empty; so a
    file never raises it, whatever it lacks. *)
Theorem loadMatrixConfig_outcomes (h : Host) :
  (forall text,
      matrix_config_json h = Some text ->
      loadMatrixConfig JSON_parse h
      = match JSON_parse text with
        | Some parsed => inr (FromFile parsed)
        | None => inl SyntaxError
        end)
  /\ (forall message,
      loadMatrixConfig JSON_parse h = inl (ConfigError message) <->
      matrix_config_json h = None
      /\ message = credentials_message
      /\ (unset_or_empty (env h !! "MATRIX_HOMESERVER")
          \/ unset_or_empty (env h !! "MATRIX_USER_ID")
          \/ unset_or_empty (env h !! "MATRIX_ACCESS_TOKEN")))
  /\ (matrix_config_json h <> None ->
      forall message, loadMatrixConfig JSON_parse h <> inl (ConfigError message)).
Proof.
  unfold loadMatrixConfig; repeat apply conj.
  - intros text ->; reflexivity.
  - intros message.
    destruct (matrix_config_json h) as [text|].
    { split; [destruct (JSON_parse text); discriminate | intros [[=] _]]. }
    rewrite <- !not_unset_or_empty.
    destruct (Js.not_ (env h !! "MATRIX_HOMESERVER")),
             (Js.not_ (env h !! "MATRIX_USER_ID")),
             (Js.not_ (env h !! "MATRIX_ACCESS_TOKEN")); simpl; split;
      try (intros [= <-]; auto);
      try (intros (_ & -> & _); reflexivity);
      try discriminate;
      intros (_ & _ & [H|[H|H]]); discriminate.
  - intros Hfile message.
    destruct (matrix_config_json h) as [text|]; [|contradiction].
    destruct (JSON_parse text); discriminate.
Qed.

End LoadFacts.

(** ** Running the model *)

Example toUpperCase_code : Js.toUpperCase "dlt29gpw" = "DLT29GPW".
Proof. reflexivity. Qed.

Example trim_body : Js.trim "  hello there  " = "hello there".
Proof. reflexivity. Qed.

Example generateCode_fresh : fst (Pairing.generateCode w_fresh) = "DLT29GPW".
Proof. reflexivity. Qed.

Example mentionPattern_andy :
  source (MatrixMonitor.buildMentionPattern Example.config "Andy")
  = "(@Andy|@andy|@andy:example\.org)".
Proof. reflexivity. Qed.

(** A message without mention, where the members cannot be fetched and
    mentions are required: both patterns are tried, then it is dropped. *)
Example room_message_ignored :
  fst (MatrixMonitor.room_message Example.config_strict Example.client "Andy"
         Example.TRIGGER_PATTERN Example.RegExp_test DecimalClock.toISOString
         Example.onMessage "!lost:example.org"
         (Example.says "@alice:example.org" "hello") Example.w_owned)
  = [MatrixMonitor.Logged MatrixMonitor.Debug "Received room.message event";
     MatrixMonitor.Called_getJoinedRoomMembers "!lost:example.org";
     MatrixMonitor.Logged MatrixMonitor.Debug "Message check";
     MatrixMonitor.Tested_mentionPattern "hello";
     MatrixMonitor.Tested_TRIGGER_PATTERN "hello";
     MatrixMonitor.Logged MatrixMonitor.Debug "Message ignored - no trigger/mention"].
Proof. reflexivity. Qed.

(** From a fresh installation: Alice asks to pair, the script is run with
    her code in lower case, then once more with another code. *)
Example pairing_end_to_end :
  let asked :=
    Pairing.createPairingRequest DecimalClock.toISOString
      "@alice:example.org" "!ops:example.org" "Ops" w_fresh in
  let first := Example.pair (Some "dlt29gpw") (snd asked) in
  let second := Example.pair (Some "ZZZZZZZZ") (snd first) in
  let alice := Owner.mk "@alice:example.org" "!ops:example.org" "1000" in
  fst asked = "DLT29GPW"
  /\ PairCli.status (fst first) = 0
  /\ owner_json (files (snd first)) = Some alice
  /\ pending_pairing_json (files (snd first)) = None
  /\ (registered_groups_json (files (snd first)) ≫= lookup "!ops:example.org")
     = Some (RegisteredGroup.mk "main" "main" "@Andy" "1000")
  /\ elements (directories (files (snd first))) = ["data/../groups/main/logs"]
  /\ PairCli.status (fst second) = 1
  /\ PairCli.printed (fst second) = already_paired_report alice
  /\ snd second = snd first.
Proof. repeat split; vm_compute; reflexivity. Qed.

(** An empty argument counts as none: the script prints its usage and the
    pending request. *)
Example pair_with_empty_argument :
  fst (Example.pair (Some "") w_paired_pending)
  = PairCli.mkExit
      [PairCli.Stderr "Usage: npm run pair <CODE>";
       PairCli.Stderr "";
       PairCli.Stderr "Pending pairing request:";
       PairCli.Stderr "  Code: DLT29GPW";
       PairCli.Stderr "  User: @alice:example.org";
       PairCli.Stderr "  Room: Ops";
       PairCli.Stderr "  Created: 1000"] 1.
Proof. reflexivity. Qed.

(** ** The properties at work on examples *)

(** C1 on Alice's request, redeemed in lower case. *)
Lemma approvePairing_pairs_once_witness :
  exists owner w',
    Pairing.approvePairing DecimalClock.toISOString DecimalClock.getTime
      "dlt29gpw" w_pending = (Some owner, w')
    /\ Owner.ownerId owner = "@alice:example.org"
    /\ Owner.mainRoomId owner = "!ops:example.org"
    /\ owner_json (files w') = Some owner
    /\ pending_pairing_json (files w') = None
    /\ forall dt,
         Pairing.approvePairing DecimalClock.toISOString DecimalClock.getTime
           "dlt29gpw" (tick dt w') = (None, tick dt w').
Proof.
  apply (approvePairing_pairs_once DecimalClock.toISOString DecimalClock.getTime
           "dlt29gpw" w_pending alice_request 1000).
  - reflexivity.
  - reflexivity.
  - vm_compute; discriminate.
  - reflexivity.
Defined.


(** C3 on a fresh installation: the request just created is read back,
    and is gone ten minutes and one millisecond later. *)
Lemma getPendingPairing_lazy_expiry_witness :
  let created :=
    Pairing.createPairingRequest DecimalClock.toISOString
      "@alice:example.org" "!ops:example.org" "Ops" w_fresh in
  fst (Pairing.getPendingPairing DecimalClock.getTime (snd created))
  = Some (PendingPairing.mk (fst created) "@alice:example.org" "!ops:example.org"
            "Ops" "1000")
  /\ fst (Pairing.getPendingPairing DecimalClock.getTime (tick 600001 (snd created)))
     = None.
Proof.
  destruct (getPendingPairing_lazy_expiry DecimalClock.toISOString
              DecimalClock.getTime DecimalClock_roundtrip) as (_ & _ & H & _).
  destruct (H w_fresh "@alice:example.org" "!ops:example.org" "Ops")
    as (H1 & _ & H2).
  split.
  - rewrite H1; reflexivity.
  - apply H2; reflexivity.
Defined.

(** C7 in the disabled room: a message that starts with the mention is
    dropped all the same. *)
Lemma disabled_room_never_dispatched_witness :
  MatrixMonitor.dispatched
    (fst (MatrixMonitor.room_message Example.config Example.client "Andy"
            Example.TRIGGER_PATTERN Example.RegExp_test DecimalClock.toISOString
            Example.onMessage "!off:example.org"
            (Example.says "@alice:example.org" "@Andy hello") Example.w_owned))
  = false.
Proof.
  destruct (disabled_room_never_dispatched Example.config Example.client "Andy"
              Example.TRIGGER_PATTERN Example.RegExp_test DecimalClock.toISOString
              Example.onMessage "!off:example.org"
              (Example.says "@alice:example.org" "@Andy hello") Example.w_owned)
    as (H & _).
  apply H; reflexivity.
Defined.

(** C8 with Bob as owner and Alice's code: the script reports Bob and
    touches nothing. *)
Lemma pair_cli_refuses_when_paired_witness :
  let run := Example.pair (Some "DLT29GPW") w_paired_pending in
  PairCli.printed (fst run) = already_paired_report bob
  /\ PairCli.status (fst run) = 1
  /\ snd run = w_paired_pending.
Proof.
  destruct (pair_cli_refuses_when_paired DecimalClock.toISOString
              DecimalClock.getTime "data" "main" (String.concat "/")
              "DLT29GPW" w_paired_pending bob) as (H1 & H2 & H3 & _).
  - reflexivity.
  - discriminate.
  - repeat split; assumption.
Defined.

(** C9 with Bob as owner and Alice's code: [approvePairing] makes Alice
    the owner. *)
Lemma approvePairing_overwrites_owner_witness :
  owner_json (files w_paired_pending) = Some bob
  /\ owner_json
       (files (snd (Pairing.approvePairing DecimalClock.toISOString
                      DecimalClock.getTime "DLT29GPW" w_paired_pending)))
     = Some (Owner.mk "@alice:example.org" "!ops:example.org" "500000").
Proof.
  split; [reflexivity|].
  destruct (approvePairing_overwrites_owner DecimalClock.toISOString
              DecimalClock.getTime "data" "main" (String.concat "/")
              "DLT29GPW" w_paired_pending bob alice_request 1000)
    as (_ & H & _).
  - reflexivity.
  - reflexivity.
  - reflexivity.
  - vm_compute; discriminate.
  - reflexivity.
  - exact H.
Defined.

(** C10 on a configuration file that holds an empty object: it is
    returned as it is. *)
Lemma loadMatrixConfig_outcomes_witness :
  MatrixClientConfig.loadMatrixConfig Example.JSON_parse Example.host_empty_file
  = inr (MatrixClientConfig.FromFile (MatrixClientConfig.JObject [])).
Proof.
  destruct (loadMatrixConfig_outcomes Example.JSON_parse Example.host_empty_file)
    as (H & _).
  rewrite (H "{}"); reflexivity.
Defined.

(** C6 as stated does not hold: the alphabet has 32 symbols, and no 33
    distinct symbols can all occur in generated codes. *)
Lemma alphabet_has_not_33_symbols :
  String.length Pairing.alphabet = 32%nat
  /\ ~ (exists sigma : list ascii,
          List.NoDup sigma
          /\ length sigma = 33%nat
          /\ forall ch, List.In ch sigma ->
               exists w, List.In ch (chars (fst (Pairing.generateCode w)))).
Proof.
  split; [reflexivity|].
  intros (sigma & Hnd & Hlen & Hall).
  assert (Hincl : incl sigma (chars Pairing.alphabet)).
  { intros ch Hin; destruct (Hall ch Hin) as (w & Hw).
    destruct (generateCode_shape w) as [_ HF].
    rewrite List.Forall_forall in HF; exact (HF ch Hw). }
  pose proof (NoDup_incl_length Hnd Hincl) as Hle.
  rewrite Hlen in Hle; vm_compute in Hle; lia.
Qed.

(** C10 as stated does not hold, in two places.  A configuration file
    whose text is no JSON exists and is not returned: [JSON.parse]
    throws.  And with no configuration file and the three variables
    set, one of them to the empty text, the credentials error is raised
    although none is unset. *)
Lemma loadMatrixConfig_throws_where_claimed_not :
  (MatrixClientConfig.matrix_config_json Example.host_broken_file = Some "{"
   /\ MatrixClientConfig.loadMatrixConfig Example.JSON_parse Example.host_broken_file
      = inl MatrixClientConfig.SyntaxError)
  /\ (MatrixClientConfig.matrix_config_json Example.host_blank_token = None
      /\ is_Some (MatrixClientConfig.env Example.host_blank_token !! "MATRIX_HOMESERVER")
      /\ is_Some (MatrixClientConfig.env Example.host_blank_token !! "MATRIX_USER_ID")
      /\ is_Some (MatrixClientConfig.env Example.host_blank_token
                    !! "MATRIX_ACCESS_TOKEN")
      /\ MatrixClientConfig.loadMatrixConfig Example.JSON_parse Example.host_blank_token
         = inl (MatrixClientConfig.ConfigError MatrixClientConfig.credentials_message)).
Proof.
  repeat split; vm_compute; eauto.
Qed.

(* ================================================================== *)
(** * Further properties *)

(** ** The code generator, in closed form *)

Lemma append_assoc_s (a b c : string) : (a ++ b) ++ c = a ++ (b ++ c).
Proof. induction a as [|x a IH]; simpl; [reflexivity | now rewrite IH]. Qed.

Lemma generateCode_loop_closed (n : nat) (acc : string) (w : World) :
  Pairing.generateCode_loop n acc w
  = (acc ++ symbols (entropy w) (drawn w) n, after_draws n w).
Proof.
  revert acc w; induction n as [|n IH]; intros acc w.
  - simpl; rewrite append_empty_r; destruct w; reflexivity.
  - cbn [Pairing.generateCode_loop]; unfold bind, Utils.randomInt.
    rewrite IH; cbn [entropy drawn files Date_now symbols].
    rewrite append_assoc_s; unfold after_draws; cbn [entropy drawn files Date_now].
    replace (n + S (drawn w))%nat with (S n + drawn w)%nat by lia.
    reflexivity.
Qed.

Lemma symbol_of_get (r : N) :
  exists ch,
    symbol_of r = String ch ""
    /\ String.get (N.to_nat (r mod 32)) Pairing.alphabet = Some ch.
Proof.
  unfold symbol_of, Pairing.charAt.
  assert (Hr : 0 <= Z.of_N r mod 32 < 32) by (apply Z.mod_pos_bound; lia).
  destruct (Z.ltb_spec (Z.of_N r mod 32) 0) as [?|_]; [lia|].
  assert (E : Z.to_nat (Z.of_N r mod 32) = N.to_nat (r mod 32)).
  { change 32 with (Z.of_N 32%N). rewrite <- N2Z.inj_mod.
    rewrite <- (N2Z.id (r mod 32)) at 2; rewrite Z_N_nat; reflexivity. }
  rewrite E.
  destruct (get_lt Pairing.alphabet (N.to_nat (r mod 32))) as [ch Hch].
  { change (String.length Pairing.alphabet) with 32%nat.
    pose proof (N.mod_upper_bound r 32 ltac:(discriminate)); lia. }
  rewrite Hch; eauto.
Qed.

Lemma symbols_get (e : nat -> N) (start n k : nat) :
  (k < n)%nat ->
  String.get k (symbols e start n)
  = String.get (N.to_nat (e (start + k)%nat mod 32)) Pairing.alphabet.
Proof.
  revert start k; induction n as [|n IH]; intros start k Hk; [lia|].
  cbn [symbols].
  destruct (symbol_of_get (e start)) as (ch & -> & Hch).
  destruct k as [|k]; simpl.
  - rewrite Nat.add_0_r; symmetry; exact Hch.
  - rewrite IH by lia.
    replace (S start + k)%nat with (start + S k)%nat by lia; reflexivity.
Qed.

(** X1. [generateCode] reads eight words of entropy and nothing else:
    the character at position [k] of the code is the alphabet symbol at
    index "[k]-th word modulo 32", and the world is left as it was but
    for the eight words consumed. *)
Theorem generateCode_closed_form (w : World) :
  (forall k, (k < 8)%nat ->
     String.get k (fst (Pairing.generateCode w))
     = String.get (N.to_nat (entropy w (drawn w + k)%nat mod 32)) Pairing.alphabet)
  /\ snd (Pairing.generateCode w) = after_draws 8 w.
Proof.
  unfold Pairing.generateCode; rewrite generateCode_loop_closed; simpl fst; simpl snd.
  split; [|reflexivity].
  intros k Hk; apply (symbols_get (entropy w) (drawn w) 8 k Hk).
Qed.

(** ** The pairing service, further *)

Section PairingMore.
Variable toISO : Z -> string.
Variable getTime : string -> option Z.

Abbreviation getPendingPairing := (Pairing.getPendingPairing getTime).
Abbreviation approvePairing := (Pairing.approvePairing toISO getTime).
Abbreviation createPairingRequest := (Pairing.createPairingRequest toISO).

Lemma createPairingRequest_run (userId roomId roomName : string) (w : World) :
  createPairingRequest userId roomId roomName w
  = let code := symbols (entropy w) (drawn w) 8 in
    (code,
     set_files
       (Utils.set_slot Utils.PENDING_PATH
          (Some (PendingPairing.mk code userId roomId roomName (toISO (Date_now w)))))
       (after_draws 8 w)).
Proof.
  unfold Pairing.createPairingRequest, bind, Pairing.generateCode.
  rewrite generateCode_loop_closed; reflexivity.
Qed.

Lemma approvePairing_outcomes (code : string) (w : World) (p : PendingPairing.t) :
  pending_pairing_json (files w) = Some p ->
  (Js.toUpperCase code <> Js.toUpperCase (PendingPairing.code p) ->
   fst (approvePairing code w) = None)
  /\ (fst (approvePairing code w) <> None ->
      owner_json (files (snd (approvePairing code w)))
      = Some (Owner.mk (PendingPairing.oderId p) (PendingPairing.roomId p)
                (toISO (Date_now w)))).
Proof.
  intros Hp; rewrite approvePairing_run, getPendingPairing_run, Hp.
  destruct (Pairing.expired _ _).
  - split; [reflexivity | intros H; now elim H].
  - destruct (String.eqb_spec (Js.toUpperCase (PendingPairing.code p))
                (Js.toUpperCase code)) as [E|E].
    + split; [intros H; now elim H | reflexivity].
    + split; [reflexivity | intros H; now elim H].
Qed.

(** X2. Once [approvePairing] has accepted a code, the queries agree
    with it: the system is paired, the requester and nobody else is the
    owner, the requester's room and no other is the main room. *)
Theorem approvePairing_then_queries (code : string) (w : World)
    (p : PendingPairing.t) (c : Z) :
  pending_pairing_json (files w) = Some p ->
  getTime (PendingPairing.createdAt p) = Some c ->
  Date_now w - c <= 10 * 60 * 1000 ->
  Js.toUpperCase code = Js.toUpperCase (PendingPairing.code p) ->
  let w' := snd (approvePairing code w) in
  fst (Pairing.isPaired w') = true
  /\ fst (Pairing.getMainRoomId w') = Some (PendingPairing.roomId p)
  /\ (forall userId,
        fst (Pairing.isOwner userId w') = true <-> userId = PendingPairing.oderId p)
  /\ (forall roomId,
        fst (Pairing.isMainRoom roomId w') = true <-> roomId = PendingPairing.roomId p).
Proof.
  intros Hp Hc Hle Hcode; cbv zeta.
  rewrite (approvePairing_accepts toISO getTime code w p c Hp Hc Hle Hcode).
  repeat apply conj; try reflexivity.
  - intros userId; simpl; rewrite String.eqb_eq; split; congruence.
  - intros roomId; simpl; rewrite String.eqb_eq; split; congruence.
Qed.

Lemma alphabet_ascii (ch : ascii) :
  List.In ch (chars Pairing.alphabet) -> (nat_of_ascii ch <? 128)%nat = true.
Proof.
  intros Hin.
  assert (A : forallb (fun c => (nat_of_ascii c <? 128)%nat) (chars Pairing.alphabet)
              = true) by reflexivity.
  rewrite forallb_forall in A; exact (A ch Hin).
Qed.

Lemma symbols_ascii (e : nat -> N) (start n : nat) :
  ascii_text (symbols e start n) = true.
Proof.
  revert start; induction n as [|n IH]; intros start; [reflexivity|].
  cbn [symbols]; destruct (symbol_of_get (e start)) as (ch & -> & Hch).
  unfold ascii_text; simpl.
  rewrite (alphabet_ascii ch (get_In _ _ _ Hch)); apply IH.
Qed.

(** X3. [createPairingRequest] keeps no queue and checks nothing: the
    new record takes the place of whatever was pending, the owner file
    and the registered groups are left alone, also when an owner is on
    record, and an ASCII code that differs from the new one (itself in
    ASCII) even up to letter case is refused from then on. *)
Theorem createPairingRequest_replaces (userId roomId roomName : string) (w : World) :
  let code := fst (createPairingRequest userId roomId roomName w) in
  let w' := snd (createPairingRequest userId roomId roomName w) in
  pending_pairing_json (files w')
  = Some (PendingPairing.mk code userId roomId roomName (toISO (Date_now w)))
  /\ owner_json (files w') = owner_json (files w)
  /\ registered_groups_json (files w') = registered_groups_json (files w)
  /\ directories (files w') = directories (files w)
  /\ Date_now w' = Date_now w
  /\ ascii_text code = true
  /\ (forall old dt,
        ascii_text old = true ->
        Js.toUpperCase old <> Js.toUpperCase code ->
        fst (approvePairing old (tick dt w')) = None)
  /\ (forall old dt,
        fst (approvePairing old (tick dt w')) <> None ->
        owner_json (files (snd (approvePairing old (tick dt w'))))
        = Some (Owner.mk userId roomId (toISO (Date_now w + dt)))).
Proof.
  cbv zeta; rewrite createPairingRequest_run; cbv zeta; cbn [fst snd].
  pose proof (symbols_ascii (entropy w) (drawn w) 8) as Hascii; revert Hascii.
  generalize (symbols (entropy w) (drawn w) 8); intros code Hascii.
  repeat apply conj; try reflexivity.
  - exact Hascii.
  - intros old dt _ Hne.
    eapply approvePairing_outcomes; [reflexivity | exact Hne].
  - intros old dt Hok.
    set (w1 := tick dt _) in *.
    exact (proj2 (approvePairing_outcomes old w1 _ eq_refl) Hok).
Qed.

(** X4. Past the ten minutes the right code is refused like any other:
    [approvePairing] returns nothing, removes the pending record and
    writes no owner. *)
Theorem approvePairing_expired (code : string) (w : World)
    (p : PendingPairing.t) (c : Z) :
  pending_pairing_json (files w) = Some p ->
  getTime (PendingPairing.createdAt p) = Some c ->
  Date_now w - c > 10 * 60 * 1000 ->
  approvePairing code w = (None, without_pending w)
  /\ owner_json (files (without_pending w)) = owner_json (files w)
  /\ pending_pairing_json (files (without_pending w)) = None.
Proof.
  intros Hp Hc Hgt.
  rewrite approvePairing_run, getPendingPairing_run, Hp, Hc, expired_true by exact Hgt.
  repeat split.
Qed.

(** X5. A pending record whose creation time does not read as a date
    never expires: it is read back, and its code accepted, at any
    later instant. *)
Theorem unreadable_createdAt_never_expires (w : World) (p : PendingPairing.t) :
  pending_pairing_json (files w) = Some p ->
  getTime (PendingPairing.createdAt p) = None ->
  forall dt,
    getPendingPairing (tick dt w) = (Some p, tick dt w)
    /\ fst (approvePairing (PendingPairing.code p) (tick dt w))
       = Some (Owner.mk (PendingPairing.oderId p) (PendingPairing.roomId p)
                 (toISO (Date_now w + dt))).
Proof.
  intros Hp Hc dt.
  assert (Hget : getPendingPairing (tick dt w) = (Some p, tick dt w)).
  { rewrite getPendingPairing_run; simpl; rewrite Hp, Hc; reflexivity. }
  split; [exact Hget|].
  rewrite approvePairing_run, Hget, String.eqb_refl; reflexivity.
Qed.

(** X6. Reading the pending request twice is the same as reading it
    once, and reading it never touches the owner file: the only thing
    a read can do is remove a record that has expired. *)
Theorem getPendingPairing_idempotent (w : World) :
  let w' := snd (getPendingPairing w) in
  getPendingPairing w' = (fst (getPendingPairing w), w')
  /\ owner_json (files w') = owner_json (files w)
  /\ (w' = w \/ (w' = without_pending w /\ fst (getPendingPairing w) = None)).
Proof.
  cbv zeta; rewrite (getPendingPairing_run getTime w).
  destruct (pending_pairing_json (files w)) as [p|] eqn:Hp.
  - destruct (Pairing.expired _ _) eqn:Hexp; cbn [fst snd].
    + repeat split; auto.
    + rewrite getPendingPairing_run, Hp, Hexp; repeat split; auto.
  - cbn [fst snd]; rewrite getPendingPairing_run, Hp; repeat split; auto.
Qed.

End PairingMore.

(** ** The mention requirement, where the message is handed over *)

Section AdmissionMore.
Import MatrixMonitor Admission.
Variable config : MatrixConfig.t.
Variable client : MatrixClient.
Variable ASSISTANT_NAME : string.
Variable TRIGGER_PATTERN : RegExp.
Variable RegExp_test : RegExp -> string -> bool.
Variable toISO : Z -> string.
Variable onMessage :
  MatrixMessage.t -> option MatrixRoomConfig.t -> bool -> option string.

Abbreviation run := (room_message config client ASSISTANT_NAME TRIGGER_PATTERN
                       RegExp_test toISO onMessage).
Abbreviation mentionPattern := (MatrixMonitor.mentionPattern config ASSISTANT_NAME).

(** X29. For a message past the rejection checks, with a body in ASCII
    and a time a [Date] can hold, the mention requirement the callback
    computes is: none in a direct message; otherwise the room's own
    setting, else the global one, else "not the main room".  The message
    is handed to the handler unless a mention is required and neither
    pattern matches; so in the main room, with neither setting present,
    it is handed over whatever its text. *)
Theorem requireMention_fallback_chain (roomId : string) (event : Event.t)
    (text : string) (w : World) :
  passes_prechecks config roomId event text ->
  ascii_text (body_text event) = true ->
  Date_isValid (stamped event w) = true ->
  let roomConfig := roomConfig_of config roomId in
  let perRoom := roomConfig ≫= MatrixRoomConfig.requireMention in
  let global := MatrixConfig.requireMention config in
  let isMain := isMain_in w roomId in
  let isDM := isDM_in client roomId in
  let trace := fst (run roomId event w) in
  requireMention_of config isDM roomConfig isMain
    = requireMention_spec isDM perRoom global isMain
  /\ dispatched trace
     = negb (requireMention_spec isDM perRoom global isMain
             && negb (RegExp_test mentionPattern text)
             && negb (RegExp_test TRIGGER_PATTERN text))
  /\ (isMain = true -> perRoom = None -> global = None ->
      dispatched trace = true
      /\ exists message,
           List.In (Called_onMessage message roomConfig true) trace
           /\ MatrixMessage.content message = text).
Proof.
  intros Hpre _ Hvalid; cbv zeta.
  destruct (room_message_admission config client ASSISTANT_NAME TRIGGER_PATTERN
              RegExp_test toISO onMessage roomId event text w Hpre Hvalid)
    as (Hdisp & _ & Hmsg).
  rewrite requireMention_of_spec in Hdisp.
  split; [apply requireMention_of_spec|]; split; [exact Hdisp|].
  intros Hmain Hroom Hglobal.
  assert (Hd : dispatched (fst (run roomId event w)) = true).
  { rewrite Hdisp, Hroom, Hglobal, Hmain.
    unfold requireMention_spec; destruct (isDM_in client roomId); reflexivity. }
  split; [exact Hd|].
  destruct (Hmsg Hd) as (m & Hin & _ & Hcontent & _).
  rewrite Hmain in Hin; eauto.
Qed.

(** X30. For a message past the rejection checks, with a body in ASCII
    and a time a [Date] can hold: in a room of at most two joined
    members it is handed to the handler without any pattern being tried,
    whatever the room and global settings say; and when the members
    cannot be fetched the room is not taken for a direct message, so the
    settings decide and a required mention is enforced. *)
Theorem direct_message_needs_no_mention (roomId : string) (event : Event.t)
    (text : string) (w : World) :
  passes_prechecks config roomId event text ->
  ascii_text (body_text event) = true ->
  Date_isValid (stamped event w) = true ->
  let roomConfig := roomConfig_of config roomId in
  let perRoom := roomConfig ≫= MatrixRoomConfig.requireMention in
  let global := MatrixConfig.requireMention config in
  let isMain := isMain_in w roomId in
  let trace := fst (run roomId event w) in
  (forall members,
      getJoinedRoomMembers client roomId = Some members ->
      (length members <= 2)%nat ->
      dispatched trace = true
      /\ existsb is_test trace = false
      /\ exists message,
           List.In (Called_onMessage message roomConfig isMain) trace
           /\ MatrixMessage.content message = text)
  /\ (getJoinedRoomMembers client roomId = None ->
      isDM_of (getJoinedRoomMembers client roomId) = false
      /\ dispatched trace
         = negb (requireMention_spec false perRoom global isMain
                 && negb (RegExp_test mentionPattern text)
                 && negb (RegExp_test TRIGGER_PATTERN text))
      /\ (requireMention_spec false perRoom global isMain = true ->
          RegExp_test mentionPattern text = false ->
          RegExp_test TRIGGER_PATTERN text = false ->
          dispatched trace = false)).
Proof.
  intros Hpre _ Hvalid; cbv zeta.
  destruct (room_message_admission config client ASSISTANT_NAME TRIGGER_PATTERN
              RegExp_test toISO onMessage roomId event text w Hpre Hvalid)
    as (Hdisp & Htest & Hmsg).
  rewrite requireMention_of_spec in Hdisp, Htest.
  split.
  - intros members Hmembers Hle.
    assert (HDM : isDM_in client roomId = true).
    { unfold isDM_in; rewrite Hmembers; apply bool_decide_eq_true_2; exact Hle. }
    rewrite HDM in Hdisp, Htest; simpl in Hdisp, Htest.
    split; [exact Hdisp|]; split; [exact Htest|].
    destruct (Hmsg Hdisp) as (m & Hin & _ & Hcontent & _); eauto.
  - intros Hfail.
    assert (HDM : isDM_in client roomId = false)
      by (unfold isDM_in; rewrite Hfail; reflexivity).
    rewrite HDM in Hdisp.
    split; [rewrite Hfail; reflexivity|]; split; [exact Hdisp|].
    intros Hreq Hmention Htrigger.
    rewrite Hdisp, Hreq, Hmention, Htrigger; reflexivity.
Qed.

End AdmissionMore.

(** ** What the handler receives *)

Lemma trimStart_split (s : string) :
  exists l, s = l ++ Js.trimStart s /\ all_white l.
Proof.
  induction s as [|c s (l & Hl & Hw)]; simpl.
  - exists ""; split; [reflexivity | constructor].
  - destruct (Js.isWhiteSpace c) eqn:Hc.
    + exists (String c l); split; [simpl; congruence | constructor; assumption].
    + exists ""; split; [reflexivity | constructor].
Qed.

Lemma trimStart_first (s : string) :
  match first_char (Js.trimStart s) with
  | Some c => Js.isWhiteSpace c = false
  | None => Js.trimStart s = ""
  end.
Proof.
  induction s as [|c s IH]; simpl; [reflexivity|].
  destruct (Js.isWhiteSpace c) eqn:Hc; [exact IH | exact Hc].
Qed.

Lemma trimEnd_split (s : string) :
  exists r, s = Js.trimEnd s ++ r /\ all_white r.
Proof.
  induction s as [|c s (r & Hr & Hw)]; simpl.
  - exists ""; split; [reflexivity | constructor].
  - destruct (Js.trimEnd s) as [|d t] eqn:Ht.
    + destruct (Js.isWhiteSpace c) eqn:Hc.
      * exists (String c r); split; [simpl; simpl in Hr; congruence|].
        constructor; assumption.
      * exists r; split; [simpl; simpl in Hr; congruence | assumption].
    + exists r; split; [simpl; simpl in Hr; congruence | assumption].
Qed.

Lemma trimEnd_last (s : string) :
  Js.trimEnd s = ""
  \/ exists c, last_char (Js.trimEnd s) = Some c /\ Js.isWhiteSpace c = false.
Proof.
  induction s as [|c s IH]; simpl; [now left|].
  destruct (Js.trimEnd s) as [|d t] eqn:Ht.
  - destruct (Js.isWhiteSpace c) eqn:Hc; [now left | right; exists c; auto].
  - right; destruct IH as [IH|IH]; [discriminate | exact IH].
Qed.

Lemma trimEnd_first (c : ascii) (s : string) :
  Js.isWhiteSpace c = false ->
  first_char (Js.trimEnd (String c s)) = Some c.
Proof.
  intros Hc; simpl.
  destruct (Js.trimEnd s); [rewrite Hc|]; reflexivity.
Qed.

Lemma trimEnd_idem (s : string) : Js.trimEnd (Js.trimEnd s) = Js.trimEnd s.
Proof.
  induction s as [|c s IH]; simpl; [reflexivity|].
  destruct (Js.trimEnd s) as [|d t] eqn:Ht.
  - destruct (Js.isWhiteSpace c) eqn:Hc; simpl; [reflexivity | now rewrite Hc].
  - simpl; simpl in IH; rewrite IH; reflexivity.
Qed.

Lemma trim_shape (s : string) :
  (exists l r, s = l ++ Js.trim s ++ r /\ all_white l /\ all_white r)
  /\ (Js.trim s <> "" ->
      (exists c, first_char (Js.trim s) = Some c /\ Js.isWhiteSpace c = false)
      /\ (exists c, last_char (Js.trim s) = Some c /\ Js.isWhiteSpace c = false))
  /\ Js.trim (Js.trim s) = Js.trim s.
Proof.
  unfold Js.trim.
  destruct (trimStart_split s) as (l & Hl & Hwl).
  destruct (trimEnd_split (Js.trimStart s)) as (r & Hr & Hwr).
  pose proof (trimStart_first s) as Hfirst.
  pose proof (trimEnd_last (Js.trimStart s)) as Hlast.
  repeat apply conj.
  - exists l, r; repeat split; try assumption. congruence.
  - intros Hne; split.
    + destruct (Js.trimStart s) as [|c t] eqn:Hts; [now elim Hne|].
      simpl in Hfirst; exists c; split; [apply trimEnd_first|]; exact Hfirst.
    + destruct Hlast as [Hlast|Hlast]; [contradiction | exact Hlast].
  - destruct (Js.trimStart s) as [|c t] eqn:Hts; [reflexivity|].
    simpl in Hfirst.
    pose proof (trimEnd_first c t Hfirst) as Hf.
    destruct (Js.trimEnd (String c t)) as [|c' t'] eqn:Hte; [discriminate|].
    injection Hf as ->.
    change (Js.trimStart (String c t')) with
      (if Js.isWhiteSpace c then Js.trimStart t' else String c t').
    rewrite Hfirst, <- Hte; apply trimEnd_idem.
Qed.

Section HandlerFacts.
Import MatrixMonitor Admission.
Variable config : MatrixConfig.t.
Variable client : MatrixClient.
Variable ASSISTANT_NAME : string.
Variable TRIGGER_PATTERN : RegExp.
Variable RegExp_test : RegExp -> string -> bool.
Variable toISO : Z -> string.
Variable onMessage :
  MatrixMessage.t -> option MatrixRoomConfig.t -> bool -> option string.

Abbreviation run := (room_message config client ASSISTANT_NAME TRIGGER_PATTERN
                       RegExp_test toISO onMessage).
Abbreviation mentionPattern := (MatrixMonitor.mentionPattern config ASSISTANT_NAME).

(** Whatever reaches the handler got past the checks. *)
Lemma room_message_dispatch_inv (roomId : string) (event : Event.t) (w : World)
    (m : MatrixMessage.t) (rc : option MatrixRoomConfig.t) (isMain : bool) :
  List.In (Called_onMessage m rc isMain) (fst (run roomId event w)) ->
  exists c b,
    Event.sender event <> MatrixConfig.userId config
    /\ Event.content event = Some c
    /\ Event.msgtype c = Some "m.text"
    /\ Event.body c = Some b
    /\ Js.trim b <> ""
    /\ (roomConfig_of config roomId ≫= MatrixRoomConfig.enabled) <> Some false
    /\ rc = roomConfig_of config roomId
    /\ isMain = isMain_in w roomId
    /\ m = MatrixMessage.mk roomId (Event.event_id event) (Event.sender event)
             (match getUserProfile client (Event.sender event) with
              | Some profile => Js.or_else (displayname profile) (Event.sender event)
              | None => Event.sender event
              end)
             (Js.trim b)
             (toISO (origin_or (Event.origin_server_ts event) (Date_now w)))
             (threadId_of (Event.m_relates_to c)) None.
Proof.
  rewrite (room_message_rejections config client ASSISTANT_NAME TRIGGER_PATTERN
             RegExp_test toISO onMessage roomId event w); cbv zeta.
  destruct (decide (Event.sender event = MatrixConfig.userId config)) as [E|Hsender].
  { rewrite bool_decide_eq_true_2 by exact E; simpl; intros [[=]|[]]. }
  rewrite bool_decide_eq_false_2 by exact Hsender.
  destruct (not_text (Event.content event)) eqn:Hnt.
  { simpl; intros [[=]|[[=]|[]]]. }
  destruct (Js.falsy _) eqn:Hf; [simpl; intros [[=]|[]]|].
  destruct (disabled _) eqn:Hd; [simpl; intros [[=]|[]]|].
  unfold not_text in Hnt.
  destruct (Event.content event) as [c|] eqn:Hc; [|discriminate].
  destruct (Event.msgtype c) as [mt|] eqn:Hm; [|discriminate].
  destruct (String.eqb_spec mt "m.text") as [->|]; [|discriminate].
  destruct (Event.body c) as [b|] eqn:Hb; [|discriminate].
  simpl in Hf; rewrite Hb in Hf; simpl in Hf.
  assert (Htext : Js.trim b <> "") by (intros E; rewrite E in Hf; discriminate).
  assert (Hen : (roomConfig_of config roomId ≫= MatrixRoomConfig.enabled) <> Some false).
  { rewrite disabled_enabled in Hd; apply bool_decide_eq_false_1 in Hd; exact Hd. }
  rewrite (room_message_passed config client ASSISTANT_NAME TRIGGER_PATTERN
             RegExp_test toISO onMessage roomId event w c b Hsender Hc Hm Hb Htext Hen).
  cbn [fst]; intros Hin.
  exists c, b; repeat (split; [assumption|]).
  assert (Hno : forall l : list Effect,
             forallb (fun e => negb (is_onMessage e)) l = true ->
             ~ List.In (Called_onMessage m rc isMain) l).
  { intros l Hl Hi; rewrite forallb_forall in Hl; specialize (Hl _ Hi); discriminate. }
  destruct (_ && _ && _); [|destruct (Date_isValid _)].
  - exfalso; revert Hin; apply Hno.
    rewrite !forallb_app; simpl.
    destruct (requireMention_of _ _ _ _), (RegExp_test mentionPattern (Js.trim b));
      reflexivity.
  - rewrite !in_app_iff in Hin.
    destruct Hin as [Hin|[Hin|[Hin|Hin]]].
    + exfalso; revert Hin; apply Hno; reflexivity.
    + exfalso; revert Hin; apply Hno.
      destruct (requireMention_of _ _ _ _), (RegExp_test mentionPattern (Js.trim b));
        reflexivity.
    + exfalso; revert Hin; apply Hno; reflexivity.
    + destruct Hin as [Hin|Hin].
      * injection Hin as <- <- <-; repeat split; assumption.
      * exfalso; revert Hin; apply Hno; destruct (onMessage _ _ _); reflexivity.
  - exfalso; revert Hin; apply Hno.
    rewrite !forallb_app; simpl.
    destruct (requireMention_of _ _ _ _), (RegExp_test mentionPattern (Js.trim b));
      reflexivity.
Qed.

(** A run either only logs, or it is the run of a message past the
    checks. *)
Lemma room_message_cases (roomId : string) (event : Event.t) (w : World) :
  ((fst (run roomId event w) = [Logged Debug "Received room.message event"]
    \/ fst (run roomId event w)
       = [Logged Debug "Received room.message event";
          Logged Debug "Ignoring non-text message"])
   /\ snd (run roomId event w) = w)
  \/ (exists c b,
        Event.sender event <> MatrixConfig.userId config
        /\ Event.content event = Some c
        /\ Event.msgtype c = Some "m.text"
        /\ Event.body c = Some b
        /\ Js.trim b <> ""
        /\ (roomConfig_of config roomId ≫= MatrixRoomConfig.enabled) <> Some false).
Proof.
  rewrite (room_message_rejections config client ASSISTANT_NAME TRIGGER_PATTERN
             RegExp_test toISO onMessage roomId event w); cbv zeta.
  destruct (decide (Event.sender event = MatrixConfig.userId config)) as [E|Hsender].
  { rewrite bool_decide_eq_true_2 by exact E; left; split; [left|]; reflexivity. }
  rewrite bool_decide_eq_false_2 by exact Hsender.
  destruct (not_text (Event.content event)) eqn:Hnt;
    [left; split; [right|]; reflexivity|].
  destruct (Js.falsy _) eqn:Hf; [left; split; [left|]; reflexivity|].
  destruct (disabled _) eqn:Hd; [left; split; [left|]; reflexivity|].
  right; unfold not_text in Hnt.
  destruct (Event.content event) as [c|] eqn:Hc; [|discriminate].
  destruct (Event.msgtype c) as [mt|] eqn:Hm; [|discriminate].
  destruct (String.eqb_spec mt "m.text") as [->|]; [|discriminate].
  destruct (Event.body c) as [b|] eqn:Hb; [|discriminate].
  simpl in Hf; rewrite Hb in Hf; simpl in Hf.
  exists c, b; repeat split; try assumption.
  - intros E; rewrite E in Hf; discriminate.
  - rewrite disabled_enabled in Hd; apply bool_decide_eq_false_1 in Hd; exact Hd.
Qed.

(** X7. For an event whose body is ASCII text, what the handler is
    given as content is the body with the white space around it
    removed, and is never empty; the sender is never the bot itself. *)
Theorem handler_receives_trimmed_text (roomId : string) (event : Event.t)
    (w : World) (m : MatrixMessage.t) (rc : option MatrixRoomConfig.t)
    (isMain : bool) :
  ascii_text (body_text event) = true ->
  List.In (Called_onMessage m rc isMain) (fst (run roomId event w)) ->
  let text := MatrixMessage.content m in
  (exists body l r,
      (Event.content event ≫= Event.body) = Some body
      /\ body = l ++ text ++ r /\ all_white l /\ all_white r)
  /\ text <> ""
  /\ (exists c, first_char text = Some c /\ Js.isWhiteSpace c = false)
  /\ (exists c, last_char text = Some c /\ Js.isWhiteSpace c = false)
  /\ MatrixMessage.sender m = Event.sender event
  /\ MatrixMessage.sender m <> MatrixConfig.userId config.
Proof.
  intros _ Hin; cbv zeta.
  destruct (room_message_dispatch_inv roomId event w m rc isMain Hin)
    as (c & b & Hsender & Hc & Hm & Hb & Htext & _ & _ & _ & ->).
  cbn [MatrixMessage.content MatrixMessage.sender].
  destruct (trim_shape b) as ((l & r & Hsplit & Hl & Hr) & Hends & _).
  destruct (Hends Htext) as (Hfirst & Hlast).
  repeat apply conj; try assumption; try reflexivity.
  exists b, l, r; rewrite Hc; simpl; auto.
Qed.

(** X8. The record handed to the handler: room and event identifiers
    of the event; as sender name the display name of the profile, or
    the sender identifier when the profile cannot be fetched or has no
    display name; as time the origin time of the event, or the current
    time when the event has none (or zero); a thread identifier exactly
    when the event relates to a thread. *)
Theorem handler_receives_normalized_record (roomId : string) (event : Event.t)
    (w : World) (m : MatrixMessage.t) (rc : option MatrixRoomConfig.t)
    (isMain : bool) :
  List.In (Called_onMessage m rc isMain) (fst (run roomId event w)) ->
  let sender := Event.sender event in
  let profile := getUserProfile client sender in
  let origin := Event.origin_server_ts event in
  MatrixMessage.roomId m = roomId
  /\ MatrixMessage.eventId m = Event.event_id event
  /\ rc = roomConfig_of config roomId
  /\ isMain = isMain_in w roomId
  /\ (forall d, profile ≫= displayname = Some d -> d <> "" ->
        MatrixMessage.senderName m = d)
  /\ (profile ≫= displayname = None \/ profile ≫= displayname = Some "" ->
        MatrixMessage.senderName m = sender)
  /\ (forall t, origin = Some t -> t <> 0 ->
        MatrixMessage.timestamp m = toISO t)
  /\ (origin = None \/ origin = Some 0 ->
        MatrixMessage.timestamp m = toISO (Date_now w))
  /\ (forall id,
        MatrixMessage.threadId m = Some id <->
        exists rel,
          (Event.content event ≫= Event.m_relates_to) = Some rel
          /\ Event.rel_type rel = Some "m.thread"
          /\ Event.rel_event_id rel = Some id).
Proof.
  intros Hin; cbv zeta.
  destruct (room_message_dispatch_inv roomId event w m rc isMain Hin)
    as (c & b & _ & Hc & _ & _ & _ & _ & -> & -> & ->).
  cbn [MatrixMessage.roomId MatrixMessage.eventId MatrixMessage.senderName
       MatrixMessage.timestamp MatrixMessage.threadId].
  repeat apply conj; try reflexivity.
  - intros d Hd Hne.
    destruct (getUserProfile client (Event.sender event)) as [[dn]|];
      simpl in Hd; [|discriminate].
    subst dn; simpl; destruct d; [contradiction | reflexivity].
  - intros Hd.
    destruct (getUserProfile client (Event.sender event)) as [[dn]|];
      simpl in Hd; [|reflexivity].
    destruct Hd as [->| ->]; reflexivity.
  - intros t -> Ht; simpl.
    destruct (Z.eqb_spec t 0); [contradiction | reflexivity].
  - intros [-> | ->]; reflexivity.
  - intros id; rewrite Hc; simpl; unfold threadId_of.
    destruct (Event.m_relates_to c) as [rel|].
    + destruct (Event.rel_type rel) as [t|] eqn:Ht.
      * destruct (String.eqb_spec t "m.thread") as [->|Hne].
        -- split; [intros H; exists rel; auto|].
           intros (rel' & [= <-] & _ & H); exact H.
        -- split; [discriminate|].
           intros (rel' & [= <-] & H & _); congruence.
      * split; [discriminate|].
        intros (rel' & [= <-] & H & _); congruence.
    + split; [discriminate | intros (rel' & [=] & _)].
Qed.

(** The effect is not in a trace that is written out. *)
Ltac absent := simpl; intuition discriminate.

(** X9. On an event whose body is ASCII text, a run of the callback
    calls the handler at most once, and when the handler fails the
    failure is logged and goes no further: the error log is there
    exactly when the handler was called and rejected.  What the callback
    does throw is the RangeError of a time no [Date] can hold, and then
    the handler was not called. *)
Theorem room_message_contains_handler_failure (roomId : string)
    (event : Event.t) (w : World) :
  ascii_text (body_text event) = true ->
  let trace := fst (run roomId event w) in
  (length (List.filter is_onMessage trace) <= 1)%nat
  /\ (List.In (Logged Error "Error handling Matrix message") trace <->
      exists m rc isMain,
        List.In (Called_onMessage m rc isMain) trace
        /\ onMessage m rc isMain <> None)
  /\ (List.In Threw_RangeError trace ->
      Date_isValid (stamped event w) = false /\ dispatched trace = false).
Proof.
  intros _; cbv zeta.
  destruct (room_message_cases roomId event w)
    as [[Htrace Hw]|(c & b & Hsender & Hc & Hm & Hb & Htext & Hen)].
  - destruct Htrace as [-> | ->].
    all: split; [simpl; lia|]; split; [|absent].
    all: split; [absent|].
    all: intros (m & rc & isMain & Hin & _); revert Hin; absent.
  - rewrite (room_message_passed config client ASSISTANT_NAME TRIGGER_PATTERN
               RegExp_test toISO onMessage roomId event w c b Hsender Hc Hm Hb Htext Hen).
    cbn [fst]; unfold stamped.
    set (m := MatrixMessage.mk _ _ _ _ _ _ _ _).
    set (rm := requireMention_of _ _ _ _).
    destruct (rm && _ && _) eqn:Hdec; [|destruct (Date_isValid _) eqn:Hv].
    + destruct rm, (RegExp_test mentionPattern (Js.trim b)).
      all: split; [simpl; lia|]; split; [|absent].
      all: split; [absent|].
      all: intros (m' & rc' & i' & Hin & _); revert Hin; absent.
    + destruct (onMessage m _ _) as [err|] eqn:Hon.
      * destruct rm, (RegExp_test mentionPattern (Js.trim b)).
        all: split; [simpl; lia|]; split; [|absent].
        all: split; [|intros _; simpl; tauto].
        all: intros _; exists m, (roomConfig_of config roomId), (isMain_in w roomId).
        all: split; [simpl; tauto | rewrite Hon; discriminate].
      * destruct rm, (RegExp_test mentionPattern (Js.trim b)).
        all: split; [simpl; lia|]; split; [|absent].
        all: split; [absent|].
        all: intros (m' & rc' & i' & Hin & Hrej); exfalso; simpl in Hin.
        all: repeat (destruct Hin as [Hin|Hin]; try discriminate); try contradiction.
        all: injection Hin as <- <- <-; rewrite Hon in Hrej; now elim Hrej.
    + destruct rm, (RegExp_test mentionPattern (Js.trim b)).
      all: split; [simpl; lia|]; split; [|intros _; split; reflexivity].
      all: split; [absent|].
      all: intros (m' & rc' & i' & Hin & _); revert Hin; absent.
Qed.

End HandlerFacts.

(** ** The mention pattern *)

Lemma isMetaChar_backslash : MatrixMonitor.isMetaChar "\" = true.
Proof. reflexivity. Qed.

Lemma not_meta_not_backslash (c : ascii) :
  MatrixMonitor.isMetaChar c = false -> Ascii.eqb c "\" = false.
Proof.
  intros H; destruct (Ascii.eqb_spec c "\") as [->|]; [|reflexivity].
  rewrite isMetaChar_backslash in H; discriminate.
Qed.

Lemma unescape_escapeRegExp (s : string) :
  unescape (MatrixMonitor.escapeRegExp s) = s.
Proof.
  induction s as [|c s IH]; simpl; [reflexivity|].
  destruct (MatrixMonitor.isMetaChar c) eqn:Hc; simpl.
  - now rewrite IH.
  - rewrite (not_meta_not_backslash c Hc), IH; reflexivity.
Qed.

Lemma escaped_escapeRegExp (s : string) :
  escaped (MatrixMonitor.escapeRegExp s) = true.
Proof.
  induction s as [|c s IH]; simpl; [reflexivity|].
  destruct (MatrixMonitor.isMetaChar c) eqn:Hc; simpl.
  - exact IH.
  - rewrite (not_meta_not_backslash c Hc), Hc, IH; reflexivity.
Qed.

Lemma before_colon_app (l d : string) :
  ~ List.In ":"%char (chars l) ->
  MatrixMonitor.before_colon (l ++ String ":" d) = l.
Proof.
  induction l as [|c l IH]; simpl; intros Hno; [reflexivity|].
  destruct (Ascii.eqb_spec c ":") as [->|_]; [elim Hno; now left|].
  rewrite IH; [reflexivity | intros H; apply Hno; now right].
Qed.

(** X10. For a bot identifier [@local:domain], what
    [startMatrixMonitor] asks [new RegExp] to compile is the
    case-insensitive alternation of [@] and the assistant name, [@] and
    the local part, and the whole identifier with each meta-character
    escaped by a backslash, so that the third alternative reads as the
    identifier itself.  The name and the local part go in as they are:
    the monitor registers its callback when that source compiles, and
    throws the SyntaxError of [new RegExp] when it does not. *)
Theorem buildMentionPattern_shape (config : MatrixConfig.t) (client : MatrixClient)
    (ASSISTANT_NAME localpart domain : string) (TRIGGER_PATTERN : RegExp)
    (RegExp_test : RegExp -> string -> bool) (toISO : Z -> string)
    (onMessage : MatrixMessage.t -> option MatrixRoomConfig.t -> bool -> option string)
    (RegExp_compiles : RegExp -> bool) :
  MatrixConfig.userId config = "@" ++ localpart ++ ":" ++ domain ->
  ~ List.In ":"%char (chars localpart) ->
  let id := MatrixMonitor.escapeRegExp (MatrixConfig.userId config) in
  let asked :=
    mkRegExp ("(@" ++ ASSISTANT_NAME ++ "|@" ++ localpart ++ "|" ++ id ++ ")") "i" in
  let started :=
    MatrixMonitor.startMatrixMonitor config client ASSISTANT_NAME TRIGGER_PATTERN
      RegExp_test toISO onMessage RegExp_compiles in
  MatrixMonitor.buildMentionPattern config ASSISTANT_NAME = asked
  /\ unescape id = MatrixConfig.userId config
  /\ escaped id = true
  /\ (RegExp_compiles asked = true ->
      started
      = MatrixMonitor.Monitoring
          (MatrixMonitor.room_message config client ASSISTANT_NAME TRIGGER_PATTERN
             RegExp_test toISO onMessage))
  /\ (RegExp_compiles asked = false -> started = MatrixMonitor.Threw_SyntaxError).
Proof.
  intros Hid Hno; cbv zeta.
  assert (Hasked : MatrixMonitor.buildMentionPattern config ASSISTANT_NAME
                   = mkRegExp ("(@" ++ ASSISTANT_NAME ++ "|@" ++ localpart ++ "|"
                               ++ MatrixMonitor.escapeRegExp (MatrixConfig.userId config)
                               ++ ")") "i").
  { unfold MatrixMonitor.buildMentionPattern; rewrite Hid.
    change ("@" ++ localpart ++ ":" ++ domain)
      with (String "@" (localpart ++ String ":" domain)).
    cbn [MatrixMonitor.before_colon]; change (Ascii.eqb "@" ":") with false; cbv iota.
    rewrite before_colon_app by exact Hno.
    cbn [MatrixMonitor.remove_first_at]; rewrite Ascii.eqb_refl; reflexivity. }
  unfold MatrixMonitor.startMatrixMonitor; rewrite Hasked.
  rewrite unescape_escapeRegExp, escaped_escapeRegExp.
  repeat split; intros ->; reflexivity.
Qed.

(** ** The pairing script, further *)

Section PairCliMore.
Variable toISO : Z -> string.
Variable getTime : string -> option Z.
Variable DATA_DIR MAIN_GROUP_FOLDER : string.
Variable path_join : list string -> string.

Abbreviation main := (PairCli.main toISO getTime DATA_DIR MAIN_GROUP_FOLDER path_join).
Abbreviation approvePairing := (Pairing.approvePairing toISO getTime).

Lemma redeemable_dec (code : string) (w : World) :
  redeemable getTime code w \/ ~ redeemable getTime code w.
Proof.
  unfold redeemable.
  destruct (pending_pairing_json (files w)) as [p|];
    [|right; intros (p & [=] & _)].
  destruct (Pairing.expired (Date_now w) (getTime (PendingPairing.createdAt p))) eqn:He;
    [right; intros (q & [= <-] & H & _); congruence|].
  destruct (decide (Js.toUpperCase code = Js.toUpperCase (PendingPairing.code p)))
    as [E|E]; [left; eauto | right; intros (q & [= <-] & _ & H); contradiction].
Qed.

Lemma approvePairing_redeemable (code : string) (w : World) (p : PendingPairing.t) :
  pending_pairing_json (files w) = Some p ->
  Pairing.expired (Date_now w) (getTime (PendingPairing.createdAt p)) = false ->
  Js.toUpperCase code = Js.toUpperCase (PendingPairing.code p) ->
  let owner := Owner.mk (PendingPairing.oderId p) (PendingPairing.roomId p)
                        (toISO (Date_now w)) in
  approvePairing code w = (Some owner, without_pending (with_owner owner w)).
Proof.
  intros Hp He Hcode; cbv zeta.
  rewrite approvePairing_run, getPendingPairing_run, Hp, He, Hcode, String.eqb_refl.
  reflexivity.
Qed.

Lemma approvePairing_not_redeemable (code : string) (w : World) :
  ~ redeemable getTime code w ->
  fst (approvePairing code w) = None
  /\ owner_json (files (snd (approvePairing code w))) = owner_json (files w)
  /\ registered_groups_json (files (snd (approvePairing code w)))
     = registered_groups_json (files w)
  /\ directories (files (snd (approvePairing code w))) = directories (files w)
  /\ pending_pairing_json (files (snd (approvePairing code w)))
     = match pending_pairing_json (files w) with
       | Some p =>
           if Pairing.expired (Date_now w) (getTime (PendingPairing.createdAt p))
           then None else Some p
       | None => None
       end.
Proof.
  intros Hno; rewrite approvePairing_run, getPendingPairing_run.
  destruct (pending_pairing_json (files w)) as [p|] eqn:Hp; [|repeat split; auto].
  destruct (Pairing.expired _ _) eqn:He; [repeat split|].
  destruct (String.eqb_spec (Js.toUpperCase (PendingPairing.code p))
              (Js.toUpperCase code)) as [E|E].
  - elim Hno; exists p; auto.
  - repeat split; auto.
Qed.

(** The script run with a code and no owner on record. *)
Lemma main_unpaired (code : string) (w : World) :
  code <> "" ->
  owner_json (files w) = None ->
  main (Some code) w =
  match approvePairing code w with
  | (Some owner, w1) =>
      (PairCli.mkExit (paired_report MAIN_GROUP_FOLDER owner) 0,
       set_files
         (fun f =>
            mkFs (owner_json f) (pending_pairing_json f)
              (Some (<[ Owner.mainRoomId owner :=
                          RegisteredGroup.mk "main" MAIN_GROUP_FOLDER "@Andy"
                            (toISO (Date_now w1)) ]> (groups_on_file w1)))
              ({[ path_join [path_join [DATA_DIR; ".."; "groups"; MAIN_GROUP_FOLDER];
                             "logs"] ]} ∪ directories f))
         w1)
  | (None, w1) =>
      (PairCli.mkExit
         [PairCli.Stderr "Invalid or expired pairing code.";
          match fst (Pairing.getPendingPairing getTime w1) with
          | Some pending =>
              PairCli.Stderr ("Current valid code: " ++ PendingPairing.code pending)
          | None => PairCli.no_pending
          end] 1,
       snd (Pairing.getPendingPairing getTime w1))
  end.
Proof.
  intros Hcode Ho; unfold PairCli.main.
  destruct code as [|a code]; [contradiction|].
  cbn [Js.not_ Js.falsy]; change (default "" (Some (String a code))) with (String a code).
  unfold bind at 1; unfold Pairing.getOwner, Utils.loadJson, gets at 1.
  cbn [Utils.slot]; rewrite Ho; cbv iota beta.
  unfold bind at 1; unfold PairCli.approvePairing.
  destruct (approvePairing (String a code) w) as [[owner|] w1].
  - unfold bind, gets, ret, Utils.loadJson, Utils.saveJson, modify,
      Utils.mkdirSync_recursive, groups_on_file; cbn [Utils.slot fst snd].
    destruct w1 as [[o p g d] now e n]; cbn.
    destruct g; reflexivity.
  - unfold bind, PairCli.getPendingPairing, ret.
    destruct (Pairing.getPendingPairing getTime w1) as [pending w2]; reflexivity.
Qed.

Lemma getPendingPairing_keeps (w : World) :
  owner_json (files (snd (Pairing.getPendingPairing getTime w))) = owner_json (files w)
  /\ registered_groups_json (files (snd (Pairing.getPendingPairing getTime w)))
     = registered_groups_json (files w)
  /\ directories (files (snd (Pairing.getPendingPairing getTime w)))
     = directories (files w).
Proof.
  rewrite getPendingPairing_run.
  destruct (pending_pairing_json (files w)); [destruct (Pairing.expired _ _)|];
    repeat split.
Qed.

(** The script run without a code. *)
Lemma main_usage (argv2 : option string) (w : World) :
  Js.not_ argv2 = true ->
  exists r w',
    main argv2 w = (r, w')
    /\ PairCli.status r = 1
    /\ owner_json (files w') = owner_json (files w)
    /\ registered_groups_json (files w') = registered_groups_json (files w)
    /\ directories (files w') = directories (files w).
Proof.
  intros Hnot; unfold PairCli.main; rewrite Hnot.
  unfold bind at 1; unfold PairCli.getPendingPairing.
  pose proof (getPendingPairing_keeps w) as (K1 & K2 & K3).
  destruct (Pairing.getPendingPairing getTime w) as [[q|] w1];
    cbn [fst snd] in *;
    [eexists _, _; split; [reflexivity|]; repeat split; assumption|].
  unfold bind, Pairing.getOwner, Utils.loadJson, gets, ret; cbn [Utils.slot].
  destruct (owner_json (files w1)) eqn:E;
    (eexists _, _; split; [reflexivity|]; repeat split; congruence).
Qed.

(** X11. Run with the code of an unexpired pending request while no
    owner is on record, the script exits with status 0 after it has
    written the owner, removed the pending request, registered the
    owner's room as the main group (the other registered groups stay
    as they are) and created the group's log directory. *)
Theorem pair_cli_pairs (code : string) (w : World) (p : PendingPairing.t) (c : Z) :
  code <> "" ->
  owner_json (files w) = None ->
  pending_pairing_json (files w) = Some p ->
  getTime (PendingPairing.createdAt p) = Some c ->
  Date_now w - c <= 10 * 60 * 1000 ->
  Js.toUpperCase code = Js.toUpperCase (PendingPairing.code p) ->
  let result := fst (main (Some code) w) in
  let w' := snd (main (Some code) w) in
  let owner := Owner.mk (PendingPairing.oderId p) (PendingPairing.roomId p)
                        (toISO (Date_now w)) in
  let group := RegisteredGroup.mk "main" MAIN_GROUP_FOLDER "@Andy"
                 (toISO (Date_now w)) in
  PairCli.status result = 0
  /\ PairCli.printed result = paired_report MAIN_GROUP_FOLDER owner
  /\ owner_json (files w') = Some owner
  /\ pending_pairing_json (files w') = None
  /\ groups_on_file w' !! PendingPairing.roomId p = Some group
  /\ (forall room, room <> PendingPairing.roomId p ->
        groups_on_file w' !! room = groups_on_file w !! room)
  /\ directories (files w')
     = {[ path_join [path_join [DATA_DIR; ".."; "groups"; MAIN_GROUP_FOLDER]; "logs"] ]}
       ∪ directories (files w).
Proof.
  intros Hcode Ho Hp Hc Hle Hmatch; cbv zeta.
  rewrite (main_unpaired code w Hcode Ho).
  rewrite (approvePairing_redeemable code w p Hp) by
    (rewrite ?Hc; auto using expired_false).
  cbn [fst snd PairCli.status PairCli.printed].
  repeat apply conj; try reflexivity.
  - unfold groups_on_file; simpl; apply lookup_insert_eq.
  - intros room Hroom; unfold groups_on_file; simpl.
    rewrite lookup_insert_ne by congruence; reflexivity.
Qed.

(** X12. Run with a wrong code while a request is pending and no owner
    is on record (the code typed and the code stored both in ASCII),
    the script exits with status 1, changes nothing, and prints the
    code that would have been right. *)
Theorem pair_cli_wrong_code_prints_valid_code (code : string) (w : World)
    (p : PendingPairing.t) (c : Z) :
  code <> "" ->
  owner_json (files w) = None ->
  pending_pairing_json (files w) = Some p ->
  getTime (PendingPairing.createdAt p) = Some c ->
  Date_now w - c <= 10 * 60 * 1000 ->
  ascii_text code = true ->
  ascii_text (PendingPairing.code p) = true ->
  Js.toUpperCase code <> Js.toUpperCase (PendingPairing.code p) ->
  main (Some code) w
  = (PairCli.mkExit
       [PairCli.Stderr "Invalid or expired pairing code.";
        PairCli.Stderr ("Current valid code: " ++ PendingPairing.code p)] 1,
     w).
Proof.
  intros Hcode Ho Hp Hc Hle _ _ Hne.
  rewrite (main_unpaired code w Hcode Ho).
  assert (He : Pairing.expired (Date_now w) (getTime (PendingPairing.createdAt p)) = false)
    by (rewrite Hc; auto using expired_false).
  rewrite approvePairing_run, !getPendingPairing_run, Hp, He.
  destruct (String.eqb_spec (Js.toUpperCase (PendingPairing.code p))
              (Js.toUpperCase code)) as [E|_]; [now elim Hne|].
  rewrite getPendingPairing_run, Hp, He; reflexivity.
Qed.

(** X13. With its argument and the code of the pending request, if
    any, in ASCII, the script exits with status 0 or 1, and with 0
    exactly when it was given a non-empty code, no owner was on record
    and the code redeemed the pending request.  In every other run the
    owner file, the registered groups and the directories are left as
    they were. *)
Theorem pair_cli_status (argv2 : option string) (w : World) :
  ascii_text (default "" argv2) = true ->
  (forall p, pending_pairing_json (files w) = Some p ->
             ascii_text (PendingPairing.code p) = true) ->
  let result := fst (main argv2 w) in
  let w' := snd (main argv2 w) in
  (PairCli.status result = 0 \/ PairCli.status result = 1)
  /\ (PairCli.status result = 0 <->
      exists code,
        argv2 = Some code /\ code <> ""
        /\ owner_json (files w) = None
        /\ redeemable getTime code w)
  /\ (PairCli.status result = 1 ->
      owner_json (files w') = owner_json (files w)
      /\ registered_groups_json (files w') = registered_groups_json (files w)
      /\ directories (files w') = directories (files w)).
Proof.
  intros _ _; cbv zeta.
  assert (Hcases :
    (exists code, argv2 = Some code /\ code <> "" /\ owner_json (files w) = None
                  /\ redeemable getTime code w)
    \/ (~ (exists code, argv2 = Some code /\ code <> ""
                        /\ owner_json (files w) = None
                        /\ redeemable getTime code w)
        /\ PairCli.status (fst (main argv2 w)) = 1
        /\ owner_json (files (snd (main argv2 w))) = owner_json (files w)
        /\ registered_groups_json (files (snd (main argv2 w)))
           = registered_groups_json (files w)
        /\ directories (files (snd (main argv2 w))) = directories (files w))).
  { destruct argv2 as [[|a rest]|].
    3:{ right; split; [intros (code & [=] & _)|].
        destruct (main_usage None w eq_refl) as (r & w' & -> & H); exact H. }
    1:{ right; split; [intros (code & [= <-] & H & _); now elim H|].
        destruct (main_usage (Some "") w eq_refl) as (r & w' & -> & H); exact H. }
    destruct (owner_json (files w)) as [owner|] eqn:Ho.
    { right; split; [intros (code & _ & _ & [=] & _)|].
      rewrite (main_already_paired toISO getTime DATA_DIR MAIN_GROUP_FOLDER path_join
                 (String a rest) w owner Ho) by discriminate.
      repeat split; simpl; auto. }
    destruct (redeemable_dec (String a rest) w) as [Hr|Hr].
    { left; exists (String a rest); repeat split; auto; discriminate. }
    right; split; [intros (code & [= <-] & _ & _ & H); contradiction|].
    rewrite (main_unpaired (String a rest) w) by (auto; discriminate).
    pose proof (approvePairing_not_redeemable (String a rest) w Hr)
      as (A0 & A1 & A2 & A3 & _).
    destruct (approvePairing (String a rest) w) as [[owner|] w1];
      cbn [fst snd] in *; [discriminate|].
    pose proof (getPendingPairing_keeps w1) as (K1 & K2 & K3).
    repeat split; congruence. }
  destruct Hcases as [(code & -> & Hcode & Ho & p & Hp & He & Hm)
                     |(Hno & Hst & K1 & K2 & K3)].
  - rewrite (main_unpaired code w Hcode Ho).
    rewrite (approvePairing_redeemable code w p Hp He Hm); cbn [fst snd PairCli.status].
    split; [now left|]; split; [|discriminate].
    split; [intros _|reflexivity].
    exists code; repeat split; auto; exists p; auto.
  - rewrite Hst; split; [now right|]; split; [|auto].
    split; [discriminate | intros H; contradiction].
Qed.

End PairCliMore.

(** ** Configuration from the environment *)

Section EnvConfig.
Import MatrixClientConfig MatrixMonitor Admission.
Variable JSON_parse : string -> option Json.

Lemma loadMatrixConfig_env_inv (h : Host) (config : MatrixConfig.t) :
  loadMatrixConfig JSON_parse h = inr (FromEnv config) ->
  MatrixConfig.rooms config = None
  /\ MatrixConfig.requireMention config
     = Some (negb (bool_decide (env h !! "MATRIX_REQUIRE_MENTION" = Some "false"))).
Proof.
  unfold loadMatrixConfig.
  destruct (matrix_config_json h) as [text|];
    [destruct (JSON_parse text); discriminate|].
  destruct (_ || _ || _); [discriminate|].
  intros [= <-]; split; reflexivity.
Qed.

(** X14. With no configuration file and the three credentials set and
    not empty, [loadMatrixConfig] returns them; encryption is on only
    for [MATRIX_ENCRYPTION] equal to [true], mentions are required
    unless [MATRIX_REQUIRE_MENTION] is equal to [false], and no room
    has a configuration. *)
Theorem loadMatrixConfig_from_env (h : Host) (homeserver userId accessToken : string) :
  matrix_config_json h = None ->
  env h !! "MATRIX_HOMESERVER" = Some homeserver -> homeserver <> "" ->
  env h !! "MATRIX_USER_ID" = Some userId -> userId <> "" ->
  env h !! "MATRIX_ACCESS_TOKEN" = Some accessToken -> accessToken <> "" ->
  exists encryption requireMention,
    loadMatrixConfig JSON_parse h
    = inr (FromEnv (MatrixConfig.mk homeserver userId accessToken
                      (Some encryption) None (Some requireMention)))
    /\ (encryption = true <-> env h !! "MATRIX_ENCRYPTION" = Some "true")
    /\ (requireMention = false <-> env h !! "MATRIX_REQUIRE_MENTION" = Some "false").
Proof.
  intros Hfile Hh Hh' Hu Hu' Ht Ht'.
  unfold loadMatrixConfig; rewrite Hfile, Hh, Hu, Ht.
  destruct homeserver; [contradiction|].
  destruct userId; [contradiction|].
  destruct accessToken; [contradiction|].
  cbn [Js.not_ Js.falsy orb default].
  eexists _, _; split; [reflexivity|]; split.
  - rewrite bool_decide_eq_true; reflexivity.
  - rewrite negb_false_iff, bool_decide_eq_true; reflexivity.
Qed.

(** X15. A configuration that comes from the environment always
    carries a global mention setting and no room settings.  So the main
    room gets no exemption: outside direct messages a message past the
    checks, with a body in ASCII and a time a [Date] can hold, reaches
    the handler exactly when [MATRIX_REQUIRE_MENTION] is [false] or one
    of the two patterns matches, whether the room is the main room or
    not. *)
Theorem env_config_decides_mention (h : Host) (config : MatrixConfig.t)
    (client : MatrixClient) (ASSISTANT_NAME : string) (TRIGGER_PATTERN : RegExp)
    (RegExp_test : RegExp -> string -> bool) (toISO : Z -> string)
    (onMessage : MatrixMessage.t -> option MatrixRoomConfig.t -> bool -> option string)
    (roomId : string) (event : Event.t) (text : string) (w : World) :
  loadMatrixConfig JSON_parse h = inr (FromEnv config) ->
  passes_prechecks config roomId event text ->
  ascii_text (body_text event) = true ->
  Date_isValid (stamped event w) = true ->
  isDM_in client roomId = false ->
  dispatched (fst (room_message config client ASSISTANT_NAME TRIGGER_PATTERN
                     RegExp_test toISO onMessage roomId event w))
  = bool_decide (env h !! "MATRIX_REQUIRE_MENTION" = Some "false")
    || RegExp_test (mentionPattern config ASSISTANT_NAME) text
    || RegExp_test TRIGGER_PATTERN text.
Proof.
  intros Hload Hpre _ Hvalid HDM.
  destruct (loadMatrixConfig_env_inv h config Hload) as (Hrooms & Hreq).
  destruct (room_message_admission config client ASSISTANT_NAME TRIGGER_PATTERN
              RegExp_test toISO onMessage roomId event text w Hpre Hvalid)
    as (Hdisp & _).
  rewrite Hdisp, HDM; unfold requireMention_of, roomConfig_of.
  rewrite Hrooms, Hreq; simpl.
  destruct (bool_decide _), (RegExp_test (mentionPattern config ASSISTANT_NAME) text),
    (RegExp_test TRIGGER_PATTERN text); reflexivity.
Qed.

End EnvConfig.

(** ** The client module *)

Section ClientModuleFacts.
Import MatrixClientConfig MatrixClientModule.
Variable JSON_parse : string -> option Json.
Variable STORE_DIR : string.
Variable path_join : list string -> string.
Variable MatrixClient_new : Client -> bool.
Variable sdk_sendMessage : Client -> string -> Event.Content -> option string.
Variable sdk_setTyping : Client -> string -> bool -> Z -> bool.

Abbreviation initMatrixClient :=
  (MatrixClientModule.initMatrixClient JSON_parse STORE_DIR path_join MatrixClient_new).
Abbreviation getMatrixConfig := (MatrixClientModule.getMatrixConfig JSON_parse).
Abbreviation sendMatrixMessage := (MatrixClientModule.sendMatrixMessage sdk_sendMessage).
Abbreviation setMatrixTyping := (MatrixClientModule.setMatrixTyping sdk_setTyping).

Lemma initMatrixClient_result (s : State) :
  match initMatrixClient s with
  | (inr c, s') => client s' = Some c
  | (inl e, s') => client s' = client s /\ (client s = None)
  end.
Proof.
  unfold MatrixClientModule.initMatrixClient.
  destruct (client s) as [c|] eqn:Hc; [exact Hc|].
  destruct (loadMatrixConfig JSON_parse (host s)) as [e|loaded]; [auto|].
  destruct (property loaded "encryption") as [e|enc]; [auto|].
  destruct (MatrixClient_new _); [reflexivity|].
  destruct (match enc with Some j => truthy j | None => false end); auto.
Qed.

(** X16. [initMatrixClient] builds the client once: after a call that
    returned a client, [getMatrixClient] returns that client, and any
    further call returns it too and does nothing else, whatever has
    become of the configuration file and the environment. *)
Theorem initMatrixClient_once (s s' : State) (c : Client) :
  initMatrixClient s = (inr c, s') ->
  getMatrixClient s' = (inr c, s')
  /\ forall h, initMatrixClient (with_host h s') = (inr c, with_host h s').
Proof.
  intros Hinit.
  pose proof (initMatrixClient_result s) as H; rewrite Hinit in H.
  split.
  - unfold getMatrixClient; rewrite H; reflexivity.
  - intros h; unfold MatrixClientModule.initMatrixClient; simpl; rewrite H; reflexivity.
Qed.

(** X17. When the configuration cannot be loaded, [initMatrixClient]
    throws what [loadMatrixConfig] threw and leaves everything as it
    was: no client, no directory, nothing logged.  Whatever makes it
    throw, there is no client afterwards and [getMatrixClient] says
    so. *)
Theorem initMatrixClient_failure (s : State) :
  client s = None ->
  (forall e, loadMatrixConfig JSON_parse (host s) = inl e ->
             initMatrixClient s = (inl (Load e), s))
  /\ (forall e s', initMatrixClient s = (inl e, s') ->
        client s' = None
        /\ getMatrixClient s' = (inl not_initialized, s')).
Proof.
  intros Hc; split.
  - intros e He; unfold MatrixClientModule.initMatrixClient; rewrite Hc, He; reflexivity.
  - intros e s' Hinit.
    pose proof (initMatrixClient_result s) as H; rewrite Hinit in H.
    destruct H as [H _]; rewrite Hc in H.
    split; [exact H|]. unfold getMatrixClient; rewrite H; reflexivity.
Qed.

(** X18. After [stopMatrixClient] there is no client: [getMatrixClient]
    and [sendMatrixMessage] throw and nothing is sent.  The loaded
    configuration is kept, and stopping again does nothing. *)
Theorem stopMatrixClient_forgets_client (s : State) :
  let s' := snd (stopMatrixClient s) in
  fst (stopMatrixClient s) = inr tt
  /\ getMatrixClient s' = (inl not_initialized, s')
  /\ (forall roomId text threadId,
        sendMatrixMessage roomId text threadId s' = (inl not_initialized, s'))
  /\ config s' = config s
  /\ stopMatrixClient s' = (inr tt, s').
Proof.
  cbv zeta; unfold stopMatrixClient.
  destruct (client s) as [c|] eqn:Hc; cbn [fst snd].
  - repeat split.
  - unfold MatrixClientModule.sendMatrixMessage, getMatrixClient; rewrite Hc.
    repeat split.
Qed.

(** X19. [getMatrixConfig] loads the configuration once: what it has
    returned it returns again, without a look at the file or the
    environment, as long as the value is not falsy. *)
Theorem getMatrixConfig_caches (s s' : State) (loaded : Loaded) :
  getMatrixConfig s = (inr loaded, s') ->
  config_unset (Some loaded) = false ->
  forall h, getMatrixConfig (with_host h s') = (inr loaded, with_host h s').
Proof.
  intros Hget Htruthy h.
  assert (Hcfg : config s' = Some loaded).
  { unfold MatrixClientModule.getMatrixConfig in Hget.
    destruct (config s) as [l0|] eqn:Hc.
    - destruct (config_unset (Some l0)).
      + destruct (loadMatrixConfig JSON_parse (host s)); [discriminate|].
        injection Hget as <- <-; reflexivity.
      + injection Hget as <- <-; exact Hc.
    - destruct (loadMatrixConfig JSON_parse (host s)); [discriminate|].
      injection Hget as <- <-; reflexivity. }
  unfold MatrixClientModule.getMatrixConfig; simpl; rewrite Hcfg, Htruthy; reflexivity.
Qed.

(** X20. [sendMatrixMessage] without a client throws and sends
    nothing.  With a client it sends one text message to the room, its
    body the text given, and returns the event identifier of the SDK,
    or fails as the SDK does. *)
Theorem sendMatrixMessage_outcomes (roomId text : string) (threadId : option string)
    (s : State) :
  let content := content_of text threadId in
  (client s = None ->
     sendMatrixMessage roomId text threadId s = (inl not_initialized, s))
  /\ (forall c, client s = Some c ->
        Event.msgtype content = Some "m.text"
        /\ Event.body content = Some text
        /\ (forall eventId,
              sdk_sendMessage c roomId content = Some eventId ->
              sendMatrixMessage roomId text threadId s
              = (inr eventId,
                 did [Sent roomId content; Logged Info "Matrix message sent"] s))
        /\ (sdk_sendMessage c roomId content = None ->
              sendMatrixMessage roomId text threadId s
              = (inl SdkError, did [Sent roomId content] s))).
Proof.
  cbv zeta; unfold MatrixClientModule.sendMatrixMessage, getMatrixClient; split.
  - intros ->; reflexivity.
  - intros c ->; repeat split.
    + intros eventId ->; unfold did; simpl; rewrite <- app_assoc; reflexivity.
    + intros ->; reflexivity.
Qed.


End ClientModuleFacts.

(** ** Sending into a thread and reading it back *)

(** X21. What [sendMatrixMessage] sends reads back through the monitor:
    when an event with the content it builds for an ASCII text reaches
    the handler, the message has the text sent, trimmed, and the thread
    it was sent into, if any. *)
Theorem sent_thread_is_received (config : MatrixConfig.t) (client : MatrixClient)
    (ASSISTANT_NAME : string) (TRIGGER_PATTERN : RegExp)
    (RegExp_test : RegExp -> string -> bool) (toISO : Z -> string)
    (onMessage : MatrixMessage.t -> option MatrixRoomConfig.t -> bool -> option string)
    (roomId : string) (event : Event.t) (text : string) (threadId : option string)
    (w : World) (m : MatrixMessage.t) (rc : option MatrixRoomConfig.t) (isMain : bool) :
  ascii_text text = true ->
  Event.content event = Some (MatrixClientModule.content_of text threadId) ->
  List.In (MatrixMonitor.Called_onMessage m rc isMain)
    (fst (MatrixMonitor.room_message config client ASSISTANT_NAME TRIGGER_PATTERN
            RegExp_test toISO onMessage roomId event w)) ->
  MatrixMessage.content m = Js.trim text
  /\ MatrixMessage.threadId m = (if Js.not_ threadId then None else threadId).
Proof.
  intros _ Hcontent Hin.
  destruct (room_message_dispatch_inv config client ASSISTANT_NAME TRIGGER_PATTERN
              RegExp_test toISO onMessage roomId event w m rc isMain Hin)
    as (c & b & _ & Hc & _ & Hb & _ & _ & _ & _ & ->).
  rewrite Hcontent in Hc; injection Hc as <-.
  simpl in Hb; injection Hb as <-.
  split; [reflexivity|].
  cbn [MatrixMessage.threadId MatrixClientModule.content_of Event.m_relates_to].
  destruct (Js.not_ threadId); reflexivity.
Qed.

(** ** Routing between the channels *)

(** X23. The universal [sendMessage] sends a target that starts with [!]
    or [#] on Matrix and any other target on WhatsApp, a Matrix user
    identifier included; when the channel it picks is not there it logs
    an error and sends nothing, it never falls back on the other
    channel. *)
Theorem sendMessage_routing (channels : Channels.Available) (target text : string) :
  let to_matrix :=
    first_char target = Some "!"%char \/ first_char target = Some "#"%char in
  (Channels.detectChannelType target = Channels.matrix <-> to_matrix)
  /\ (to_matrix ->
      Channels.sendMessage channels target text
      = if Channels.has_matrix channels
        then Channels.Sent_on Channels.matrix target text
        else Channels.Logged_error "Channel not available" target Channels.matrix)
  /\ (~ to_matrix ->
      Channels.sendMessage channels target text
      = if Channels.has_whatsapp channels
        then Channels.Sent_on Channels.whatsapp target text
        else Channels.Logged_error "Channel not available" target Channels.whatsapp).
Proof.
  cbv zeta.
  assert (Hp : forall a, String.prefix (String a "") target = true
                         <-> first_char target = Some a).
  { intros a; destruct target as [|c t]; simpl; [split; discriminate|].
    destruct (ascii_dec a c) as [->|Hne].
    - split; [reflexivity | intros _; destruct t; reflexivity].
    - split; [discriminate | intros [= E]; congruence]. }
  assert (Hd : Channels.detectChannelType target = Channels.matrix <->
               first_char target = Some "!"%char \/ first_char target = Some "#"%char).
  { unfold Channels.detectChannelType; rewrite <- !Hp.
    destruct (String.prefix "!" target), (String.prefix "#" target); simpl;
      try (split; [auto | reflexivity]).
    destruct (Channels.includes "@" target);
      (split; [discriminate | intros [H|H]; discriminate]). }
  split; [exact Hd|]; unfold Channels.sendMessage; split.
  - intros H; apply Hd in H; rewrite H; simpl.
    destruct (Channels.has_matrix channels); reflexivity.
  - intros H.
    destruct (Channels.detectChannelType target) eqn:E;
      [|elim H; apply Hd; reflexivity].
    simpl; destruct (Channels.has_whatsapp channels); reflexivity.
Qed.

(** ** The message handler *)

Section ProcessFacts.
Import ProcessMatrixMessage.
Variable toISO : Z -> string.
Variable ASSISTANT_NAME MAIN_GROUP_FOLDER DATA_DIR : string.
Variable path_join : list string -> string.
Variable runAgent : RegisteredGroup.t -> string -> string -> option (option string).
Variable send_resolves : string -> string -> option string -> bool.

Abbreviation folder_of := (ProcessMatrixMessage.folder_of MAIN_GROUP_FOLDER).
Abbreviation process :=
  (processMatrixMessage toISO ASSISTANT_NAME MAIN_GROUP_FOLDER DATA_DIR path_join
     runAgent send_resolves).

Lemma sanitize_safe (s : string) :
  List.Forall (fun c => folder_safe c = true) (chars (sanitize s)).
Proof.
  induction s as [|c s IH]; simpl; constructor; [|exact IH].
  unfold folder_safe; destruct (isAlphaNum c) eqn:Hc; [rewrite Hc|]; reflexivity.
Qed.

(** X24. The folder of a room that is neither configured with one nor
    the main room, and whose identifier is in ASCII, is [matrix-]
    followed by the room identifier with every character other than a
    letter or a digit turned into an underscore: it is made of letters,
    digits, [_] and [-] only, so it names no other directory than its
    own.  A configured folder is taken as it is, and comes before the
    main folder. *)
Theorem folder_of_room (roomConfig : option MatrixRoomConfig.t) (isMain : bool)
    (roomId : string) :
  (forall f, roomConfig ≫= MatrixRoomConfig.folder = Some f ->
             folder_of roomConfig isMain roomId = f)
  /\ (roomConfig ≫= MatrixRoomConfig.folder = None ->
      (isMain = true -> folder_of roomConfig isMain roomId = MAIN_GROUP_FOLDER)
      /\ (isMain = false -> ascii_text roomId = true ->
          folder_of roomConfig isMain roomId = "matrix-" ++ sanitize roomId
          /\ List.Forall (fun c => folder_safe c = true)
               (chars (folder_of roomConfig isMain roomId))
          /\ ~ List.In "/"%char (chars (folder_of roomConfig isMain roomId))
          /\ ~ List.In "."%char (chars (folder_of roomConfig isMain roomId)))).
Proof.
  unfold ProcessMatrixMessage.folder_of, Js.nullish; split.
  - intros f ->; reflexivity.
  - intros ->; split; [intros ->; reflexivity|].
    intros -> _.
    assert (Hsafe : List.Forall (fun c => folder_safe c = true)
                      (chars ("matrix-" ++ sanitize roomId))).
    { unfold chars; rewrite list_ascii_app; apply List.Forall_app; split.
      - repeat constructor.
      - apply sanitize_safe. }
    repeat split; try exact Hsafe;
      intros Hin; rewrite List.Forall_forall in Hsafe;
      specialize (Hsafe _ Hin); discriminate.
Qed.

(** X25. A room is registered the first time a message of it is
    handled, whatever the agent does afterwards: the group goes into
    the registry under the room identifier, the registry is written to
    the groups file and the log directory of the folder is made.  A
    room that is registered already is left as it is registered, and no
    file is touched.  In both cases the other rooms, the owner file and
    the pending request stay as they are. *)
Theorem processMatrixMessage_registers_once (message : MatrixMessage.t)
    (roomConfig : option MatrixRoomConfig.t) (isMain : bool) (s : State) :
  let roomId := MatrixMessage.roomId message in
  let folder := folder_of roomConfig isMain roomId in
  let group :=
    RegisteredGroup.mk folder folder
      (Js.nullish (roomConfig ≫= MatrixRoomConfig.triggerPattern) ("@" ++ ASSISTANT_NAME))
      (toISO (Date_now (world s))) in
  let s' := snd (process message roomConfig isMain s) in
  (forall g, registeredGroups s !! roomId = Some g ->
     registeredGroups s' = registeredGroups s /\ world s' = world s)
  /\ (registeredGroups s !! roomId = None ->
      registeredGroups s' = <[ roomId := group ]> (registeredGroups s)
      /\ registered_groups_json (files (world s')) = Some (registeredGroups s')
      /\ directories (files (world s'))
         = {[ path_join [path_join [DATA_DIR; ".."; "groups"; folder]; "logs"] ]}
           ∪ directories (files (world s)))
  /\ (forall room, room <> roomId ->
        registeredGroups s' !! room = registeredGroups s !! room)
  /\ owner_json (files (world s')) = owner_json (files (world s))
  /\ pending_pairing_json (files (world s'))
     = pending_pairing_json (files (world s)).
Proof.
  cbv zeta; unfold processMatrixMessage.
  destruct (registeredGroups s !! MatrixMessage.roomId message) as [g|] eqn:Hg;
    cbv iota beta.
  all: destruct (runAgent _ _ _) as [[r|]|]; cbn [Js.not_];
    try destruct (Js.falsy r); try destruct (send_resolves _ _ _);
    cbn [snd registeredGroups world];
    (split; [intros g' E; try discriminate; split; reflexivity|]);
    (split; [intros E; try discriminate; repeat split; reflexivity|]);
    (split; [intros room Hroom; rewrite ?lookup_insert_ne by congruence;
             reflexivity|]);
    split; reflexivity.
Qed.

(** X26. The handler shows the bot typing, runs the agent, and stops
    the typing notice once the agent has answered.  An answer that is
    not empty is sent to the room of the message, in its thread, with
    the assistant name in front, and the time of the message is
    recorded for the room; an empty or absent answer sends nothing.
    When the agent fails the handler fails with it: nothing is sent
    and the typing notice is not taken back. *)
Theorem processMatrixMessage_reply (message : MatrixMessage.t)
    (roomConfig : option MatrixRoomConfig.t) (isMain : bool) (s : State) :
  let roomId := MatrixMessage.roomId message in
  let folder := folder_of roomConfig isMain roomId in
  let group :=
    RegisteredGroup.mk folder folder
      (Js.nullish (roomConfig ≫= MatrixRoomConfig.triggerPattern) ("@" ++ ASSISTANT_NAME))
      (toISO (Date_now (world s))) in
  let prompt := prompt_of message in
  let answer := runAgent group prompt roomId in
  let result := fst (process message roomConfig isMain s) in
  let s' := snd (process message roomConfig isMain s) in
  let asked := [SetMatrixTyping roomId true; RunAgent group prompt roomId] in
  (answer = None ->
     result = inl AgentFailed
     /\ calls s' = (calls s ++ asked)%list
     /\ lastAgentTimestamp s' = lastAgentTimestamp s)
  /\ (answer = Some None \/ answer = Some (Some "") ->
      result = inr tt
      /\ calls s' = (calls s ++ asked ++ [SetMatrixTyping roomId false])%list
      /\ lastAgentTimestamp s' = lastAgentTimestamp s)
  /\ (forall response, answer = Some (Some response) -> response <> "" ->
      let text := ASSISTANT_NAME ++ ": " ++ response in
      let threadId := MatrixMessage.threadId message in
      result = (if send_resolves roomId text threadId then inr tt else inl SendFailed)
      /\ calls s'
         = (calls s ++ asked
            ++ [SetMatrixTyping roomId false; SendMatrixMessage roomId text threadId])%list
      /\ lastAgentTimestamp s'
         = <[ roomId := MatrixMessage.timestamp message ]> (lastAgentTimestamp s)).
Proof.
  cbv zeta; unfold processMatrixMessage.
  destruct (registeredGroups s !! MatrixMessage.roomId message) as [g|];
    cbv iota beta; cbn [calls lastAgentTimestamp registeredGroups world].
  - repeat apply conj.
    + intros ->; repeat split.
    + intros [-> | ->]; cbn [Js.not_ Js.falsy fst snd calls lastAgentTimestamp];
        rewrite <- !app_assoc; repeat split.
    + intros response -> Hne; destruct response; [contradiction|].
      cbn [Js.not_ Js.falsy default].
      destruct (send_resolves _ _ _); cbn [fst snd calls lastAgentTimestamp];
        rewrite <- !app_assoc; repeat split.
  - repeat apply conj.
    + intros ->; repeat split.
    + intros [-> | ->]; cbn [Js.not_ Js.falsy fst snd calls lastAgentTimestamp];
        rewrite <- !app_assoc; repeat split.
    + intros response -> Hne; destruct response; [contradiction|].
      cbn [Js.not_ Js.falsy default].
      destruct (send_resolves _ _ _); cbn [fst snd calls lastAgentTimestamp];
        rewrite <- !app_assoc; repeat split.
Qed.

End ProcessFacts.

(** ** From a request to the main room *)

Lemma toUpperCase_length (s : string) :
  String.length (Js.toUpperCase s) = String.length s.
Proof. induction s as [|c s IH]; simpl; congruence. Qed.

Lemma symbols_length (e : nat -> N) (start n : nat) :
  String.length (symbols e start n) = n.
Proof.
  revert start; induction n as [|n IH]; intros start; [reflexivity|].
  cbn [symbols]; destruct (symbol_of_get (e start)) as (ch & -> & _).
  simpl; rewrite IH; reflexivity.
Qed.

(** X27. Pairing is what exempts a room from mentions.  Take a room
    with no mention setting of its own, no global setting, more than two
    members, and a message past the checks, with a body in ASCII and a
    time a [Date] can hold, that matches neither pattern:
    before the pending request of that room is approved the message is
    dropped, after it the message reaches the handler, as a message of
    the main room. *)
Theorem pairing_makes_room_main (toISO : Z -> string) (getTime : string -> option Z)
    (config : MatrixConfig.t) (client : MatrixClient) (ASSISTANT_NAME : string)
    (TRIGGER_PATTERN : RegExp) (RegExp_test : RegExp -> string -> bool)
    (onMessage : MatrixMessage.t -> option MatrixRoomConfig.t -> bool -> option string)
    (code : string) (w : World) (p : PendingPairing.t) (c : Z)
    (event : Event.t) (text : string) :
  owner_json (files w) = None ->
  pending_pairing_json (files w) = Some p ->
  getTime (PendingPairing.createdAt p) = Some c ->
  Date_now w - c <= 10 * 60 * 1000 ->
  Js.toUpperCase code = Js.toUpperCase (PendingPairing.code p) ->
  let roomId := PendingPairing.roomId p in
  Admission.passes_prechecks config roomId event text ->
  ascii_text (Admission.body_text event) = true ->
  MatrixMonitor.Date_isValid (Admission.stamped event w) = true ->
  (MatrixMonitor.roomConfig_of config roomId ≫= MatrixRoomConfig.requireMention) = None ->
  MatrixConfig.requireMention config = None ->
  Admission.isDM_in client roomId = false ->
  RegExp_test (MatrixMonitor.mentionPattern config ASSISTANT_NAME) text = false ->
  RegExp_test TRIGGER_PATTERN text = false ->
  let run := MatrixMonitor.room_message config client ASSISTANT_NAME TRIGGER_PATTERN
               RegExp_test toISO onMessage roomId event in
  let w' := snd (Pairing.approvePairing toISO getTime code w) in
  MatrixMonitor.dispatched (fst (run w)) = false
  /\ MatrixMonitor.dispatched (fst (run w')) = true
  /\ exists message,
       List.In (MatrixMonitor.Called_onMessage message
                  (MatrixMonitor.roomConfig_of config roomId) true) (fst (run w')).
Proof.
  intros Ho Hp Hc Hle Hcode roomId Hpre _ Hvalid Hroom Hglobal HDM Hmention Htrigger.
  cbv zeta.
  rewrite (approvePairing_accepts toISO getTime code w p c Hp Hc Hle Hcode); cbn [snd].
  set (w' := without_pending _).
  destruct (room_message_admission config client ASSISTANT_NAME TRIGGER_PATTERN
              RegExp_test toISO onMessage roomId event text w Hpre Hvalid)
    as (Hbefore & _).
  destruct (room_message_admission config client ASSISTANT_NAME TRIGGER_PATTERN
              RegExp_test toISO onMessage roomId event text w' Hpre Hvalid)
    as (Hafter & _ & Hmsg).
  assert (Hmain : Admission.isMain_in w roomId = false)
    by (unfold Admission.isMain_in; rewrite Ho; reflexivity).
  assert (Hmain' : Admission.isMain_in w' roomId = true)
    by (unfold Admission.isMain_in, w'; simpl; apply bool_decide_eq_true_2; reflexivity).
  unfold MatrixMonitor.requireMention_of in Hbefore, Hafter.
  rewrite HDM, Hroom, Hglobal, Hmention, Htrigger in Hbefore, Hafter.
  rewrite Hmain in Hbefore; rewrite Hmain' in Hafter, Hmsg; simpl in Hbefore, Hafter.
  split; [exact Hbefore|]; split; [exact Hafter|].
  destruct (Hmsg Hafter) as (m & Hin & _); eauto.
Qed.

(** X28. A request made on an unpaired system can be redeemed by the
    script for ten minutes: run within that time with the code returned,
    typed in any letter case, the script exits with status 0 and the
    requester is the owner, the requester's room the main room. *)
Theorem request_then_pair (toISO : Z -> string) (getTime : string -> option Z)
    (DATA_DIR MAIN_GROUP_FOLDER : string) (path_join : list string -> string)
    (userId roomId roomName typed : string) (w : World) (dt : Z) :
  (forall t, getTime (toISO t) = Some t) ->
  owner_json (files w) = None ->
  dt <= 10 * 60 * 1000 ->
  let asked := Pairing.createPairingRequest toISO userId roomId roomName w in
  Js.toUpperCase typed = Js.toUpperCase (fst asked) ->
  let run := PairCli.main toISO getTime DATA_DIR MAIN_GROUP_FOLDER path_join
               (Some typed) (tick dt (snd asked)) in
  PairCli.status (fst run) = 0
  /\ owner_json (files (snd run))
     = Some (Owner.mk userId roomId (toISO (Date_now w + dt)))
  /\ pending_pairing_json (files (snd run)) = None.
Proof.
  intros Hround Ho Hdt; cbv zeta.
  rewrite createPairingRequest_run; cbv zeta; cbn [fst snd]; intros Htyped.
  assert (Hne : typed <> "").
  { intros ->. apply (f_equal String.length) in Htyped.
    rewrite !toUpperCase_length, symbols_length in Htyped; discriminate. }
  set (code := symbols (entropy w) (drawn w) 8) in *.
  set (w1 := tick dt _).
  rewrite (main_unpaired toISO getTime DATA_DIR MAIN_GROUP_FOLDER path_join typed w1 Hne)
    by exact Ho.
  rewrite (approvePairing_redeemable toISO getTime typed w1
             (PendingPairing.mk code userId roomId roomName (toISO (Date_now w)))
             eq_refl).
  - repeat split.
  - cbn; rewrite Hround; apply expired_false.
    unfold Pairing.PAIRING_CODE_TTL_MS; lia.
  - exact Htyped.
Qed.

(** ** The further properties at work on examples *)

Example initMatrixClient_on_env :
  fst (Demo.initMatrixClient Demo.s0) = inr Demo.andy_client
  /\ MatrixClientModule.journal (snd (Demo.initMatrixClient Demo.s0))
     = [MatrixClientModule.Setup_autojoin; MatrixClientModule.Added_preprocessor;
        MatrixClientModule.Logged MatrixClientModule.Info "Matrix client initialized"]
  /\ elements (MatrixClientModule.directories (snd (Demo.initMatrixClient Demo.s0)))
     = ["store/matrix"].
Proof. repeat split; vm_compute; reflexivity. Qed.

(** X2 on Alice's request. *)
Lemma approvePairing_then_queries_witness :
  let w' := snd (Pairing.approvePairing DecimalClock.toISOString DecimalClock.getTime
                   "dlt29gpw" w_pending) in
  fst (Pairing.isPaired w') = true
  /\ fst (Pairing.getMainRoomId w') = Some "!ops:example.org".
Proof.
  destruct (approvePairing_then_queries DecimalClock.toISOString DecimalClock.getTime
              "dlt29gpw" w_pending alice_request 1000) as (H1 & H2 & _).
  - reflexivity.
  - reflexivity.
  - vm_compute; discriminate.
  - reflexivity.
  - split; [exact H1 | exact H2].
Defined.

(** X4 on Alice's request, 699 seconds old. *)
Lemma approvePairing_expired_witness :
  Pairing.approvePairing DecimalClock.toISOString DecimalClock.getTime
    "DLT29GPW" Demo.w_expired = (None, without_pending Demo.w_expired).
Proof.
  destruct (approvePairing_expired DecimalClock.toISOString DecimalClock.getTime
              "DLT29GPW" Demo.w_expired alice_request 1000) as (H & _).
  - reflexivity.
  - reflexivity.
  - reflexivity.
  - exact H.
Defined.

(** X5 on a request dated "yesterday", a year later. *)
Lemma unreadable_createdAt_never_expires_witness :
  fst (Pairing.getPendingPairing DecimalClock.getTime (tick 31536000000 Demo.w_odd))
  = Some Demo.odd_request.
Proof.
  destruct (unreadable_createdAt_never_expires DecimalClock.toISOString
              DecimalClock.getTime Demo.w_odd Demo.odd_request eq_refl eq_refl
              31536000000) as (H & _).
  rewrite H; reflexivity.
Defined.

(** X7 on ["  hello "] in the two-member room. *)
Lemma handler_receives_trimmed_text_witness :
  MatrixMessage.content Demo.hello_message <> ""
  /\ MatrixMessage.sender Demo.hello_message <> MatrixConfig.userId Example.config_strict.
Proof.
  destruct (handler_receives_trimmed_text Example.config_strict Example.client "Andy"
              Example.TRIGGER_PATTERN Example.RegExp_test DecimalClock.toISOString
              Example.onMessage "!dm:example.org"
              (Example.says "@alice:example.org" "  hello ") Example.w_owned
              Demo.hello_message None false) as (_ & H1 & _ & _ & _ & H2).
  - reflexivity.
  - vm_compute; tauto.
  - split; [exact H1 | exact H2].
Defined.

(** X8 on the same message. *)
Lemma handler_receives_normalized_record_witness :
  MatrixMessage.senderName Demo.hello_message = "@alice:example.org"
  /\ MatrixMessage.timestamp Demo.hello_message = "1700000000000".
Proof.
  destruct (handler_receives_normalized_record Example.config_strict Example.client
              "Andy" Example.TRIGGER_PATTERN Example.RegExp_test
              DecimalClock.toISOString Example.onMessage "!dm:example.org"
              (Example.says "@alice:example.org" "  hello ") Example.w_owned
              Demo.hello_message None false)
    as (_ & _ & _ & _ & _ & H1 & H2 & _).
  - vm_compute; tauto.
  - split; [apply H1; left; reflexivity|].
    rewrite (H2 1700000000000); [reflexivity | reflexivity | discriminate].
Defined.

(** X9 on the same message: the handler is called once, and nothing is
    thrown. *)
Lemma room_message_contains_handler_failure_witness :
  length (List.filter MatrixMonitor.is_onMessage
            (fst (Demo.room_message "!dm:example.org"
                    (Example.says "@alice:example.org" "  hello ") Example.w_owned)))
  = 1%nat
  /\ ~ List.In MatrixMonitor.Threw_RangeError
        (fst (Demo.room_message "!dm:example.org"
                (Example.says "@alice:example.org" "  hello ") Example.w_owned)).
Proof.
  destruct (room_message_contains_handler_failure Example.config_strict Example.client
              "Andy" Example.TRIGGER_PATTERN Example.RegExp_test
              DecimalClock.toISOString Example.onMessage "!dm:example.org"
              (Example.says "@alice:example.org" "  hello ") Example.w_owned)
    as (_ & _ & H).
  - reflexivity.
  - split; [reflexivity|].
    intros Hin; destruct (H Hin) as (Hv & _); vm_compute in Hv; discriminate.
Defined.

(** X10 on [@andy:example.org]. *)
Lemma buildMentionPattern_shape_witness :
  MatrixMonitor.buildMentionPattern Example.config "Andy"
  = mkRegExp "(@Andy|@andy|@andy:example\.org)" "i".
Proof.
  destruct (buildMentionPattern_shape Example.config Example.client "Andy" "andy"
              "example.org" Example.TRIGGER_PATTERN Example.RegExp_test
              DecimalClock.toISOString Example.onMessage Demo.RegExp_compiles)
    as (H & _).
  - reflexivity.
  - vm_compute; intuition discriminate.
  - rewrite H; reflexivity.
Defined.

(** X11 on Alice's request. *)
Lemma pair_cli_pairs_witness :
  PairCli.status (fst (Example.pair (Some "dlt29gpw") w_pending)) = 0
  /\ owner_json (files (snd (Example.pair (Some "dlt29gpw") w_pending)))
     = Some (Owner.mk "@alice:example.org" "!ops:example.org" "500000").
Proof.
  destruct (pair_cli_pairs DecimalClock.toISOString DecimalClock.getTime "data" "main"
              (String.concat "/") "dlt29gpw" w_pending alice_request 1000)
    as (H1 & _ & H2 & _).
  - discriminate.
  - reflexivity.
  - reflexivity.
  - reflexivity.
  - vm_compute; discriminate.
  - reflexivity.
  - split; [exact H1 | exact H2].
Defined.

(** X12 on Alice's request and a code that is not hers. *)
Lemma pair_cli_wrong_code_prints_valid_code_witness :
  PairCli.printed (fst (Example.pair (Some "AAAAAAAA") w_pending))
  = [PairCli.Stderr "Invalid or expired pairing code.";
     PairCli.Stderr "Current valid code: DLT29GPW"].
Proof.
  unfold Example.pair.
  rewrite (pair_cli_wrong_code_prints_valid_code DecimalClock.toISOString
             DecimalClock.getTime "data" "main" (String.concat "/")
             "AAAAAAAA" w_pending alice_request 1000).
  - reflexivity.
  - discriminate.
  - reflexivity.
  - reflexivity.
  - reflexivity.
  - vm_compute; discriminate.
  - reflexivity.
  - reflexivity.
  - vm_compute; discriminate.
Defined.

(** X13 on Alice's request and a code that is not hers. *)
Lemma pair_cli_status_witness :
  PairCli.status (fst (Example.pair (Some "AAAAAAAA") w_pending)) = 1.
Proof.
  destruct (pair_cli_status DecimalClock.toISOString DecimalClock.getTime "data" "main"
              (String.concat "/") (Some "AAAAAAAA") w_pending)
    as ([H|H] & Hiff & _).
  - reflexivity.
  - intros p [= <-]; reflexivity.
  - exfalso; apply Hiff in H.
    destruct H as (code & [= <-] & _ & _ & p & [= <-] & _ & Hm).
    vm_compute in Hm; discriminate.
  - exact H.
Defined.

(** X14 on the credentials of the environment. *)
Lemma loadMatrixConfig_from_env_witness :
  MatrixClientConfig.loadMatrixConfig Example.JSON_parse Demo.host_env
  = inr (MatrixClientConfig.FromEnv Demo.env_config).
Proof.
  destruct (loadMatrixConfig_from_env Example.JSON_parse Demo.host_env
              "https://matrix.example.org" "@andy:example.org" "secret")
    as (enc & req & H & He & Hr);
    [reflexivity | reflexivity | discriminate | reflexivity | discriminate
    | reflexivity | discriminate |].
  rewrite H.
  destruct enc; [pose proof (proj1 He eq_refl) as E; vm_compute in E; discriminate|].
  destruct req; [reflexivity|].
  pose proof (proj1 Hr eq_refl) as E; vm_compute in E; discriminate.
Defined.

(** X15 in the main room, three members: ["hello"] is dropped. *)
Lemma env_config_decides_mention_witness :
  MatrixMonitor.dispatched
    (fst (MatrixMonitor.room_message Demo.env_config Example.client "Andy"
            Example.TRIGGER_PATTERN Example.RegExp_test DecimalClock.toISOString
            Example.onMessage "!ops:example.org"
            (Example.says "@alice:example.org" "hello") Example.w_owned))
  = false.
Proof.
  rewrite (env_config_decides_mention Example.JSON_parse Demo.host_env Demo.env_config
             Example.client "Andy" Example.TRIGGER_PATTERN Example.RegExp_test
             DecimalClock.toISOString Example.onMessage "!ops:example.org"
             (Example.says "@alice:example.org" "hello") "hello" Example.w_owned).
  - reflexivity.
  - reflexivity.
  - split; [vm_compute; discriminate|]; split.
    + exists (Event.mkContent (Some "m.text") (Some "hello") None), "hello".
      repeat split; vm_compute; discriminate.
    + vm_compute; discriminate.
  - reflexivity.
  - reflexivity.
  - reflexivity.
Defined.

(** X16 on the credentials of the environment. *)
Lemma initMatrixClient_once_witness :
  MatrixClientModule.getMatrixClient (snd (Demo.initMatrixClient Demo.s0))
  = (inr Demo.andy_client, snd (Demo.initMatrixClient Demo.s0)).
Proof.
  destruct (initMatrixClient_once Example.JSON_parse "store" (String.concat "/")
              Demo.MatrixClient_new Demo.s0 (snd (Demo.initMatrixClient Demo.s0))
              Demo.andy_client) as (H & _).
  - reflexivity.
  - exact H.
Defined.

(** X17 where the access token is blank. *)
Lemma initMatrixClient_failure_witness :
  MatrixClientModule.initMatrixClient Example.JSON_parse "store" (String.concat "/")
    Demo.MatrixClient_new Demo.s_blank
  = (inl (MatrixClientModule.Load
            (MatrixClientConfig.ConfigError MatrixClientConfig.credentials_message)),
     Demo.s_blank).
Proof.
  destruct (initMatrixClient_failure Example.JSON_parse "store" (String.concat "/")
              Demo.MatrixClient_new Demo.s_blank) as (H & _).
  - reflexivity.
  - apply H; reflexivity.
Defined.

(** X19 on the credentials of the environment, the file and the
    environment gone afterwards. *)
Lemma getMatrixConfig_caches_witness :
  let s' := snd (MatrixClientModule.getMatrixConfig Example.JSON_parse Demo.s0) in
  fst (MatrixClientModule.getMatrixConfig Example.JSON_parse
         (with_host (MatrixClientConfig.mkHost None ∅) s'))
  = inr (MatrixClientConfig.FromEnv Demo.env_config).
Proof.
  cbv zeta.
  rewrite (getMatrixConfig_caches Example.JSON_parse Demo.s0
             (snd (MatrixClientModule.getMatrixConfig Example.JSON_parse Demo.s0))
             (MatrixClientConfig.FromEnv Demo.env_config)).
  - reflexivity.
  - reflexivity.
  - reflexivity.
Defined.

(** X21 on a reply into the thread of [$root], in the two-member room. *)
Lemma sent_thread_is_received_witness :
  forallb (fun e =>
             match e with
             | MatrixMonitor.Called_onMessage m _ _ =>
                 String.eqb (MatrixMessage.content m) "Andy: done"
                 && bool_decide (MatrixMessage.threadId m = Some "$root")
             | _ => true
             end)
    (fst (Demo.room_message "!dm:example.org" Demo.threaded_reply Example.w_owned))
  = true
  /\ MatrixMonitor.dispatched
       (fst (Demo.room_message "!dm:example.org" Demo.threaded_reply Example.w_owned))
     = true.
Proof.
  split; [|reflexivity].
  apply forallb_forall; intros [| | | | |m rc isMain|] Hin; try reflexivity.
  destruct (sent_thread_is_received Example.config_strict Example.client "Andy"
              Example.TRIGGER_PATTERN Example.RegExp_test DecimalClock.toISOString
              Example.onMessage "!dm:example.org" Demo.threaded_reply
              "  Andy: done " (Some "$root") Example.w_owned m rc isMain eq_refl
              eq_refl Hin)
    as (-> & ->).
  reflexivity.
Defined.

(** X27 on Alice's request: ["hello"] in her room, before and after. *)
Lemma pairing_makes_room_main_witness :
  let run := MatrixMonitor.room_message Example.config Example.client "Andy"
               Example.TRIGGER_PATTERN Example.RegExp_test DecimalClock.toISOString
               Example.onMessage "!ops:example.org"
               (Example.says "@alice:example.org" "hello") in
  MatrixMonitor.dispatched (fst (run w_pending)) = false
  /\ MatrixMonitor.dispatched
       (fst (run (snd (Pairing.approvePairing DecimalClock.toISOString
                         DecimalClock.getTime "dlt29gpw" w_pending)))) = true.
Proof.
  cbv zeta.
  destruct (pairing_makes_room_main DecimalClock.toISOString DecimalClock.getTime
              Example.config Example.client "Andy" Example.TRIGGER_PATTERN
              Example.RegExp_test Example.onMessage "dlt29gpw" w_pending
              alice_request 1000 (Example.says "@alice:example.org" "hello") "hello")
    as (H1 & H2 & _); try reflexivity.
  - vm_compute; discriminate.
  - split; [vm_compute; discriminate|]; split.
    + exists (Event.mkContent (Some "m.text") (Some "hello") None), "hello".
      repeat split; vm_compute; discriminate.
    + vm_compute; discriminate.
  - split; [exact H1 | exact H2].
Defined.

(** X28 on a fresh installation, the code typed in lower case a second
    later. *)
Lemma request_then_pair_witness :
  let asked := Pairing.createPairingRequest DecimalClock.toISOString
                 "@alice:example.org" "!ops:example.org" "Ops" w_fresh in
  PairCli.status (fst (Example.pair (Some "dlt29gpw") (tick 1000 (snd asked)))) = 0.
Proof.
  cbv zeta.
  destruct (request_then_pair DecimalClock.toISOString DecimalClock.getTime
              "data" "main" (String.concat "/")
              "@alice:example.org" "!ops:example.org" "Ops" "dlt29gpw" w_fresh 1000
              DecimalClock_roundtrip) as (H & _).
  - reflexivity.
  - vm_compute; discriminate.
  - reflexivity.
  - exact H.
Defined.

(** X29 in the main room, three members, no setting anywhere: a plain
    "hello" reaches the handler. *)
Lemma requireMention_fallback_chain_witness :
  MatrixMonitor.dispatched
    (fst (MatrixMonitor.room_message Example.config Example.client "Andy"
            Example.TRIGGER_PATTERN Example.RegExp_test DecimalClock.toISOString
            Example.onMessage "!ops:example.org"
            (Example.says "@alice:example.org" "hello") Example.w_owned))
  = true.
Proof.
  destruct (requireMention_fallback_chain Example.config Example.client "Andy"
              Example.TRIGGER_PATTERN Example.RegExp_test DecimalClock.toISOString
              Example.onMessage "!ops:example.org"
              (Example.says "@alice:example.org" "hello") "hello" Example.w_owned)
    as (_ & _ & H).
  - split; [vm_compute; discriminate|]; split.
    + exists (Event.mkContent (Some "m.text") (Some "hello") None), "hello".
      repeat split; vm_compute; discriminate.
    + vm_compute; discriminate.
  - reflexivity.
  - reflexivity.
  - apply H; reflexivity.
Defined.

(** X30 with mentions required everywhere: "hello" reaches the handler in
    the two-member room, and does not where the members cannot be
    fetched. *)
Lemma direct_message_needs_no_mention_witness :
  MatrixMonitor.dispatched
    (fst (MatrixMonitor.room_message Example.config_strict Example.client "Andy"
            Example.TRIGGER_PATTERN Example.RegExp_test DecimalClock.toISOString
            Example.onMessage "!dm:example.org"
            (Example.says "@alice:example.org" "hello") Example.w_owned))
  = true
  /\ MatrixMonitor.dispatched
       (fst (MatrixMonitor.room_message Example.config_strict Example.client "Andy"
               Example.TRIGGER_PATTERN Example.RegExp_test DecimalClock.toISOString
               Example.onMessage "!lost:example.org"
               (Example.says "@alice:example.org" "hello") Example.w_owned))
     = false.
Proof.
  assert (Hpre : forall roomId,
             roomId <> "!off:example.org" ->
             Admission.passes_prechecks Example.config_strict roomId
               (Example.says "@alice:example.org" "hello") "hello").
  { intros roomId Hroom; split; [vm_compute; discriminate|]; split.
    - exists (Event.mkContent (Some "m.text") (Some "hello") None), "hello".
      repeat split; vm_compute; discriminate.
    - unfold MatrixMonitor.roomConfig_of, Example.config_strict, Example.rooms; simpl.
      rewrite lookup_singleton_ne by congruence; discriminate. }
  split.
  - destruct (direct_message_needs_no_mention Example.config_strict Example.client
                "Andy" Example.TRIGGER_PATTERN Example.RegExp_test
                DecimalClock.toISOString Example.onMessage "!dm:example.org"
                (Example.says "@alice:example.org" "hello") "hello" Example.w_owned)
      as (H & _); [apply Hpre; discriminate | reflexivity | reflexivity |].
    apply (H ["@alice:example.org"; "@andy:example.org"]);
      [reflexivity | simpl; lia].
  - destruct (direct_message_needs_no_mention Example.config_strict Example.client
                "Andy" Example.TRIGGER_PATTERN Example.RegExp_test
                DecimalClock.toISOString Example.onMessage "!lost:example.org"
                (Example.says "@alice:example.org" "hello") "hello" Example.w_owned)
      as (_ & H); [apply Hpre; discriminate | reflexivity | reflexivity |].
    apply H; reflexivity.
Defined.
